(** * FeynmanApp: the study/session controller of [src/components/feynman.tsx]

    A shallow embedding of the event handlers of the [FeynmanApp] component
    (the variant with the per-study [messagesMap] / [sessionIdMap], lines
    359-1261 of the file) and the properties its specification states.

    Conventions of the embedding.
    - Strings are [string]s of bytes; titles and keywords are taken to be
      ASCII, and [toLowerCase] / [trim] are the ASCII restrictions of the
      JavaScript methods.
    - A [Date] is its millisecond timestamp, a [Z]; every synchronous
      segment of a handler reads the clock once.
    - The two [Record<string, _>] objects are [gmap string _]; study ids are
      decimal timestamps, so no key collides with a property inherited from
      [Object.prototype].
    - A handler runs against the state it closed over at render time (its
      snapshot): plain reads ([activeStudy], [messagesMap[...]]) see the
      snapshot, functional updates ([setX(prev => ...)]) see the live state.
      An [await] splits a handler into the segment that issues the request
      and the continuation that runs when the exchange resolves.
    - Every state updater is applied once. *)

From stdpp Require Import base gmap list strings pretty.
From Stdlib Require Import ZArith Ascii Permutation Lia.

#[local] Open Scope Z_scope.
#[local] Arguments pretty : simpl never.

(** ** JavaScript string primitives used by the handlers *)

Module Js.

Definition lower_ascii (c : ascii) : ascii :=
  let n := N_of_ascii c in
  if ((65 <=? n) && (n <=? 90))%N then ascii_of_N (n + 32) else c.

(** [String.prototype.toLowerCase] *)
Fixpoint toLowerCase (s : string) : string :=
  match s with
  | EmptyString => EmptyString
  | String c r => String (lower_ascii c) (toLowerCase r)
  end.

(** [String.prototype.includes]: [k] occurs in [s] as a substring. *)
Fixpoint includes (s k : string) : bool :=
  String.prefix k s ||
  match s with
  | EmptyString => false
  | String _ r => includes r k
  end.

Fixpoint trimStart (s : string) : string :=
  match s with
  | EmptyString => EmptyString
  | String c r => if Ascii.is_space c then trimStart r else s
  end.

Fixpoint trimEnd (s : string) : string :=
  match s with
  | EmptyString => EmptyString
  | String c r =>
      match trimEnd r with
      | EmptyString => if Ascii.is_space c then EmptyString else String c EmptyString
      | r' => String c r'
      end
  end.

(** [String.prototype.trim] *)
Definition trim (s : string) : string := trimEnd (trimStart s).

(** Truthiness of a string: only the empty string is falsy. *)
Definition truthy (s : string) : bool :=
  match s with EmptyString => false | _ => true end.

(** Truthiness of a possibly missing string field. *)
Definition truthy_opt (o : option string) : bool :=
  match o with Some s => truthy s | None => false end.

(** [Array.prototype.findIndex] *)
Fixpoint findIndex {A} (p : A → bool) (l : list A) : option nat :=
  match l with
  | [] => None
  | x :: r => if p x then Some 0%nat else S <$> findIndex p r
  end.

End Js.

(** ** Data model (the interfaces at the top of the file) *)

Record User := mkUser {
  user_id : string;
  user_name : string;
  user_email : string;
  user_avatar : option string
}.

Record Study := mkStudy {
  id : string;
  title : string;
  subject : string;
  lastActive : Z;
  progress : Z;
  questionsAnswered : Z;
  difficulty : Z
}.

Record StudyGroup := mkGroup {
  group_id : string;
  group_name : string;
  icon : string;
  color : string;
  studies : list Study
}.

Inductive MessageType := user_msg | ai_msg.

Record Message := mkMessage {
  message_id : string;
  type : MessageType;
  content : string;
  timestamp : Z
}.

#[global] Instance Study_eq_dec : EqDecision Study.
Proof. solve_decision. Defined.
#[global] Instance MessageType_eq_dec : EqDecision MessageType.
Proof. solve_decision. Defined.
#[global] Instance Message_eq_dec : EqDecision Message.
Proof. solve_decision. Defined.

(** ** Subject classification *)

(** The [subjectKeywords] object; [Object.entries] enumerates its string
    keys in insertion order. *)
Definition subjectKeywords : list (string * list string) :=
  [ ("Physics", ["physics"; "quantum"; "mechanics"; "thermodynamics"; "energy"; "force"]);
    ("Biology", ["biology"; "cell"; "dna"; "evolution"; "organism"; "photosynthesis"]);
    ("Mathematics", ["math"; "calculus"; "algebra"; "geometry"; "statistics"; "equation"]);
    ("Chemistry", ["chemistry"; "molecule"; "reaction"; "element"; "compound"]);
    ("Computer Science", ["programming"; "algorithm"; "data structure"; "computer"; "code"]);
    ("Economics", ["economics"; "market"; "supply"; "demand"; "finance"; "trade"]) ].

(** [keywords.some(keyword => topicLower.includes(keyword))] *)
Definition some_keyword (topicLower : string) (keywords : list string) : bool :=
  existsb (λ keyword, Js.includes topicLower keyword) keywords.

(** The [for ... of Object.entries(...)] loop with its early [return]. *)
Fixpoint first_subject (topicLower : string) (entries : list (string * list string)) : string :=
  match entries with
  | [] => "General"
  | (subject, keywords) :: rest =>
      if some_keyword topicLower keywords then subject
      else first_subject topicLower rest
  end.

Definition determineSubject (topic : string) : string :=
  let topicLower := Js.toLowerCase topic in
  first_subject topicLower subjectKeywords.

(** A keyword set matches a title when one of its keywords is a substring
    of the lowered title. *)
Definition matches (topic : string) (keywords : list string) : Prop :=
  ∃ k pre post, k ∈ keywords ∧ Js.toLowerCase topic = pre +:+ k +:+ post.

(** The static icon and colour tables, with their [|| default]. *)
Definition getSubjectIcon (subject : string) : string :=
  let icons : list (string * string) :=
    [ ("Physics", "⚛️"); ("Biology", "🧬"); ("Mathematics", "📐");
      ("Chemistry", "🧪"); ("Computer Science", "💻"); ("Economics", "📊");
      ("General", "📚") ] in
  match (list_to_map icons : gmap string string) !! subject with
  | Some i => if Js.truthy i then i else "📚"
  | None => "📚"
  end.

Definition getSubjectColor (subject : string) : string :=
  let colors : list (string * string) :=
    [ ("Physics", "blue"); ("Biology", "green"); ("Mathematics", "purple");
      ("Chemistry", "orange"); ("Computer Science", "indigo"); ("Economics", "red");
      ("General", "gray") ] in
  match (list_to_map colors : gmap string string) !! subject with
  | Some c => if Js.truthy c then c else "gray"
  | None => "gray"
  end.

(** ** Component state *)

(** The [useState] cells the handlers read and write. *)
Record State := mkState {
  user : option User;
  studyGroups : list StudyGroup;
  activeStudy : option Study;
  messages : list Message;
  messagesMap : gmap string (list Message);
  sessionIdMap : gmap string string;
  inputValue : string;
  isConnected : bool;
  isLoading : bool;
  isInitializingStudy : bool
}.

Definition setUser (v : option User) (s : State) : State :=
  mkState v (studyGroups s) (activeStudy s) (messages s) (messagesMap s)
          (sessionIdMap s) (inputValue s) (isConnected s) (isLoading s) (isInitializingStudy s).
Definition setIsConnected (v : bool) (s : State) : State :=
  mkState (user s) (studyGroups s) (activeStudy s) (messages s) (messagesMap s)
          (sessionIdMap s) (inputValue s) v (isLoading s) (isInitializingStudy s).
Definition setStudyGroups (f : list StudyGroup → list StudyGroup) (s : State) : State :=

  mkState (user s) (f (studyGroups s)) (activeStudy s) (messages s) (messagesMap s)
          (sessionIdMap s) (inputValue s) (isConnected s) (isLoading s) (isInitializingStudy s).
Definition setActiveStudy (v : option Study) (s : State) : State :=
  mkState (user s) (studyGroups s) v (messages s) (messagesMap s)
          (sessionIdMap s) (inputValue s) (isConnected s) (isLoading s) (isInitializingStudy s).
Definition setMessages (f : list Message → list Message) (s : State) : State :=
  mkState (user s) (studyGroups s) (activeStudy s) (f (messages s)) (messagesMap s)
          (sessionIdMap s) (inputValue s) (isConnected s) (isLoading s) (isInitializingStudy s).
Definition setMessagesMap (f : gmap string (list Message) → gmap string (list Message))
    (s : State) : State :=
  mkState (user s) (studyGroups s) (activeStudy s) (messages s) (f (messagesMap s))
          (sessionIdMap s) (inputValue s) (isConnected s) (isLoading s) (isInitializingStudy s).
Definition setSessionIdMap (f : gmap string string → gmap string string) (s : State) : State :=
  mkState (user s) (studyGroups s) (activeStudy s) (messages s) (messagesMap s)
          (f (sessionIdMap s)) (inputValue s) (isConnected s) (isLoading s) (isInitializingStudy s).
Definition setInputValue (v : string) (s : State) : State :=
  mkState (user s) (studyGroups s) (activeStudy s) (messages s) (messagesMap s)
          (sessionIdMap s) v (isConnected s) (isLoading s) (isInitializingStudy s).
Definition setIsLoading (v : bool) (s : State) : State :=
  mkState (user s) (studyGroups s) (activeStudy s) (messages s) (messagesMap s)
          (sessionIdMap s) (inputValue s) (isConnected s) v (isInitializingStudy s).
Definition setIsInitializingStudy (v : bool) (s : State) : State :=
  mkState (user s) (studyGroups s) (activeStudy s) (messages s) (messagesMap s)
          (sessionIdMap s) (inputValue s) (isConnected s) (isLoading s) v.

(** ** The backend contract: [POST {base}/chat] *)

Record ChatRequest := mkRequest {
  req_message : string;
  req_session_id : option string      (* [None] is JSON [null] *)
}.

Record ChatData := mkData {
  response : option string;
  session_id : option string;
  phase : option string
}.

(** How an exchange ends: [fetch] rejects, the status is not 2xx or the
    body is not JSON ([Rejected], the promise of [sendMessageToBackend]
    rejects), or the parsed body is returned. *)
Inductive Outcome := Rejected | Returned (data : ChatData).

(** The handler suspended at its [await sendMessageToBackend(...)]. *)
Inductive Awaiting :=
  | InStartNewStudy (newStudy : Study) (topic : string)
  | InContinueStudySession (study : Study)
  | InSendMessage.

Record Exchange := mkExchange {
  request : ChatRequest;
  closure : State;          (* the state the suspended handler closed over *)
  awaiting : Awaiting
}.

(** The component between two events: committed state, the
    [messageIdRef] cell (shared by all closures), the exchanges in flight
    and the log of every request issued so far. *)
Record World := mkWorld {
  state : State;
  messageIdRef : Z;
  inflight : list Exchange;
  sent : list ChatRequest
}.

Definition update (f : State → State) (w : World) : World :=
  mkWorld (f (state w)) (messageIdRef w) (inflight w) (sent w).

Definition initial : World :=
  mkWorld (mkState None [] None [] ∅ ∅ "" false false false) 0 [] [].

(** [generateMessageId]: bump the ref, format the id. *)
Definition generateMessageId (now : Z) (w : World) : string * World :=
  let n := messageIdRef w + 1 in
  ("msg_" +:+ pretty now +:+ "_" +:+ pretty n,
   mkWorld (state w) n (inflight w) (sent w)).

(** ** Authentication and the health probe *)

(** [handleLogin]: the part that touches the state above. *)
Definition handleLogin (name email : string) (now : Z) (w : World) : World :=
  let newUser :=
    mkUser (pretty now) name email
           (Some ("https://api.dicebear.com/7.x/avataaars/svg?seed=" +:+ name)) in
  update (setUser (Some newUser)) w.

Definition handleLogout (w : World) : World := update (setUser None) w.

(** [checkBackendHealth] once its probe has ended: [ok] is [response.ok],
    or [false] when [fetch] threw. *)
Definition checkBackendHealth (ok : bool) (w : World) : World :=
  update (setIsConnected ok) w.

(** ** [sendMessageToBackend] *)

(** The session id put in the request body, computed from the snapshot. *)
Definition sessionIdToUse (snap : State) (forceNewSession : bool) : option string :=
  match activeStudy snap with
  | Some a =>
      if forceNewSession then None
      else match sessionIdMap snap !! id a with
           | Some sid => if Js.truthy sid then Some sid else None
           | None => None
           end
  | None => None
  end.

(** Up to the [await fetch(...)]: raise [isLoading], issue the request and
    suspend the calling handler [k]. *)
Definition sendMessageToBackend (snap : State) (message : string)
    (forceNewSession : bool) (k : Awaiting) (w : World) : World :=
  let req := mkRequest message (sessionIdToUse snap forceNewSession) in
  mkWorld (setIsLoading true (state w)) (messageIdRef w)
          (inflight w ++ [mkExchange req snap k]) (sent w ++ [req]).

(** After the [await]: record the backend's session id under the snapshot's
    active study, and lower [isLoading] in the [finally]. *)
Definition backendReturns (snap : State) (o : Outcome) (s : State) : State :=
  let s1 :=
    match o with
    | Returned data =>
        match session_id data, activeStudy snap with
        | Some sid, Some a =>
            if Js.truthy sid then setSessionIdMap (λ prev, <[id a := sid]> prev) s else s
        | _, _ => s
        end
    | Rejected => s
    end in
  setIsLoading false s1.

(** ** [startNewStudy] *)

Definition newStudyOf (topic : string) (now : Z) : Study :=
  mkStudy (pretty now) topic (determineSubject topic) now 0 0 1.

(** [group.studies.unshift(newStudy)] *)
Definition unshiftStudy (newStudy : Study) (g : StudyGroup) : StudyGroup :=
  mkGroup (group_id g) (group_name g) (icon g) (color g) (newStudy :: studies g).

(** The updater passed to [setStudyGroups] by [startNewStudy]. It copies
    the array of groups and unshifts into the group it finds, in place; with
    the updater applied once this is the list with the study put at the
    front of that group. [Shared] below has the group objects and what
    further applications do. *)
Definition addToStudyGroups (newStudy : Study) (prev : list StudyGroup) : list StudyGroup :=
  let subj := subject newStudy in
  match Js.findIndex (λ group, bool_decide (group_name group = subj)) prev with
  | Some existingGroupIndex => alter (unshiftStudy newStudy) existingGroupIndex prev
  | None =>
      let newGroup :=
        mkGroup (Js.toLowerCase subj) subj (getSubjectIcon subj) (getSubjectColor subj)
                [newStudy] in
      newGroup :: prev
  end.

(** ** The group objects the updater shares

    The groups of the [studyGroups] cell are objects, and a value of the
    cell is an array of references to them. [[...prev]] copies the array and
    not the groups, so [updated[existingGroupIndex].studies.unshift(newStudy)]
    writes into a group that [prev] holds too: what the updater returns
    depends on how often React has applied it to that [prev]. *)
Module Shared.

(** The groups an array of references shows, in a store [h] of group
    objects: the object of reference [r] is cell [r]. *)
Definition deref (h : list StudyGroup) (arr : list nat) : list StudyGroup :=
  omap (λ r, h !! r) arr.

(** [group => group.name === subject], read through a reference. *)
Definition named (h : list StudyGroup) (subj : string) (r : nat) : bool :=
  match h !! r with
  | Some group => bool_decide (group_name group = subj)
  | None => false
  end.

(** One application of the updater of [startNewStudy] to the array
    [prev]: the array returned and the store left behind. *)
Definition updater (newStudy : Study) (prev : list nat) (h : list StudyGroup) : list nat * list StudyGroup :=
  let subj := subject newStudy in
  match Js.findIndex (named h subj) prev with
  | Some existingGroupIndex =>
      let updated := prev in
      match updated !! existingGroupIndex with
      | Some r => (updated, alter (unshiftStudy newStudy) r h)
      | None => (updated, h)
      end
  | None =>
      let newGroup :=
        mkGroup (Js.toLowerCase subj) subj (getSubjectIcon subj) (getSubjectColor subj)
                [newStudy] in
      (length h :: prev, h ++ [newGroup])
  end.

(** React applies an updater to the same [prev] once and, when it invokes
    it again (twice in all under StrictMode), [extra] more times, and keeps
    the array one of the applications returns: here the last (they all show
    the same groups in the store left behind). *)
Fixpoint applied (extra : nat) (newStudy : Study) (prev : list nat) (h : list StudyGroup)
    : list nat * list StudyGroup :=
  match extra with
  | O => updater newStudy prev h
  | S extra => applied extra newStudy prev (updater newStudy prev h).2
  end.

(** The value of the cell after the updater was applied [1 + extra] times
    to [prev], every group of [prev] being an object of its own (a group is
    made by the updater above or by the [map] of [sendMessage], and is put in
    one place of one array). *)
Definition reapplied (extra : nat) (newStudy : Study) (prev : list StudyGroup)
    : list StudyGroup :=
  let '(arr, h) := applied extra newStudy (seq 0 (length prev)) prev in
  deref h arr.

End Shared.

(** [if (activeStudy) setMessagesMap(prev => ({...prev, [activeStudy.id]: messages}))] *)
Definition flushActive (snap : State) (s : State) : State :=
  match activeStudy snap with
  | Some a => setMessagesMap (λ prev, <[id a := messages snap]> prev) s
  | None => s
  end.

(** The double quote character. *)
Definition dquote : ascii := ascii_of_N 34.

Definition startNewStudy_fallback (topic : string) : string :=
  "Great! Let's start learning about " +:+ String dquote topic +:+
  String dquote ". I'll use the Feynman Technique to help you master this concept. Can you begin by explaining what you already know about this topic in simple terms?".

Definition startNewStudy (topic : string) (now : Z) (w : World) : World :=
  let snap := state w in
  match user snap with
  | None => w
  | Some _ =>
      let newStudy := newStudyOf topic now in
      let w := update (setStudyGroups (addToStudyGroups newStudy)) w in
      let w := update (flushActive snap) w in
      let w := update (setActiveStudy (Some newStudy)) w in
      let w := update (setMessages (λ _, [])) w in
      sendMessageToBackend snap ("I want to learn about " +:+ topic) true
                           (InStartNewStudy newStudy topic) w
  end.

(** [startNewStudy] when React applies the updater it passes to
    [setStudyGroups] [1 + extra] times. The other updaters of the handlers
    build new objects and return the same value however often they are
    applied; this one writes into a group of [prev]. *)
Definition startNewStudy_reapplied (extra : nat) (topic : string) (now : Z) (w : World)
    : World :=
  let snap := state w in
  match user snap with
  | None => w
  | Some _ =>
      let newStudy := newStudyOf topic now in
      let w := update (setStudyGroups (Shared.reapplied extra newStudy)) w in
      let w := update (flushActive snap) w in
      let w := update (setActiveStudy (Some newStudy)) w in
      let w := update (setMessages (λ _, [])) w in
      sendMessageToBackend snap ("I want to learn about " +:+ topic) true
                           (InStartNewStudy newStudy topic) w
  end.

(** The part of [startNewStudy] after its [await]. *)
Definition startNewStudy_resume (snap : State) (newStudy : Study) (topic : string)
    (o : Outcome) (now : Z) (w : World) : World :=
  let w := update (backendReturns snap o) w in
  match o with
  | Returned data =>
      match response data with
      | Some text =>
          if Js.truthy text then
            let '(mid, w) := generateMessageId now w in
            let aiMessage := mkMessage mid ai_msg text now in
            let w := update (setMessages (λ _, [aiMessage])) w in
            update (setMessagesMap (λ prev, <[id newStudy := [aiMessage]]> prev)) w
          else w
      | None => w
      end
  | Rejected =>
      let '(mid, w) := generateMessageId now w in
      let fallbackMessage := mkMessage mid ai_msg (startNewStudy_fallback topic) now in
      let w := update (setMessages (λ _, [fallbackMessage])) w in
      update (setMessagesMap (λ prev, <[id newStudy := [fallbackMessage]]> prev)) w
  end.

(** ** [switchToStudy] and [continueStudySession] *)

(** [!sessionIdMap[study.id] && messagesMap[study.id]?.length === 0]:
    on a missing entry [?.length] is [undefined], and [undefined === 0] is
    false. *)
Definition needsSession (snap : State) (study : Study) : bool :=
  negb (Js.truthy_opt (sessionIdMap snap !! id study)) &&
  match messagesMap snap !! id study with
  | Some ms => bool_decide (length ms = 0%nat)
  | None => false
  end.

Definition continueStudySession (snap : State) (study : Study) (w : World) : World :=
  if needsSession snap study then
    let w := update (setIsInitializingStudy true) w in
    sendMessageToBackend snap ("I want to continue learning about " +:+ title study) true
                         (InContinueStudySession study) w
  else w.

Definition continueStudySession_resume (snap : State) (study : Study)
    (o : Outcome) (now : Z) (w : World) : World :=
  let w := update (backendReturns snap o) w in
  let w :=
    match o with
    | Returned data =>
        match response data with
        | Some text =>
            if Js.truthy text then
              let '(mid, w) := generateMessageId now w in
              let aiMessage := mkMessage mid ai_msg text now in
              let w := update (setMessages (λ _, [aiMessage])) w in
              update (setMessagesMap (λ prev, <[id study := [aiMessage]]> prev)) w
            else w
        | None => w
        end
    | Rejected => w
    end in
  update (setIsInitializingStudy false) w.

Definition switchToStudy (study : Study) (w : World) : World :=
  let snap := state w in
  let w := update (flushActive snap) w in
  let w := update (setActiveStudy (Some study)) w in
  let w := update (setMessages (λ _, default [] (messagesMap snap !! id study))) w in
  if needsSession snap study then continueStudySession snap study w else w.

(** ** [sendMessage] *)

(** [setMessages(prev => { const newMessages = [...prev, m]; if (activeStudy)
    setMessagesMap(...newMessages...); return newMessages; })] *)
Definition appendMessage (snap : State) (m : Message) (s : State) : State :=
  let newMessages := messages s ++ [m] in
  let s :=
    match activeStudy snap with
    | Some a => setMessagesMap (λ prevMap, <[id a := newMessages]> prevMap) s
    | None => s
    end in
  setMessages (λ _, newMessages) s.

Definition sendMessage_fallback (connected : bool) : string :=
  if connected
  then "I'm having trouble processing your response right now. Please try again in a moment."
  else "I'm currently offline. Your message has been saved and I'll respond when the connection is restored.".

(** [{...activeStudy, lastActive, questionsAnswered, progress}] *)
Definition updatedStudyOf (a : Study) (ph : string) (now : Z) : Study :=
  mkStudy (id a) (title a) (subject a) now
          (if bool_decide (ph = "feynman_tutoring")
           then Z.min (progress a + 10) 100 else progress a)
          (questionsAnswered a + 1)
          (difficulty a).

(** The updater passed to [setStudyGroups] by [sendMessage]. *)
Definition replaceInStudyGroups (a updatedStudy : Study) (prev : list StudyGroup)
    : list StudyGroup :=
  (λ group,
     mkGroup (group_id group) (group_name group) (icon group) (color group)
             ((λ study, if bool_decide (id study = id a) then updatedStudy else study)
                <$> studies group))
    <$> prev.

Definition sendMessage (now : Z) (w : World) : World :=
  let snap := state w in
  match Js.truthy (Js.trim (inputValue snap)), activeStudy snap with
  | true, Some _ =>
      let '(mid, w) := generateMessageId now w in
      let userMessage := mkMessage mid user_msg (inputValue snap) now in
      let w := update (appendMessage snap userMessage) w in
      let currentInput := inputValue snap in
      let w := update (setInputValue "") w in
      sendMessageToBackend snap currentInput false InSendMessage w
  | _, _ => w
  end.

(** The part of [sendMessage] after its [await]. *)
Definition sendMessage_resume (snap : State) (o : Outcome) (now : Z) (w : World) : World :=
  let w := update (backendReturns snap o) w in
  match o with
  | Returned data =>
      match response data with
      | Some text =>
          if Js.truthy text then
            let '(mid, w) := generateMessageId now w in
            let aiMessage := mkMessage mid ai_msg text now in
            let w := update (appendMessage snap aiMessage) w in
            match phase data, activeStudy snap with
            | Some ph, Some a =>
                if Js.truthy ph then
                  let updatedStudy := updatedStudyOf a ph now in
                  let w := update (setActiveStudy (Some updatedStudy)) w in
                  update (setStudyGroups (replaceInStudyGroups a updatedStudy)) w
                else w
            | _, _ => w
            end
          else w
      | None => w
      end
  | Rejected =>
      let '(mid, w) := generateMessageId now w in
      let fallbackMessage :=
        mkMessage mid ai_msg (sendMessage_fallback (isConnected snap)) now in
      update (appendMessage snap fallbackMessage) w
  end.

(** ** Resolution of an exchange in flight *)

Definition resume (e : Exchange) (o : Outcome) (now : Z) (w : World) : World :=
  match awaiting e with
  | InStartNewStudy newStudy topic => startNewStudy_resume (closure e) newStudy topic o now w
  | InContinueStudySession study => continueStudySession_resume (closure e) study o now w
  | InSendMessage => sendMessage_resume (closure e) o now w
  end.

(** The [n]-th exchange in flight ends with outcome [o]. *)
Definition resolve (n : nat) (o : Outcome) (now : Z) (w : World) : World :=
  match inflight w !! n with
  | Some e =>
      resume e o now (mkWorld (state w) (messageIdRef w) (delete n (inflight w)) (sent w))
  | None => w
  end.

(** ** The controls that invoke the handlers (the JSX at the end of the file) *)

(** [onKeyPress] of the text input. *)
Definition input_onKeyPress_Enter (now : Z) (w : World) : World :=
  if negb (isLoading (state w)) && negb (isInitializingStudy (state w))
  then sendMessage now w else w.

(** [disabled] of the send button. *)
Definition send_disabled (s : State) : bool :=
  negb (Js.truthy (Js.trim (inputValue s))) || isLoading s || isInitializingStudy s.

(** [onClick] of the send button (a disabled button gets no click). *)
Definition send_onClick (now : Z) (w : World) : World :=
  if send_disabled (state w) then w
  else match activeStudy (state w) with
       | Some _ => sendMessage now w
       | None => startNewStudy (inputValue (state w)) now w
       end.

(** [onClick] of a study row in the sidebar: not gated by any flag. *)
Definition study_onClick (study : Study) (w : World) : World :=
  switchToStudy study w.

(** [onChange] of the text input. *)
Definition input_onChange (text : string) (w : World) : World :=
  update (setInputValue text) w.

(** ** Events and runs *)

Inductive Event :=
  | Login (name email : string) (now : Z)
  | Logout
  | Health (ok : bool)
  | StartNewStudy (topic : string) (now : Z)
  | SwitchToStudy (study : Study)
  | SendMessage (now : Z)
  | Type_ (text : string)
  | Resolve (n : nat) (o : Outcome) (now : Z).

Definition step (w : World) (e : Event) : World :=
  match e with
  | Login name email now => handleLogin name email now w
  | Logout => handleLogout w
  | Health ok => checkBackendHealth ok w
  | StartNewStudy topic now => startNewStudy topic now w
  | SwitchToStudy study => switchToStudy study w
  | SendMessage now => sendMessage now w
  | Type_ text => input_onChange text w
  | Resolve n o now => resolve n o now w
  end.

Definition run (w : World) (es : list Event) : World := foldl step w es.

(** One complete [sendMessage]: the user types [text] and submits, and the
    exchange this starts ends with [o] before any other event. *)
Definition exchange (text : string) (o : Outcome) (now now' : Z) (w : World) : World :=
  resolve (length (inflight w)) o now' (sendMessage now (input_onChange text w)).

(** A run of complete exchanges, one after the other. *)
Definition exchanges (xs : list (string * Outcome * Z * Z)) (w : World) : World :=
  foldl (λ w x, let '(text, o, now, now') := x in exchange text o now now' w) w xs.

(** ** Vocabulary of the statements *)

(** The user message [sendMessage] builds. *)
Definition userMessageOf (now : Z) (w : World) : Message :=
  mkMessage ("msg_" +:+ pretty now +:+ "_" +:+ pretty (messageIdRef w + 1))
            user_msg (inputValue (state w)) now.

(** The AI message appended for a reply, if the reply is truthy. *)
Definition aiMessagesOf (d : ChatData) (now' : Z) (r : Z) : list Message :=
  match response d with
  | Some text =>
      if Js.truthy text
      then [mkMessage ("msg_" +:+ pretty now' +:+ "_" +:+ pretty (r + 1)) ai_msg text now']
      else []
  | None => []
  end.

(** What is in flight in a run of [startNewStudy] calls. *)
Definition awaits_start (e : Exchange) : Prop :=
  match awaiting e with InStartNewStudy _ _ => True | _ => False end.

(** The studies a run creates, oldest first. *)
Definition created (es : list Event) : list Study :=
  omap (λ e, match e with
             | StartNewStudy topic now => Some (newStudyOf topic now)
             | _ => None
             end) es.

(** Runs made of [startNewStudy] calls and the ends of their exchanges. *)
Definition starts_only (es : list Event) : Prop :=
  Forall (λ e, match e with StartNewStudy _ _ | Resolve _ _ _ => True | _ => False end) es.

(** [gs] groups the studies [cr] (newest first) by subject: one group per
    subject, ordered by the first creation of the subject, newest first;
    each holding the studies of its subject in the order of [cr]. *)
Definition grouped (gs : list StudyGroup) (cr : list Study) : Prop :=
  group_name <$> gs = remove_dups (subject <$> cr)
  ∧ (∀ g, g ∈ gs → studies g = filter (λ s, subject s = group_name g) cr)
  ∧ concat (studies <$> gs) ≡ₚ cr.

(** [k] is the id of a study created before time [b]. *)
Definition known (b : Z) (k : string) : Prop := ∃ t : Z, k = pretty t ∧ t < b.

(** Every study id the component holds (keys of the session-id map, the
    active study, the studies of the groups, the active study of every
    suspended handler) was created before time [b]. *)
Definition ids_below (b : Z) (w : World) : Prop :=
  (∀ k, is_Some (sessionIdMap (state w) !! k) → known b k)
  ∧ (∀ a, activeStudy (state w) = Some a → known b (id a))
  ∧ (∀ e a, e ∈ inflight w → activeStudy (closure e) = Some a → known b (id a))
  ∧ (∀ g s, g ∈ studyGroups (state w) → s ∈ studies g → known b (id s)).

(** ** Sample states *)


Module Sample.

Definition t0 : Z := 1700000000000.

(** A user has logged in and the health probe has failed. *)
Definition offline : World :=
  run initial [Login "Ada" "ada@example.org" t0; Health false].

Definition quantum : Study := newStudyOf "Quantum Physics" (t0 + 1000).
Definition calculus : Study := newStudyOf "Calculus" (t0 + 5000).

(** "Quantum Physics" was started and the backend answered. *)
Definition studying : World :=
  run offline
    [ Health true;
      StartNewStudy "Quantum Physics" (t0 + 1000);
      Resolve 0 (Returned (mkData (Some "Let's begin...") (Some "s1") (Some "intro")))
              (t0 + 1200) ].

(** Then "Calculus" was started, and its first exchange came back with an
    empty body. *)
Definition two_studies : World :=
  run studying
    [ StartNewStudy "Calculus" (t0 + 5000);
      Resolve 0 (Returned (mkData None None None)) (t0 + 5200) ].

End Sample.

(** ** The remaining controls of the chat view *)

(** [onClick] of the "New Study Session" button (the [currentView] cell it
    also sets is not read by any handler and is left out of [State]). *)
Definition newSession_onClick (w : World) : World :=
  let snap := state w in
  let w := update (flushActive snap) w in
  let w := update (setActiveStudy None) w in
  update (setMessages (λ _, [])) w.

(** The states the component reaches from [initial], with the time before
    which every study was created, when React applies the updater of
    [startNewStudy] at most [1 + m] times ([m = 0]: every updater is applied
    once). The clock does not go back between two [startNewStudy] calls that
    create a study, and a study row exists only for a study of the
    directory. *)
Inductive reachable (m : nat) : Z → World → Prop :=
  | reach_initial : reachable m 0 initial
  | reach_login b w name email now :
      reachable m b w → reachable m b (handleLogin name email now w)
  | reach_logout b w : reachable m b w → reachable m b (handleLogout w)
  | reach_health b w ok : reachable m b w → reachable m b (checkBackendHealth ok w)
  | reach_type b w text : reachable m b w → reachable m b (input_onChange text w)
  | reach_start b w extra topic now :
      reachable m b w → (extra ≤ m)%nat → b ≤ now →
      reachable m (now + 1) (startNewStudy_reapplied extra topic now w)
  | reach_switch b w g study :
      reachable m b w → g ∈ studyGroups (state w) → study ∈ studies g →
      reachable m b (switchToStudy study w)
  | reach_new_session b w : reachable m b w → reachable m b (newSession_onClick w)
  | reach_send b w now : reachable m b w → reachable m b (sendMessage now w)
  | reach_resolve b w n o now : reachable m b w → reachable m b (resolve n o now w).

(** What the user can do in the chat view: each constructor is one control
    of the JSX, with the gate the JSX puts on it. *)
Inductive Control :=
  | PressEnter (now : Z)
  | ClickSend (now : Z)
  | ClickStudy (study : Study)
  | ClickNewSession
  | ClickTopic (topic : string) (now : Z)
  | TypeText (text : string)
  | Arrives (n : nat) (o : Outcome) (now : Z).

(** The topics offered on the welcome screen. *)
Definition suggestedTopics : list string :=
  ["Quantum Physics"; "Machine Learning"; "Calculus"; "Cell Biology"; "Economics"; "Chemistry"].

(** The welcome screen with its topic buttons is rendered only while no
    study is active; the text input is disabled while an exchange runs. *)
Definition control (w : World) (c : Control) : World :=
  match c with
  | PressEnter now => input_onKeyPress_Enter now w
  | ClickSend now => send_onClick now w
  | ClickStudy study => study_onClick study w
  | ClickNewSession => newSession_onClick w
  | ClickTopic topic now =>
      match activeStudy (state w) with
      | None => if bool_decide (topic ∈ suggestedTopics) then startNewStudy topic now w else w
      | Some _ => w
      end
  | TypeText text =>
      if isLoading (state w) || isInitializingStudy (state w) then w
      else input_onChange text w
  | Arrives n o now => resolve n o now w
  end.

(** The controls that reach the backend only through the text input and
    the send button. *)
Definition typing_only (c : Control) : Prop :=
  match c with
  | PressEnter _ | ClickSend _ | TypeText _ | Arrives _ _ _ => True
  | _ => False
  end.


(** [formatTime], with [now] the clock reading of [new Date()] and [date]
    the timestamp formatted; [Math.floor] of the quotient is [Z.div]. *)
Definition formatTime (now date : Z) : string :=
  let diff := now - date in
  let minutes := diff / (1000 * 60) in
  let hours := diff / (1000 * 60 * 60) in
  let days := diff / (1000 * 60 * 60 * 24) in
  if minutes <? 60 then pretty minutes +:+ "m ago"
  else if hours <? 24 then pretty hours +:+ "h ago"
  else pretty days +:+ "d ago".

(** The id [generateMessageId] formats from the clock and the counter. *)
Definition messageIdOf (now n : Z) : string :=
  "msg_" +:+ pretty now +:+ "_" +:+ pretty n.

(** ** Authentication, theme and their persistence *)

(** The cells of the shell around the chat view. *)
Record Shell := mkShell {
  mounted : bool;
  isAuthenticated : bool;
  showLoginModal : bool;
  isDarkMode : bool
}.

(** The component with its shell, [localStorage] ([None] when every access
    to it throws) and the number of health probes issued. *)
Record App := mkApp {
  world : World;
  shell : Shell;
  localStorage : option (gmap string string);
  probes : nat
}.

Definition fresh_app (ls : option (gmap string string)) : App :=
  mkApp initial (mkShell false false false false) ls 0.

Section Persistence.

(** [JSON.stringify] and [JSON.parse] on user objects; [None] is a
    [SyntaxError]. *)
Variable JSON_stringify : User → string.
Variable JSON_parse : string → option User.

(** The two [useEffect]s that run when the component mounts: [setMounted],
    then the restore of the saved user and theme and the health probe, all
    inside one [try]. *)
Definition mount (a : App) : App :=
  let sh := shell a in
  let sh := mkShell true (isAuthenticated sh) (showLoginModal sh) (isDarkMode sh) in
  match localStorage a with
  | None => mkApp (world a) sh None (probes a)
  | Some ls =>
      let savedUser := ls !! "feynman_user" in
      let restored :=
        if Js.truthy_opt savedUser
        then match JSON_parse (default "" savedUser) with
             | Some parsedUser => Some (Some parsedUser)
             | None => None
             end
        else Some None in
      match restored with
      | None => mkApp (world a) sh (Some ls) (probes a)
      | Some u =>
          let w := match u with
                   | Some parsedUser => update (setUser (Some parsedUser)) (world a)
                   | None => world a
                   end in
          let sh := match u with
                    | Some _ => mkShell true true (showLoginModal sh) (isDarkMode sh)
                    | None => sh
                    end in
          let sh := if bool_decide (ls !! "feynman_theme" = Some "dark")
                    then mkShell (mounted sh) (isAuthenticated sh) (showLoginModal sh) true
                    else sh in
          mkApp w sh (Some ls) (S (probes a))
      end
  end.

(** [toggleDarkMode] *)
Definition toggleDarkMode (a : App) : App :=
  let sh := shell a in
  let newMode := negb (isDarkMode sh) in
  let sh := mkShell (mounted sh) (isAuthenticated sh) (showLoginModal sh) newMode in
  mkApp (world a) sh
        (<["feynman_theme" := if newMode then "dark" else "light"]> <$> localStorage a)
        (probes a).

(** The whole of [handleLogin]: the state, the saved user, the probe. When
    [localStorage] throws, the handler ends there, after its state updates. *)
Definition login (name email : string) (now : Z) (a : App) : App :=
  let w := handleLogin name email now (world a) in
  let sh := shell a in
  let sh := mkShell (mounted sh) true false (isDarkMode sh) in
  match localStorage a, user (state w) with
  | Some ls, Some newUser =>
      mkApp w sh (Some (<["feynman_user" := JSON_stringify newUser]> ls)) (S (probes a))
  | _, _ => mkApp w sh (localStorage a) (probes a)
  end.

(** The whole of [handleLogout]. *)
Definition logout (a : App) : App :=
  let sh := shell a in
  let sh := mkShell (mounted sh) false (showLoginModal sh) (isDarkMode sh) in
  mkApp (handleLogout (world a)) sh (delete "feynman_user" <$> localStorage a) (probes a).

(** A page reload: a new component over the storage left behind. *)
Definition reload (a : App) : App := mount (fresh_app (localStorage a)).

(** The controls of the shell. Before the mount only the loading screen is
    rendered; the landing page with the login modal is rendered while not
    authenticated, the sidebar with the theme and logout buttons while
    authenticated; the modal's button is disabled for an empty name or email. *)
Inductive ShellEvent :=
  | OpenLogin
  | CancelLogin
  | SubmitLogin (name email : string) (now : Z)
  | ClickLogout
  | ClickTheme
  | Reload.

Definition shell_step (a : App) (e : ShellEvent) : App :=
  let sh := shell a in
  let landing := mounted sh && negb (isAuthenticated sh) in
  let inside := mounted sh && isAuthenticated sh in
  match e with
  | OpenLogin =>
      if landing
      then mkApp (world a) (mkShell (mounted sh) (isAuthenticated sh) true (isDarkMode sh))
                 (localStorage a) (probes a)
      else a
  | CancelLogin =>
      if landing && showLoginModal sh
      then mkApp (world a) (mkShell (mounted sh) (isAuthenticated sh) false (isDarkMode sh))
                 (localStorage a) (probes a)
      else a
  | SubmitLogin name email now =>
      if landing && showLoginModal sh && Js.truthy name && Js.truthy email
      then login name email now a else a
  | ClickLogout => if inside then logout a else a
  | ClickTheme => if inside then toggleDarkMode a else a
  | Reload => reload a
  end.

(** Everything that can happen to the mounted component: a control of the
    shell, a control of the chat view (rendered while authenticated; a
    response can arrive at any time), and the end of a health probe (only a
    probe that was issued can end). *)
Inductive AppEvent :=
  | InShell (e : ShellEvent)
  | InChat (c : Control)
  | ProbeEnds (ok : bool).

Definition app_step (a : App) (e : AppEvent) : App :=
  let sh := shell a in
  match e with
  | InShell e => shell_step a e
  | InChat c =>
      let live := match c with
                  | Arrives _ _ _ => mounted sh
                  | _ => mounted sh && isAuthenticated sh
                  end in
      if live then mkApp (control (world a) c) sh (localStorage a) (probes a) else a
  | ProbeEnds ok =>
      match probes a with
      | O => a
      | S _ => mkApp (checkBackendHealth ok (world a)) sh (localStorage a) (probes a)
      end
  end.

Definition app_run (a : App) (es : list AppEvent) : App := foldl app_step a es.

End Persistence.

(** A codec standing for [JSON.stringify] and [JSON.parse] where a concrete
    one is needed: a user as the binary digits of its code. *)
Fixpoint bits_of (p : positive) : string :=
  match p with
  | xH => ""
  | xO q => String "0" (bits_of q)
  | xI q => String "1" (bits_of q)
  end.

Fixpoint of_bits (s : string) : positive :=
  match s with
  | EmptyString => xH
  | String c r => if Ascii.eqb c "1" then xI (of_bits r) else xO (of_bits r)
  end.

Definition user_fields (u : User) : string * string * string * option string :=
  (user_id u, user_name u, user_email u, user_avatar u).

Definition user_of_fields (t : string * string * string * option string) : User :=
  let '(i, n, e, a) := t in mkUser i n e a.

Definition stringify_bits (u : User) : string :=
  String "{" (bits_of (encode (user_fields u))).

Definition parse_bits (s : string) : option User :=
  match s with
  | String "{" r => user_of_fields <$> decode (of_bits r)
  | _ => None
  end.

(** ** The quiz trainer (the first component of the file) *)

Module Quiz.

Inductive View := home | learning.

Record Progress := mkProgress {
  questionsAnswered : Z;
  mistakeAreas : list string;
  strengths : list string
}.

Record State := mkState {
  currentView : View;
  selectedTopic : string;
  difficulty : Z;
  score : Z;
  streak : Z;
  currentQuestion : string;
  userAnswer : string;
  feedback : string;
  showFeedback : bool;
  progress : Progress
}.

Definition initial : State :=
  mkState home "" 1 0 0 "" "" "" false
          (mkProgress 0 ["Photosynthesis process"; "Newton's laws"]
                        ["Basic concepts"; "Problem solving"]).

Definition sampleQuestions : gmap Z string :=
  list_to_map
    [ (1, "Explain what photosynthesis is in simple terms.");
      (2, "How does the light-dependent reaction differ from the Calvin cycle in photosynthesis?");
      (3, "Why would photosynthesis be affected differently in C3 vs C4 plants under high temperature stress?");
      (4, "Design an experiment to test how atmospheric CO2 concentration affects photosynthetic efficiency in marine phytoplankton.");
      (5, "Analyze the evolutionary trade-offs between photosynthetic efficiency and photorespiration in terrestrial plants.") ].

(** [table[key] || fallback] *)
Definition or_else (o : option string) (fallback : string) : string :=
  match o with
  | Some s => if Js.truthy s then s else fallback
  | None => fallback
  end.

Definition getDifficultyColor (level : Z) : string :=
  let colors : gmap Z string :=
    list_to_map [ (1, "bg-green-500"); (2, "bg-blue-500"); (3, "bg-yellow-500");
                  (4, "bg-orange-500"); (5, "bg-red-500") ] in
  or_else (colors !! level) "bg-gray-500".

Definition getDifficultyLabel (level : Z) : string :=
  let labels : gmap Z string :=
    list_to_map [ (1, "Basic Understanding"); (2, "Detailed Knowledge"); (3, "Application");
                  (4, "Analysis"); (5, "Expert Level") ] in
  or_else (labels !! level) "Unknown".

Definition startLearning (topicId : string) (s : State) : State :=
  mkState learning topicId 1 (score s) (streak s)
          (default "" (sampleQuestions !! 1)) "" (feedback s) false (progress s).

Definition good_feedback : string :=
  "Great explanation! You demonstrated clear understanding. Let's move to a more challenging question.".
Definition weak_feedback : string :=
  "Good start! Try to explain the process step-by-step. Think about what happens to light energy and how it becomes chemical energy.".

Definition submitAnswer (s : State) : State :=
  let isGood := 20 <? Z.of_nat (String.length (userAnswer s)) in
  let p := progress s in
  mkState (currentView s) (selectedTopic s)
          (if isGood && (difficulty s <? 5) then difficulty s + 1 else difficulty s)
          (if isGood then score s + difficulty s * 10 else score s)
          (if isGood then streak s + 1 else 0)
          (currentQuestion s) (userAnswer s)
          (if isGood then good_feedback else weak_feedback)
          true
          (mkProgress (questionsAnswered p + 1) (mistakeAreas p) (strengths p)).

Definition nextQuestion (s : State) : State :=
  mkState (currentView s) (selectedTopic s) (difficulty s) (score s) (streak s)
          (or_else (sampleQuestions !! difficulty s) "Loading next question...")
          "" (feedback s) false (progress s).

(** The controls of the two views, each with the gate its JSX puts on it. *)
Inductive Event :=
  | ClickTopic (topicId : string)
  | TypeAnswer (text : string)
  | ClickSubmit
  | ClickNext
  | ClickBack.

Definition step (s : State) (e : Event) : State :=
  match currentView s, e with
  | home, ClickTopic topicId => startLearning topicId s
  | learning, TypeAnswer text =>
      if showFeedback s then s
      else mkState (currentView s) (selectedTopic s) (difficulty s) (score s) (streak s)
                   (currentQuestion s) text (feedback s) (showFeedback s) (progress s)
  | learning, ClickSubmit =>
      if showFeedback s || (Z.of_nat (String.length (userAnswer s)) <? 10) then s
      else submitAnswer s
  | learning, ClickNext => if showFeedback s then nextQuestion s else s
  | learning, ClickBack =>
      mkState home (selectedTopic s) (difficulty s) (score s) (streak s)
              (currentQuestion s) (userAnswer s) (feedback s) (showFeedback s) (progress s)
  | _, _ => s
  end.

Definition run (s : State) (es : list Event) : State := foldl step s es.

(** One round on the current question: type an answer, submit, move on. *)
Definition round (text : string) : list Event := [TypeAnswer text; ClickSubmit; ClickNext].

(** The points earned by [k] good answers in a row from difficulty 1. *)
Definition ladder (k : Z) : Z := if k <=? 5 then k * (k + 1) / 2 else 5 * k - 10.

End Quiz.

(** ** Every way the chat component can move *)

(** A handler call of [Event], or the "New Study Session" button. *)
Inductive Action :=
  | Do (e : Event)
  | NewSession.

Definition act (w : World) (a : Action) : World :=
  match a with
  | Do e => step w e
  | NewSession => newSession_onClick w
  end.

Definition acts (w : World) (l : list Action) : World := foldl act w l.

(** The subjects [determineSubject] can return. *)
Definition subjects : list string :=
  ["Physics"; "Biology"; "Mathematics"; "Chemistry"; "Computer Science"; "Economics"; "General"].

(** A group as [startNewStudy] builds it for its subject. *)
Definition group_of_subject (g : StudyGroup) : Prop :=
  group_name g ∈ subjects
  ∧ group_id g = Js.toLowerCase (group_name g)
  ∧ icon g = getSubjectIcon (group_name g)
  ∧ color g = getSubjectColor (group_name g).

(** [c] occurs in [s]. *)
Fixpoint has_char (c : ascii) (s : string) : bool :=
  match s with
  | EmptyString => false
  | String d r => Ascii.eqb c d || has_char c r
  end.

(** [m] carries an id made by [generateMessageId] at a counter in [1..r]. *)
Definition stamped (r : Z) (m : Message) : Prop :=
  ∃ t n, message_id m = messageIdOf t n ∧ 0 < n ≤ r.

(** Every message list the component holds has ids made by
    [generateMessageId] so far, no id twice. *)
Definition ids_unique (w : World) : Prop :=
  0 ≤ messageIdRef w
  ∧ Forall (stamped (messageIdRef w)) (messages (state w))
  ∧ NoDup (message_id <$> messages (state w))
  ∧ ∀ k ms, messagesMap (state w) !! k = Some ms →
            Forall (stamped (messageIdRef w)) ms ∧ NoDup (message_id <$> ms).

(** An answer the quiz counts as good. *)
Definition good_answer (text : string) : bool := 20 <? Z.of_nat (String.length text).

(** The good answers at the front of a list. *)
Fixpoint leading_good (answers : list string) : Z :=
  match answers with
  | [] => 0
  | a :: r => if good_answer a then 1 + leading_good r else 0
  end.

(** The flags follow the exchanges in flight. *)
Definition flags_ok (w : World) : Prop :=
  (isLoading (state w) = true → inflight w ≠ [])
  ∧ (isInitializingStudy (state w) = true →
       ∃ e study, e ∈ inflight w ∧ awaiting e = InContinueStudySession study).

(** At most one exchange is in flight, and the controls are disabled
    while one is. *)
Definition one_in_flight (w : World) : Prop :=
  (length (inflight w) ≤ 1)%nat ∧ (inflight w ≠ [] → isLoading (state w) = true).

(** A list of messages stamped up to [r], no id twice. *)
Definition well_stamped (r : Z) (ms : list Message) : Prop :=
  Forall (stamped r) ms ∧ NoDup (message_id <$> ms).

(** What every state of the quiz satisfies. *)
Definition quiz_ok (s : Quiz.State) : Prop :=
  1 ≤ Quiz.difficulty s ≤ 5
  ∧ 0 ≤ Quiz.streak s ≤ Quiz.questionsAnswered (Quiz.progress s)
  ∧ 10 * Quiz.streak s ≤ Quiz.score s ≤ 50 * Quiz.questionsAnswered (Quiz.progress s)
  ∧ (Quiz.currentView s = Quiz.learning →
       ∃ k, Quiz.sampleQuestions !! k = Some (Quiz.currentQuestion s)
            ∧ (k = Quiz.difficulty s
               ∨ (Quiz.showFeedback s = true ∧ k + 1 = Quiz.difficulty s))).


(** What is saved in [localStorage] is what the shell shows. *)
Definition saved_ok (JSON_stringify : User → string) (a : App) : Prop :=
  mounted (shell a) = true
  ∧ isAuthenticated (shell a) = bool_decide (is_Some (user (state (world a))))
  ∧ ∃ ls, localStorage a = Some ls
          ∧ ls !! "feynman_user" = JSON_stringify <$> user (state (world a))
          ∧ isDarkMode (shell a) = bool_decide (ls !! "feynman_theme" = Some "dark").

(** The shell of an app whose [localStorage] cannot be used. *)
Definition no_storage (a : App) : Prop :=
  localStorage a = None ∧ probes a = O ∧ isConnected (state (world a)) = false
  ∧ mounted (shell a) = true.

(** The quiz shows a question and waits for an answer. *)
Definition quiz_asking (s : Quiz.State) : Prop :=
  Quiz.currentView s = Quiz.learning ∧ Quiz.showFeedback s = false.

(** * Properties *)

(** ** The scenarios of the specification *)

Example determineSubject_quantum : determineSubject "Quantum Physics" = "Physics".
Proof. reflexivity. Qed.
Example determineSubject_ml : determineSubject "Machine Learning" = "General".
Proof. reflexivity. Qed.
Example determineSubject_cell : determineSubject "Cell Biology" = "Biology".
Proof. reflexivity. Qed.

Example sample_studying :
  messages (state Sample.studying) =
    [mkMessage "msg_1700000001200_1" ai_msg "Let's begin..." (Sample.t0 + 1200)]
  ∧ progress <$> activeStudy (state Sample.studying) = Some 0
  ∧ subject <$> activeStudy (state Sample.studying) = Some "Physics"
  ∧ sent Sample.studying = [mkRequest "I want to learn about Quantum Physics" None].
Proof. vm_compute. done. Qed.

(** The second scenario: a tutoring reply moves progress to 10. *)
Example sample_tutoring :
  let w := exchange "I think energy is quantized"
             (Returned (mkData (Some "Good!") None (Some "feynman_tutoring")))
             1700000002000 1700000002500 Sample.studying in
  progress <$> activeStudy (state w) = Some 10
  ∧ questionsAnswered <$> activeStudy (state w) = Some 1
  ∧ content <$> messages (state w) =
      ["Let's begin..."; "I think energy is quantized"; "Good!"].
Proof. vm_compute. done. Qed.

(** ** Strings *)

Section StringFacts.

Lemma prefix_spec (k s : string) :
  String.prefix k s = true ↔ ∃ post, s = k +:+ post.
Proof.
  revert s. induction k as [|c k IH]; intros [|d s]; simpl.
  - split; [intros _; by exists "" | done].
  - split; [intros _; by exists (String d s) | done].
  - split; [done | intros [post Hp]; discriminate Hp].
  - destruct (Ascii.ascii_dec c d) as [->|Hne].
    + rewrite IH. split; intros [post Hp]; exists post.
      * by rewrite Hp.
      * by injection Hp.
    + split; [done | intros [post Hp]; injection Hp; congruence].
Qed.

(** [includes] decides the substring relation. *)
Lemma includes_spec (s k : string) :
  Js.includes s k = true ↔ ∃ pre post, s = pre +:+ k +:+ post.
Proof.
  induction s as [|c s IH]; cbn [Js.includes].
  - rewrite orb_false_r, prefix_spec. split.
    + intros [post Hp]. by exists "", post.
    + intros [[|d pre] [post Hp]]; [by exists post | discriminate Hp].
  - rewrite orb_true_iff, prefix_spec, IH. split.
    + intros [[post Hp]|(pre & post & Hp)].
      * by exists "", post.
      * exists (String c pre), post. by rewrite Hp.
    + intros ([|d pre] & post & Hp).
      * left. by exists post.
      * right. exists pre, post. by injection Hp.
Qed.

Lemma toLowerCase_length (s : string) :
  String.length (Js.toLowerCase s) = String.length s.
Proof. induction s; simpl; congruence. Qed.

Lemma toLowerCase_idem (s : string) :
  Js.toLowerCase (Js.toLowerCase s) = Js.toLowerCase s.
Proof.
  induction s as [|c s IH]; simpl; [done|]. f_equal; [|done].
  clear. by destruct c as [[] [] [] [] [] [] [] []].
Qed.

End StringFacts.

(** ** The subject classifier *)

Lemma some_keyword_matches (topic : string) (keywords : list string) :
  some_keyword (Js.toLowerCase topic) keywords = true ↔ matches topic keywords.
Proof.
  unfold some_keyword, matches. rewrite existsb_exists. split.
  - intros (k & Hin & Hk). apply includes_spec in Hk as (pre & post & Hk).
    exists k, pre, post. by rewrite list_elem_of_In.
  - intros (k & pre & post & Hin & Hk). exists k. rewrite <- list_elem_of_In.
    split; [done|]. apply includes_spec. by exists pre, post.
Qed.

Lemma first_subject_spec (topic : string) (entries : list (string * list string)) :
  (∃ before kws after,
      entries = before ++ (first_subject (Js.toLowerCase topic) entries, kws) :: after
      ∧ matches topic kws
      ∧ Forall (λ e, ¬ matches topic e.2) before)
  ∨ (first_subject (Js.toLowerCase topic) entries = "General"
      ∧ Forall (λ e, ¬ matches topic e.2) entries).
Proof.
  induction entries as [|[s kws] rest IH]; simpl.
  - right. by split.
  - destruct (some_keyword (Js.toLowerCase topic) kws) eqn:Hk.
    + left. exists [], kws, rest. apply some_keyword_matches in Hk. by repeat split.
    + assert (¬ matches topic kws) as Hn
        by (rewrite <- some_keyword_matches; congruence).
      destruct IH as [(before & kws' & after & Heq & Hm & Hb)|[Hg Hall]].
      * left. exists ((s, kws) :: before), kws', after.
        repeat split; [|done|by constructor].
        simpl. f_equal. exact Heq.
      * right. split; [done | by constructor].
Qed.

(** C5 -- [determineSubject] lowercases the title and returns the first
    subject, in the table order Physics, Biology, Mathematics, Chemistry,
    Computer Science, Economics, one of whose keywords is a substring of the
    lowered title; a title matching the keywords of exactly one subject gets
    that subject, and a title matching none gets "General". *)
Theorem determineSubject_first_match (topic : string) :
  subjectKeywords.*1 =
    ["Physics"; "Biology"; "Mathematics"; "Chemistry"; "Computer Science"; "Economics"]
  ∧ ((∃ before kws after,
        subjectKeywords = before ++ (determineSubject topic, kws) :: after
        ∧ matches topic kws
        ∧ Forall (λ e, ¬ matches topic e.2) before)
     ∨ (determineSubject topic = "General"
        ∧ Forall (λ e, ¬ matches topic e.2) subjectKeywords))
  ∧ (∀ s kws,
        (s, kws) ∈ subjectKeywords → matches topic kws →
        (∀ s' kws', (s', kws') ∈ subjectKeywords → matches topic kws' → s' = s) →
        determineSubject topic = s)
  ∧ ((∀ s kws, (s, kws) ∈ subjectKeywords → ¬ matches topic kws) →
        determineSubject topic = "General")
  ∧ determineSubject (Js.toLowerCase topic) = determineSubject topic.
Proof.
  split; [done|]. split; [apply first_subject_spec|]. split; [|split].
  - intros s kws Hin Hm Huniq.
    destruct (first_subject_spec topic subjectKeywords)
      as [(before & kws' & after & Heq & Hm' & _)|[_ Hall]].
    + apply (Huniq _ kws'); [|done].
      fold (determineSubject topic) in Heq.
      assert ((determineSubject topic, kws') ∈
                before ++ (determineSubject topic, kws') :: after) as Hin'
        by (apply elem_of_app; right; by left).
      by rewrite <- Heq in Hin'.
    + rewrite Forall_forall in Hall. by destruct (Hall _ Hin).
  - intros Hnone.
    destruct (first_subject_spec topic subjectKeywords)
      as [(before & kws' & after & Heq & Hm' & _)|[Hg _]]; [|done].
    destruct (Hnone (determineSubject topic) kws'); [|done].
    fold (determineSubject topic) in Heq.
    assert ((determineSubject topic, kws') ∈
              before ++ (determineSubject topic, kws') :: after) as Hin'
      by (apply elem_of_app; right; by left).
    by rewrite <- Heq in Hin'.
  - unfold determineSubject. by rewrite toLowerCase_idem.
Qed.

Lemma determineSubject_first_match_witness :
  determineSubject "Cell Biology" = "Biology"
  ∧ determineSubject "Machine Learning" = "General".
Proof.
  destruct (determineSubject_first_match "Cell Biology") as (_ & _ & Hone & _).
  destruct (determineSubject_first_match "Machine Learning") as (_ & _ & _ & Hnone & _).
  split.
  - apply (Hone "Biology"
             ["biology"; "cell"; "dna"; "evolution"; "organism"; "photosynthesis"]).
    + unfold subjectKeywords. rewrite !elem_of_cons. right. left. reflexivity.
    + apply some_keyword_matches. vm_compute. reflexivity.
    + intros s' kws' Hin Hm. apply some_keyword_matches in Hm.
      unfold subjectKeywords in Hin. rewrite !elem_of_cons, elem_of_nil in Hin.
      destruct Hin as [Hin|[Hin|[Hin|[Hin|[Hin|[Hin|[]]]]]]];
        injection Hin as -> ->; first [reflexivity | vm_compute in Hm; discriminate Hm].
  - apply Hnone. intros s kws Hin Hm. apply some_keyword_matches in Hm.
    unfold subjectKeywords in Hin. rewrite !elem_of_cons, elem_of_nil in Hin.
    destruct Hin as [Hin|[Hin|[Hin|[Hin|[Hin|[Hin|[]]]]]]];
      injection Hin as -> ->; vm_compute in Hm; discriminate Hm.
Defined.

(** ** Handlers: unfolding *)

#[local] Ltac unfold_handlers :=
  unfold resolve, resume, sendMessage, sendMessage_resume, startNewStudy,
    startNewStudy_resume, switchToStudy, continueStudySession,
    continueStudySession_resume, sendMessageToBackend, backendReturns,
    generateMessageId, appendMessage, flushActive, input_onChange, update in *.

Lemma lookup_snoc {A} (l : list A) (x : A) : (l ++ [x]) !! length l = Some x.
Proof. rewrite lookup_app_r by lia. by rewrite Nat.sub_diag. Qed.

Lemma delete_snoc {A} (l : list A) (x : A) : delete (length l) (l ++ [x]) = l.
Proof. induction l as [|y l IH]; simpl; [done | by rewrite IH]. Qed.

(** ** [startNewStudy] without a user *)

(** C10 -- with no authenticated user ([user] is null), [startNewStudy] is
    a no-op: no request is issued and the study groups, active study,
    messages, messages map and session-id map are all unchanged. *)
Theorem startNewStudy_unauthenticated (topic : string) (now : Z) (w : World) :
  user (state w) = None →
  startNewStudy topic now w = w
  ∧ sent (startNewStudy topic now w) = sent w
  ∧ inflight (startNewStudy topic now w) = inflight w
  ∧ studyGroups (state (startNewStudy topic now w)) = studyGroups (state w)
  ∧ activeStudy (state (startNewStudy topic now w)) = activeStudy (state w)
  ∧ messages (state (startNewStudy topic now w)) = messages (state w)
  ∧ messagesMap (state (startNewStudy topic now w)) = messagesMap (state w)
  ∧ sessionIdMap (state (startNewStudy topic now w)) = sessionIdMap (state w).
Proof.
  intros Hu. assert (startNewStudy topic now w = w) as ->; [|done].
  unfold startNewStudy. by rewrite Hu.
Qed.

Lemma startNewStudy_unauthenticated_witness :
  user (state initial) = None ∧ startNewStudy "Calculus" 1700000000000 initial = initial.
Proof.
  split; [reflexivity|].
  apply (startNewStudy_unauthenticated "Calculus" 1700000000000 initial). reflexivity.
Defined.

(** ** Switching studies *)

Lemma switchToStudy_state (study : Study) (w : World) :
  activeStudy (state (switchToStudy study w)) = Some study
  ∧ messages (state (switchToStudy study w)) =
      default [] (messagesMap (state w) !! id study)
  ∧ messagesMap (state (switchToStudy study w)) =
      match activeStudy (state w) with
      | Some a => <[id a := messages (state w)]> (messagesMap (state w))
      | None => messagesMap (state w)
      end
  ∧ sessionIdMap (state (switchToStudy study w)) = sessionIdMap (state w)
  ∧ studyGroups (state (switchToStudy study w)) = studyGroups (state w).
Proof.
  unfold_handlers.
  destruct (needsSession (state w) study), (activeStudy (state w)); done.
Qed.

(** C1 -- with study [A] active and showing messages [M], switching to [B]
    flushes [M] into the map under [A]'s id and loads [B]'s cached list, and
    switching back flushes [B]'s list and restores exactly [M], in order, with
    [A] active again. *)
Theorem switchToStudy_roundtrip (A B : Study) (w : World) :
  activeStudy (state w) = Some A →
  let w1 := switchToStudy B w in
  let w2 := switchToStudy A w1 in
  messagesMap (state w1) !! id A = Some (messages (state w))
  ∧ messages (state w1) = default [] (messagesMap (state w) !! id B)
  ∧ messagesMap (state w2) !! id B = Some (messages (state w1))
  ∧ messages (state w2) = messages (state w)
  ∧ activeStudy (state w2) = Some A
  ∧ sessionIdMap (state w2) = sessionIdMap (state w)
  ∧ studyGroups (state w2) = studyGroups (state w).
Proof.
  intros HA w1 w2.
  destruct (switchToStudy_state B w) as (Ha1 & Hm1 & Hmap1 & Hs1 & Hg1).
  destruct (switchToStudy_state A w1) as (Ha2 & Hm2 & Hmap2 & Hs2 & Hg2).
  fold w1 in Ha1, Hm1, Hmap1, Hs1, Hg1. fold w2 in Ha2, Hm2, Hmap2, Hs2, Hg2.
  rewrite HA in Hmap1. rewrite Ha1 in Hmap2.
  split; [rewrite Hmap1; apply lookup_insert_eq|].
  split; [done|].
  split; [rewrite Hmap2; apply lookup_insert_eq|].
  split; [by rewrite Hm2, Hmap1, lookup_insert_eq|].
  split; [done|]. split; congruence.
Qed.

Lemma switchToStudy_roundtrip_witness :
  activeStudy (state Sample.studying) = Some Sample.quantum
  ∧ messages (state (switchToStudy Sample.quantum
                       (switchToStudy Sample.calculus Sample.studying))) =
    messages (state Sample.studying).
Proof.
  split; [vm_compute; reflexivity|].
  apply (switchToStudy_roundtrip Sample.quantum Sample.calculus Sample.studying).
  vm_compute; reflexivity.
Defined.

(** The same round trip, literally [switchTo(A); switchTo(B); switchTo(A)]
    from any state. *)
Corollary switchToStudy_ABA (A B : Study) (w : World) :
  messages (state (switchToStudy A (switchToStudy B (switchToStudy A w)))) =
  messages (state (switchToStudy A w)).
Proof.
  destruct (switchToStudy_state A w) as (HA & _ & _).
  destruct (switchToStudy_state B (switchToStudy A w)) as (HB & _ & HmapB & _).
  destruct (switchToStudy_state A (switchToStudy B (switchToStudy A w))) as (_ & -> & _).
  by rewrite HmapB, HA, lookup_insert_eq.
Qed.

(** The round trip is a property of the three calls in a row. A reply that
    arrives after the switch away is appended to the buffer then shown and
    stored under the id its handler closed over: here the reply to a message
    sent in "Quantum Physics" lands while "Calculus" is shown, and replaces
    the cached history of "Quantum Physics". *)
Example reply_after_switch :
  let w := sendMessage 1700000002000
             (input_onChange "Energy is quantized" Sample.studying) in
  let w' := run w [ SwitchToStudy Sample.calculus;
                    Resolve 0 (Returned (mkData (Some "Good!") None None)) 1700000002500;
                    SwitchToStudy Sample.quantum ] in
  content <$> messages (state w) = ["Let's begin..."; "Energy is quantized"]
  ∧ content <$> messages (state w') = ["Good!"].
Proof. vm_compute. done. Qed.

(** ** One [sendMessage] exchange *)

(** What [sendMessage] does when its guard lets it through. *)
Lemma sendMessage_fires (a : Study) (now : Z) (w : World) :
  activeStudy (state w) = Some a →
  Js.truthy (Js.trim (inputValue (state w))) = true →
  let req := mkRequest (inputValue (state w)) (sessionIdToUse (state w) false) in
  let ms := messages (state w) ++ [userMessageOf now w] in
  sendMessage now w =
    mkWorld
      (setIsLoading true (setInputValue ""
         (setMessages (λ _, ms)
            (setMessagesMap (λ prev, <[id a := ms]> prev) (state w)))))
      (messageIdRef w + 1)
      (inflight w ++ [mkExchange req (state w) InSendMessage])
      (sent w ++ [req]).
Proof.
  intros Ha Hin. unfold_handlers. by rewrite Hin, Ha.

Qed.

Lemma sendMessage_blocked (now : Z) (w : World) :
  Js.truthy (Js.trim (inputValue (state w))) = false ∨ activeStudy (state w) = None →
  sendMessage now w = w.
Proof.
  intros [H|H]; unfold sendMessage; rewrite H; [done|].
  by destruct (Js.truthy _).
Qed.

(** Resolving the exchange just issued resumes the handler that issued it. *)
Lemma resolve_last (e : Exchange) (o : Outcome) (now : Z)
    (s : State) (r : Z) (fl : list Exchange) (log : list ChatRequest) :
  resolve (length fl) o now (mkWorld s r (fl ++ [e]) log) =
  resume e o now (mkWorld s r fl log).
Proof. unfold resolve. simpl. by rewrite lookup_snoc, delete_snoc. Qed.

Lemma fallback_texts_distinct : sendMessage_fallback true ≠ sendMessage_fallback false.
Proof. discriminate. Qed.

(** C3 -- when [sendMessage] goes out for an active study (the input is not
    blank) and the exchange fails, the buffer gains exactly the user message
    followed by one fallback AI message (two more messages than before the
    call, the user message kept), the same list is stored under the study's
    id, no further request is issued, and the fallback text is one of two
    distinct fixed texts selected by the reachability flag [isConnected]. *)
Theorem sendMessage_failure (a : Study) (now now' : Z) (w : World) :
  activeStudy (state w) = Some a →
  Js.truthy (Js.trim (inputValue (state w))) = true →
  let w1 := sendMessage now w in
  let w2 := resolve (length (inflight w)) Rejected now' w1 in
  ∃ um fm : Message,
    type um = user_msg ∧ content um = inputValue (state w)
    ∧ type fm = ai_msg
    ∧ content fm = sendMessage_fallback (isConnected (state w))
    ∧ messages (state w1) = messages (state w) ++ [um]
    ∧ messages (state w2) = messages (state w) ++ [um; fm]
    ∧ messagesMap (state w2) !! id a = Some (messages (state w) ++ [um; fm])
    ∧ length (messages (state w2)) = (length (messages (state w)) + 2)%nat
    ∧ sent w1 = sent w ++ [mkRequest (inputValue (state w)) (sessionIdToUse (state w) false)]
    ∧ sent w2 = sent w1
    ∧ inflight w2 = inflight w
    ∧ sendMessage_fallback true ≠ sendMessage_fallback false.
Proof.
  intros Ha Hin w1 w2. subst w2 w1.
  rewrite (sendMessage_fires a now w Ha Hin). rewrite resolve_last.
  unfold resume, sendMessage_resume. cbn [awaiting closure].
  unfold_handlers. simpl. rewrite Ha. simpl.
  eexists (userMessageOf now w), (mkMessage _ ai_msg _ now').
  repeat split.
  - by rewrite <- app_assoc.
  - rewrite lookup_insert_eq. by rewrite <- app_assoc.
  - rewrite !length_app. simpl. lia.
  - discriminate.
Qed.

Lemma sendMessage_failure_witness :
  ∃ um fm : Message,
    messages (state (exchange "Energy is quantized" Rejected 1700000002000 1700000002500
                       Sample.studying)) =
    messages (state Sample.studying) ++ [um; fm]
    ∧ content fm = sendMessage_fallback true.
Proof.
  destruct (sendMessage_failure Sample.quantum 1700000002000 1700000002500
              (input_onChange "Energy is quantized" Sample.studying))
    as (um & fm & _ & _ & _ & Hc & _ & Hm & _).
  - vm_compute; reflexivity.
  - vm_compute; reflexivity.
  - exists um, fm. split; [exact Hm | exact Hc].
Defined.

(** ** Starting a study whose first exchange fails *)

Lemma startNewStudy_fires (u : User) (topic : string) (now : Z) (w : World) :
  user (state w) = Some u →
  let newStudy := newStudyOf topic now in
  let req := mkRequest ("I want to learn about " +:+ topic) None in
  startNewStudy topic now w =
    mkWorld
      (setIsLoading true (setMessages (λ _, [])
         (setActiveStudy (Some newStudy)
            (flushActive (state w)
               (setStudyGroups (addToStudyGroups newStudy) (state w))))))
      (messageIdRef w)
      (inflight w ++ [mkExchange req (state w) (InStartNewStudy newStudy topic)])
      (sent w ++ [req]).
Proof.
  intros Hu. unfold startNewStudy, sendMessageToBackend, sessionIdToUse, update.
  rewrite Hu. simpl. by destruct (activeStudy (state w)).
Qed.

Lemma startNewStudy_fallback_begins (topic : string) :
  ∃ rest, startNewStudy_fallback topic =
          "Great! Let's start learning about " +:+ String dquote topic +:+
          String dquote rest.
Proof. by eexists. Qed.

(** C7 -- when the first exchange of [startNewStudy] fails, the buffer (and
    the map entry of the new study) is exactly one AI message carrying the
    fallback text that begins [Great! Let's start learning about "<title>"],
    the new study stays the active study, the session-id map is left as it
    was, and, the new id having no token, the next [sendMessage] goes out
    with a null session id. *)
Theorem startNewStudy_failure (u : User) (topic : string) (now now' : Z) (w : World) :
  user (state w) = Some u →
  sessionIdMap (state w) !! pretty now = None →
  let w1 := startNewStudy topic now w in
  let w2 := resolve (length (inflight w)) Rejected now' w1 in
  ∃ fm : Message,
    type fm = ai_msg
    ∧ content fm = startNewStudy_fallback topic
    ∧ (∃ rest, content fm =
         "Great! Let's start learning about " +:+ String dquote topic +:+
         String dquote rest)
    ∧ messages (state w2) = [fm]
    ∧ messagesMap (state w2) !! id (newStudyOf topic now) = Some [fm]
    ∧ activeStudy (state w2) = Some (newStudyOf topic now)
    ∧ sessionIdMap (state w2) = sessionIdMap (state w)
    ∧ sent w2 = sent w ++ [mkRequest ("I want to learn about " +:+ topic) None]
    ∧ ∀ text t,
        Js.truthy (Js.trim text) = true →
        sent (sendMessage t (input_onChange text w2)) =
        sent w2 ++ [mkRequest text None].
Proof.
  intros Hu Hfresh w1 w2. subst w2 w1.
  rewrite (startNewStudy_fires u topic now w Hu). rewrite resolve_last.
  unfold resume, startNewStudy_resume. cbn [awaiting closure].
  unfold generateMessageId, backendReturns, update. simpl.
  eexists (mkMessage _ ai_msg _ now'). repeat split.
  - apply startNewStudy_fallback_begins.
  - apply lookup_insert_eq.
  - unfold flushActive. by destruct (activeStudy (state w)).
  - intros text t Hin.

    erewrite sendMessage_fires; [| simpl; reflexivity | exact Hin].
    simpl. unfold sessionIdToUse. simpl.
    replace (sessionIdMap (flushActive (state w)
               (setStudyGroups (addToStudyGroups (newStudyOf topic now)) (state w))))
      with (sessionIdMap (state w)) by (unfold flushActive; by destruct (activeStudy _)).
    by rewrite Hfresh.
Qed.

Lemma startNewStudy_failure_witness :
  ∃ fm : Message,
    content fm = startNewStudy_fallback "Quantum Physics"
    ∧ messages (state (run Sample.offline
                         [ StartNewStudy "Quantum Physics" 1700000001000;
                           Resolve 0 Rejected 1700000001200 ])) = [fm]
    ∧ sessionIdMap (state (run Sample.offline
                         [ StartNewStudy "Quantum Physics" 1700000001000;
                           Resolve 0 Rejected 1700000001200 ])) = ∅.
Proof.
  destruct (startNewStudy_failure
              (mkUser "1700000000000" "Ada" "ada@example.org"
                 (Some "https://api.dicebear.com/7.x/avataaars/svg?seed=Ada"))
              "Quantum Physics" 1700000001000 1700000001200 Sample.offline)
    as (fm & _ & Hc & _ & Hm & _ & _ & Hs & _).
  - vm_compute; reflexivity.
  - vm_compute; reflexivity.
  - exists fm. split; [exact Hc|]. split; [exact Hm | exact Hs].
Defined.

(** ** A successful exchange *)

Lemma sendMessage_returned (a : Study) (d : ChatData) (now now' : Z) (w : World) :
  activeStudy (state w) = Some a →
  Js.truthy (Js.trim (inputValue (state w))) = true →
  let w2 := resolve (length (inflight w)) (Returned d) now' (sendMessage now w) in
  let ms := messages (state w) ++ [userMessageOf now w]
            ++ aiMessagesOf d now' (messageIdRef w + 1) in
  let updated := Js.truthy_opt (response d) && Js.truthy_opt (phase d) in
  messages (state w2) = ms
  ∧ messagesMap (state w2) = <[id a := ms]> (messagesMap (state w))
  ∧ sessionIdMap (state w2) =
      (if Js.truthy_opt (session_id d)
       then <[id a := default "" (session_id d)]> (sessionIdMap (state w))
       else sessionIdMap (state w))
  ∧ activeStudy (state w2) =
      (if updated then Some (updatedStudyOf a (default "" (phase d)) now') else Some a)
  ∧ studyGroups (state w2) =
      (if updated
       then replaceInStudyGroups a (updatedStudyOf a (default "" (phase d)) now')
              (studyGroups (state w))
       else studyGroups (state w))
  ∧ user (state w2) = user (state w)
  ∧ isConnected (state w2) = isConnected (state w)
  ∧ sent w2 = sent w ++ [mkRequest (inputValue (state w)) (sessionIdToUse (state w) false)]
  ∧ inflight w2 = inflight w
  ∧ inputValue (state w2) = ""
  ∧ isLoading (state w2) = false
  ∧ isInitializingStudy (state w2) = isInitializingStudy (state w).
Proof.
  intros Ha Hin. cbv zeta.
  rewrite (sendMessage_fires a now w Ha Hin). rewrite resolve_last.
  unfold resume, sendMessage_resume, aiMessagesOf, backendReturns.
  cbn [awaiting closure]. rewrite Ha.
  destruct d as [[text|] [sid|] [ph|]];
    cbn [response session_id phase Js.truthy_opt default andb];
    repeat match goal with
           | |- context [Js.truthy ?x] => destruct (Js.truthy x) eqn:?; cbn [andb]
           end;
    unfold generateMessageId, appendMessage, update; cbn; rewrite ?Ha; cbn;
    rewrite ?insert_insert_eq, ?app_nil_r, <- ?app_assoc; done.
Qed.

(** C9 -- a successful exchange whose response carries no phase (absent or
    empty) leaves the active study (progress, questionsAnswered, lastActive,
    subject, difficulty) and the study groups as they were; what changes is
    the buffer and the map entry of the study, which gain the user message
    and, for a non-empty reply, the AI message, and the session-id map when
    the backend issued a session id. Of the view state, the input box is
    cleared and [isLoading] is back to false. *)
Theorem sendMessage_no_phase (a : Study) (d : ChatData) (now now' : Z) (w : World) :
  activeStudy (state w) = Some a →
  Js.truthy (Js.trim (inputValue (state w))) = true →
  Js.truthy_opt (phase d) = false →
  let w2 := resolve (length (inflight w)) (Returned d) now' (sendMessage now w) in
  activeStudy (state w2) = Some a
  ∧ studyGroups (state w2) = studyGroups (state w)
  ∧ user (state w2) = user (state w)
  ∧ isConnected (state w2) = isConnected (state w)
  ∧ (∃ um : Message,
       type um = user_msg ∧ content um = inputValue (state w)
       ∧ (∀ text, response d = Some text → Js.truthy text = true →
            ∃ am : Message,
              type am = ai_msg ∧ content am = text
              ∧ messages (state w2) = messages (state w) ++ [um; am])
       ∧ (Js.truthy_opt (response d) = false →
            messages (state w2) = messages (state w) ++ [um]))
  ∧ messagesMap (state w2) = <[id a := messages (state w2)]> (messagesMap (state w))
  ∧ (∀ sid, session_id d = Some sid → Js.truthy sid = true →
       sessionIdMap (state w2) = <[id a := sid]> (sessionIdMap (state w)))
  ∧ (Js.truthy_opt (session_id d) = false →
       sessionIdMap (state w2) = sessionIdMap (state w))
  ∧ inputValue (state w2) = ""
  ∧ isLoading (state w2) = false
  ∧ isInitializingStudy (state w2) = isInitializingStudy (state w)
  ∧ inflight w2 = inflight w
  ∧ sent w2 = sent w ++ [mkRequest (inputValue (state w)) (sessionIdToUse (state w) false)].
Proof.
  intros Ha Hin Hph w2.
  destruct (sendMessage_returned a d now now' w Ha Hin)
    as (Hm & Hmap & Hsid & Hact & Hgr & Hu & Hc & Hsent & Hfl & Hi & Hl & Hinit).
  fold w2 in Hm, Hmap, Hsid, Hact, Hgr, Hu, Hc, Hsent, Hfl, Hi, Hl, Hinit.
  rewrite Hph, andb_false_r in Hact, Hgr.
  repeat split; try done.
  - exists (userMessageOf now w). repeat split.
    + intros text Hr Ht. eexists (mkMessage _ ai_msg text now').
      repeat split. rewrite Hm. unfold aiMessagesOf. by rewrite Hr, Ht.
    + intros Hr. rewrite Hm. unfold aiMessagesOf.
      destruct (response d) as [text|]; simpl in *; [rewrite Hr|]; by rewrite ?app_nil_r.
  - by rewrite Hmap, Hm.
  - intros sid Hs Ht. rewrite Hsid, Hs. simpl. by rewrite Ht.
  - intros Hs. by rewrite Hsid, Hs.
Qed.

Lemma sendMessage_no_phase_witness :
  activeStudy (state (exchange "Energy is quantized"
                        (Returned (mkData (Some "Good!") (Some "s2") None))
                        1700000002000 1700000002500 Sample.studying))
  = Some Sample.quantum.
Proof.
  apply (sendMessage_no_phase Sample.quantum (mkData (Some "Good!") (Some "s2") None)
           1700000002000 1700000002500
           (input_onChange "Energy is quantized" Sample.studying));
    vm_compute; reflexivity.
Defined.

(** ** Progress *)

Lemma sendMessage_rejected (a : Study) (now now' : Z) (w : World) :
  activeStudy (state w) = Some a →
  Js.truthy (Js.trim (inputValue (state w))) = true →
  let w2 := resolve (length (inflight w)) Rejected now' (sendMessage now w) in
  activeStudy (state w2) = Some a
  ∧ studyGroups (state w2) = studyGroups (state w)
  ∧ sessionIdMap (state w2) = sessionIdMap (state w).
Proof.
  intros Ha Hin. cbv zeta.
  rewrite (sendMessage_fires a now w Ha Hin). rewrite resolve_last.
  unfold resume, sendMessage_resume. cbn [awaiting closure].
  unfold_handlers. by rewrite Ha.
Qed.

Lemma updatedStudyOf_progress (a : Study) (ph : string) (now : Z) :
  progress a ≤ 100 →
  progress a ≤ progress (updatedStudyOf a ph now) ≤ 100.
Proof. intros Hp. unfold updatedStudyOf. simpl. case_bool_decide; lia. Qed.

Lemma exchange_progress (text : string) (o : Outcome) (now now' : Z) (a : Study) (w : World) :
  activeStudy (state w) = Some a →
  progress a ≤ 100 →
  ∃ a', activeStudy (state (exchange text o now now' w)) = Some a'
        ∧ id a' = id a
        ∧ progress a ≤ progress a' ≤ 100
        ∧ questionsAnswered a ≤ questionsAnswered a'.
Proof.
  intros Ha Hp. unfold exchange.
  set (w' := input_onChange text w).
  assert (activeStudy (state w') = Some a) as Ha' by done.
  change (inflight w) with (inflight w').
  destruct (Js.truthy (Js.trim (inputValue (state w')))) eqn:Hin.
  - destruct o as [|d].
    + destruct (sendMessage_rejected a now now' w' Ha' Hin) as (-> & _).
      exists a. repeat split; (done || lia).
    + destruct (sendMessage_returned a d now now' w' Ha' Hin) as (_ & _ & _ & -> & _).
      destruct (_ && _).
      * eexists. split; [done|]. split; [done|]. split.
        -- by apply updatedStudyOf_progress.
        -- simpl. lia.
      * exists a. repeat split; (done || lia).
  - rewrite sendMessage_blocked by by left.
    unfold resolve. rewrite lookup_ge_None_2 by lia.
    exists a. repeat split; (done || lia).
Qed.

Lemma exchanges_progress (xs : list (string * Outcome * Z * Z)) (a : Study) (w : World) :
  activeStudy (state w) = Some a →
  progress a ≤ 100 →
  ∃ a', activeStudy (state (exchanges xs w)) = Some a'
        ∧ id a' = id a
        ∧ progress a ≤ progress a' ≤ 100.
Proof.
  revert a w. induction xs as [|[[[text o] now] now'] xs IH]; intros a w Ha Hp.
  - exists a. repeat split; [done|lia..].
  - destruct (exchange_progress text o now now' a w Ha Hp) as (a1 & Ha1 & Hid1 & Hp1 & _).
    destruct (IH a1 _ Ha1 ltac:(lia)) as (a2 & Ha2 & Hid2 & Hp2).
    exists a2. split; [exact Ha2|]. split; [congruence | lia].
Qed.

Lemma exchanges_app (xs ys : list (string * Outcome * Z * Z)) (w : World) :
  exchanges (xs ++ ys) w = exchanges ys (exchanges xs w).
Proof. unfold exchanges. apply foldl_app. Qed.

Lemma replaceInStudyGroups_lookup (a a' : Study) (gs : list StudyGroup) (i : nat) (g : StudyGroup) :
  gs !! i = Some g →
  ∃ g', replaceInStudyGroups a a' gs !! i = Some g'
        ∧ group_id g' = group_id g ∧ group_name g' = group_name g
        ∧ icon g' = icon g ∧ color g' = color g
        ∧ length (studies g') = length (studies g)
        ∧ ∀ j s, studies g !! j = Some s →
                 studies g' !! j = Some (if decide (id s = id a) then a' else s).
Proof.
  intros Hg. unfold replaceInStudyGroups.
  eexists. split; [by rewrite list_lookup_fmap, Hg|]. simpl.
  repeat split; [by rewrite length_fmap|].
  intros j s Hs. rewrite list_lookup_fmap, Hs. simpl.

  by destruct (decide (id s = id a)); [rewrite bool_decide_true | rewrite bool_decide_false].
Qed.

(** C2, for a response with a non-empty reply -- a successful exchange
    whose response carries a non-empty reply and the phase [feynman_tutoring] sets the active study's
    progress to [min (progress + 10) 100], adds one to questionsAnswered and
    sets lastActive to the time of the reply; every entry of the study groups
    with the study's id becomes that same updated study, all other entries
    staying as they were; and along any run of exchanges, whatever their
    outcome, progress never decreases and never exceeds 100. *)
Theorem sendMessage_tutoring (a : Study) (d : ChatData) (now now' : Z) (w : World) :
  activeStudy (state w) = Some a →
  Js.truthy (Js.trim (inputValue (state w))) = true →
  Js.truthy_opt (response d) = true →
  phase d = Some "feynman_tutoring" →
  let w2 := resolve (length (inflight w)) (Returned d) now' (sendMessage now w) in
  (∃ a' : Study,
     activeStudy (state w2) = Some a'
     ∧ progress a' = Z.min (progress a + 10) 100
     ∧ questionsAnswered a' = questionsAnswered a + 1
     ∧ lastActive a' = now'
     ∧ id a' = id a ∧ title a' = title a ∧ subject a' = subject a
     ∧ difficulty a' = difficulty a
     ∧ length (studyGroups (state w2)) = length (studyGroups (state w))
     ∧ ∀ i g, studyGroups (state w) !! i = Some g →
         ∃ g', studyGroups (state w2) !! i = Some g'
               ∧ group_name g' = group_name g
               ∧ length (studies g') = length (studies g)
               ∧ ∀ j s, studies g !! j = Some s →
                        studies g' !! j = Some (if decide (id s = id a) then a' else s))
  ∧ (progress a ≤ 100 →
     ∀ xs ys : list (string * Outcome * Z * Z),
       ∃ a1 a2 : Study,
         activeStudy (state (exchanges xs w)) = Some a1
         ∧ activeStudy (state (exchanges (xs ++ ys) w)) = Some a2
         ∧ progress a1 ≤ progress a2 ≤ 100).
Proof.
  intros Ha Hin Hr Hph w2. split.
  - destruct (sendMessage_returned a d now now' w Ha Hin)
      as (_ & _ & _ & Hact & Hgr & _).
    fold w2 in Hact, Hgr. rewrite Hr, Hph in Hact, Hgr. simpl in Hact, Hgr.
    eexists. split; [exact Hact|]. simpl. repeat split.
    + rewrite Hgr. unfold replaceInStudyGroups. by rewrite length_fmap.
    + intros i g Hg. rewrite Hgr.
      destruct (replaceInStudyGroups_lookup a (updatedStudyOf a "feynman_tutoring" now')
                  _ i g Hg) as (g' & Hg' & _ & Hn & _ & _ & Hl & Hs).
      by exists g'.
  - intros Hp xs ys.
    destruct (exchanges_progress xs a w Ha Hp) as (a1 & Ha1 & _ & Hp1).
    destruct (exchanges_progress ys a1 _ Ha1 ltac:(lia)) as (a2 & Ha2 & _ & Hp2).
    exists a1, a2. rewrite exchanges_app. repeat split; (done || lia).
Qed.

Lemma sendMessage_tutoring_witness :
  ∃ a' : Study,
    activeStudy (state (exchange "I think energy is quantized"
                          (Returned (mkData (Some "Good!") None (Some "feynman_tutoring")))
                          1700000002000 1700000002500 Sample.studying)) = Some a'
    ∧ progress a' = 10 ∧ questionsAnswered a' = 1.
Proof.
  destruct (sendMessage_tutoring Sample.quantum
              (mkData (Some "Good!") None (Some "feynman_tutoring"))
              1700000002000 1700000002500
              (input_onChange "I think energy is quantized" Sample.studying))
    as [(a' & Ha' & Hp & Hq & _) _]; [vm_compute; reflexivity..|].
  exists a'. split; [exact Ha'|]. split; [exact Hp | exact Hq].
Defined.

(** C2 as stated fails: a successful exchange whose response reports the
    phase [feynman_tutoring] but whose reply text is empty updates nothing,
    the whole update sitting under [if (response && response.response)]. *)
Lemma sendMessage_tutoring_empty_reply :
  let w := input_onChange "I think energy is quantized" Sample.studying in
  let d := mkData (Some "") None (Some "feynman_tutoring") in
  let w2 := resolve (length (inflight w)) (Returned d) 1700000002500
                    (sendMessage 1700000002000 w) in
  activeStudy (state w) = Some Sample.quantum
  ∧ progress Sample.quantum = 0
  ∧ sent w2 = sent w ++ [mkRequest "I think energy is quantized" None]
  ∧ activeStudy (state w2) = Some Sample.quantum
  ∧ progress <$> activeStudy (state w2) ≠ Some (Z.min (progress Sample.quantum + 10) 100)
  ∧ questionsAnswered <$> activeStudy (state w2)
      ≠ Some (questionsAnswered Sample.quantum + 1).
Proof. vm_compute. repeat split; discriminate. Qed.

(** ** Session initialisation on switch *)

Lemma needsSession_spec (s : State) (study : Study) :
  needsSession s study = true ↔
  Js.truthy_opt (sessionIdMap s !! id study) = false
  ∧ messagesMap s !! id study = Some [].
Proof.
  unfold needsSession. rewrite andb_true_iff, negb_true_iff.
  destruct (messagesMap s !! id study) as [[|m ms]|];
    split; intros [H1 H2]; split; try done.
Qed.

(** The requests [switchToStudy] issues. *)
Lemma switchToStudy_sent (study : Study) (w : World) :
  sent (switchToStudy study w) =
  sent w ++
    (if needsSession (state w) study
     then [mkRequest ("I want to continue learning about " +:+ title study) None]
     else []).
Proof.
  unfold_handlers. destruct (needsSession (state w) study) eqn:Hn; simpl.
  - unfold sessionIdToUse. by destruct (activeStudy (state w)).
  - by rewrite app_nil_r.
Qed.

(** With a token, or with cached messages, no initialisation is issued. *)
Lemma switchToStudy_initialised (study : Study) (w : World) :
  Js.truthy_opt (sessionIdMap (state w) !! id study) = true
  ∨ (∃ m ms, messagesMap (state w) !! id study = Some (m :: ms)) →
  sent (switchToStudy study w) = sent w.
Proof.
  intros H. rewrite switchToStudy_sent.
  destruct (needsSession (state w) study) eqn:Hn; [|by rewrite app_nil_r].
  apply needsSession_spec in Hn as [Ht Hm].
  destruct H as [H|(m & ms & H)]; congruence.
Qed.

(** With no token and an empty cached list, the forced-new-session
    exchange goes out. *)
Lemma switchToStudy_initialises (study : Study) (w : World) :
  Js.truthy_opt (sessionIdMap (state w) !! id study) = false →
  messagesMap (state w) !! id study = Some [] →
  sent (switchToStudy study w) =
  sent w ++ [mkRequest ("I want to continue learning about " +:+ title study) None].
Proof.
  intros Ht Hm. rewrite switchToStudy_sent.
  by rewrite (proj2 (needsSession_spec _ _) (conj Ht Hm)).
Qed.

(** Without any cache entry nothing is issued, token or not. *)
Lemma switchToStudy_no_entry (study : Study) (w : World) :
  messagesMap (state w) !! id study = None →
  switchToStudy study w =
  update (setMessages (λ _, [])) (update (setActiveStudy (Some study))
    (update (flushActive (state w)) w)).
Proof.
  intros Hm. unfold switchToStudy, needsSession. rewrite Hm. simpl.
  by rewrite andb_false_r.
Qed.

(** C4 -- the code at a study that was started but never initialised: the
    first exchange of "Calculus" came back with an empty body, so the study
    has no token and no cached messages; selecting it issues no request. *)
Theorem switchToStudy_uninitialised_not_continued :
  sessionIdMap (state Sample.two_studies) !! id Sample.calculus = None
  ∧ messagesMap (state Sample.two_studies) !! id Sample.calculus = None
  ∧ (∃ g, g ∈ studyGroups (state Sample.two_studies) ∧ Sample.calculus ∈ studies g)
  ∧ inflight Sample.two_studies = []
  ∧ sent (switchToStudy Sample.calculus Sample.two_studies) = sent Sample.two_studies
  ∧ inflight (switchToStudy Sample.calculus Sample.two_studies) = [].
Proof.
  split; [vm_compute; reflexivity|].
  split; [vm_compute; reflexivity|].
  split.
  { eexists. split; [vm_compute; apply list_elem_of_here|].
    vm_compute. apply list_elem_of_here. }
  split; [vm_compute; reflexivity|].
  split; vm_compute; reflexivity.
Qed.

(** ** Re-entrancy *)

(** The text input and the send button do not reach [sendMessage] while an
    exchange is in flight. *)
Lemma controls_gated (now : Z) (w : World) :
  isLoading (state w) = true ∨ isInitializingStudy (state w) = true →
  input_onKeyPress_Enter now w = w ∧ send_onClick now w = w.
Proof.
  intros H. unfold input_onKeyPress_Enter, send_onClick, send_disabled.
  destruct H as [-> | ->]; simpl; by rewrite ?andb_false_r, ?orb_true_r.
Qed.

(** [sendMessage] clears the input, so calling it again at once does nothing. *)
Lemma sendMessage_twice (now now2 : Z) (w : World) :
  Js.truthy (Js.trim (inputValue (state w))) = true →
  is_Some (activeStudy (state w)) →
  sendMessage now2 (sendMessage now w) = sendMessage now w.
Proof.
  intros Hin [a Ha]. rewrite (sendMessage_fires a now w Ha Hin).
  apply sendMessage_blocked. by left.
Qed.

(** C8 -- the code when a study row is clicked twice: "Calculus" has an
    empty cached list and no token; the first click issues the
    initialisation request and raises both flags, and the second click,
    made while that exchange is in flight, issues the same request again. *)
Theorem switchToStudy_twice_two_requests :
  let seed := mkRequest "I want to continue learning about Calculus" None in
  let w0 := switchToStudy Sample.quantum Sample.two_studies in
  let w1 := study_onClick Sample.calculus w0 in
  let w2 := study_onClick Sample.calculus w1 in
  inflight w0 = []
  ∧ request <$> inflight w1 = [seed]
  ∧ isLoading (state w1) = true
  ∧ isInitializingStudy (state w1) = true
  ∧ activeStudy (state w1) = Some Sample.calculus
  ∧ request <$> inflight w2 = [seed; seed]
  ∧ sent w2 = sent w0 ++ [seed; seed].
Proof. vm_compute. done. Qed.

(** ** The study directory *)

Section Directory.

Lemma findIndex_Some {A} (p : A → bool) (l : list A) (i : nat) :
  Js.findIndex p l = Some i →
  ∃ x, l !! i = Some x ∧ p x = true
       ∧ ∀ j y, (j < i)%nat → l !! j = Some y → p y = false.
Proof.
  revert i. induction l as [|x l IH]; intros i; simpl; [done|].
  destruct (p x) eqn:Hp.
  - intros [= <-]. exists x. repeat split; [done|]. intros j y Hj. lia.
  - destruct (Js.findIndex p l) as [k|]; simpl; [|done].
    intros [= <-]. destruct (IH k eq_refl) as (y & Hy & Hpy & Hlt).
    exists y. repeat split; [done..|].
    intros [|j] z Hj; simpl; [congruence|]. apply Hlt. lia.
Qed.

Lemma findIndex_None {A} (p : A → bool) (l : list A) :
  Js.findIndex p l = None → ∀ x, x ∈ l → p x = false.
Proof.
  induction l as [|y l IH]; simpl; intros Hf x Hx.
  - by apply elem_of_nil in Hx.
  - destruct (p y) eqn:Hp; [done|].
    destruct (Js.findIndex p l); [done|].
    apply elem_of_cons in Hx as [->|Hx]; [done | by apply IH].
Qed.

Lemma filter_none {A} (P : A → Prop) `{∀ x, Decision (P x)} (l : list A) :
  (∀ x, x ∈ l → ¬ P x) → filter P l = [].
Proof.
  induction l as [|x l IH]; intros Hl; [done|].
  rewrite filter_cons_False by (apply Hl; left).
  apply IH. intros y Hy. apply Hl. by right.
Qed.

Variable s : Study.

Lemma addToStudyGroups_new (gs : list StudyGroup) :
  subject s ∉ group_name <$> gs →
  addToStudyGroups s gs =
  mkGroup (Js.toLowerCase (subject s)) (subject s) (getSubjectIcon (subject s))
          (getSubjectColor (subject s)) [s] :: gs.
Proof.
  intros Hn. unfold addToStudyGroups.
  destruct (Js.findIndex _ gs) as [i|] eqn:Hf; [|done].
  apply findIndex_Some in Hf as (g & Hg & Hp & _).
  apply bool_decide_eq_true in Hp. destruct Hn.
  rewrite <- Hp. apply list_elem_of_fmap_2. by eapply list_elem_of_lookup_2.
Qed.

Lemma addToStudyGroups_existing (gs : list StudyGroup) :
  subject s ∈ group_name <$> gs →
  ∃ i g, gs !! i = Some g ∧ group_name g = subject s
         ∧ (∀ j y, (j < i)%nat → gs !! j = Some y → group_name y ≠ subject s)
         ∧ addToStudyGroups s gs = alter (unshiftStudy s) i gs.
Proof.
  intros Hin. unfold addToStudyGroups.
  destruct (Js.findIndex _ gs) as [i|] eqn:Hf.
  - apply findIndex_Some in Hf as (g & Hg & Hp & Hlt).
    apply bool_decide_eq_true in Hp. exists i, g.
    split; [done|]. split; [done|]. split; [|done].
    intros j y Hj Hy Hname. specialize (Hlt j y Hj Hy).
    by rewrite bool_decide_true in Hlt.

  - apply list_elem_of_fmap in Hin as (g & Hname & Hg).
    apply (findIndex_None _ _ Hf) in Hg. by rewrite bool_decide_true in Hg.
Qed.

Lemma addToStudyGroups_names (gs : list StudyGroup) :
  group_name <$> addToStudyGroups s gs =
  if decide (subject s ∈ group_name <$> gs) then group_name <$> gs
  else subject s :: (group_name <$> gs).
Proof.
  destruct (decide _) as [Hin|Hn].
  - destruct (addToStudyGroups_existing gs Hin) as (i & g & _ & _ & _ & ->).
    rewrite (list_fmap_alter group_name (unshiftStudy s) (λ x, x))
      by by apply Forall_true.
    by apply list_alter_id.
  - by rewrite addToStudyGroups_new.
Qed.

Lemma unshiftStudy_concat (gs : list StudyGroup) (i : nat) (g : StudyGroup) :
  gs !! i = Some g →
  concat (studies <$> alter (unshiftStudy s) i gs) ≡ₚ s :: concat (studies <$> gs).
Proof.
  revert i. induction gs as [|x gs IH]; intros [|i] Hg; simpl in *; try done.
  rewrite (IH i Hg). by rewrite Permutation_middle.
Qed.

Lemma grouped_add (gs : list StudyGroup) (cr : list Study) :
  grouped gs cr → grouped (addToStudyGroups s gs) (s :: cr).
Proof.
  intros (Hnames & Hst & Hperm).
  assert (subject s ∈ group_name <$> gs ↔ subject s ∈ subject <$> cr) as Hiff
    by (by rewrite Hnames, elem_of_remove_dups).
  assert (NoDup (group_name <$> gs)) as Hnd
    by (rewrite Hnames; apply NoDup_remove_dups).
  split; [|split].
  - rewrite addToStudyGroups_names, fmap_cons. simpl.
    destruct (decide (subject s ∈ group_name <$> gs)) as [Hin|Hn];
      destruct (decide_rel elem_of (subject s) (subject <$> cr)) as [Hin'|Hn'].
    + done.
    + exfalso. by apply Hn', Hiff.
    + exfalso. by apply Hn, Hiff.
    + by rewrite Hnames.

  - destruct (decide (subject s ∈ group_name <$> gs)) as [Hin|Hn].
    + destruct (addToStudyGroups_existing gs Hin) as (i & g & Hg & Hname & _ & ->).
      intros g' Hg'. apply list_elem_of_lookup in Hg' as [j Hj].
      destruct (decide (i = j)) as [<-|Hij].
      * rewrite list_lookup_alter_eq, Hg in Hj. injection Hj as <-. simpl.
        rewrite filter_cons_True by by rewrite Hname.
        f_equal. apply Hst. by eapply list_elem_of_lookup_2.
      * rewrite list_lookup_alter_ne in Hj by done.
        rewrite filter_cons_False; [apply Hst; by eapply list_elem_of_lookup_2|].
        intros Heq. apply Hij.
        apply (NoDup_lookup _ i j (subject s) Hnd).
        -- by rewrite list_lookup_fmap, Hg, <- Hname.
        -- by rewrite list_lookup_fmap, Hj, Heq.
    + rewrite addToStudyGroups_new by done.
      intros g' [->|Hg']%elem_of_cons; simpl.
      * rewrite filter_cons_True by done. f_equal. symmetry.
        apply filter_none. intros x Hx Hs. apply Hn, Hiff.
        rewrite <- Hs. by apply list_elem_of_fmap_2.
      * rewrite filter_cons_False; [by apply Hst|].
        intros Heq. apply Hn. rewrite Heq. by apply list_elem_of_fmap_2.
  - destruct (decide (subject s ∈ group_name <$> gs)) as [Hin|Hn].
    + destruct (addToStudyGroups_existing gs Hin) as (i & g & Hg & _ & _ & ->).
      by rewrite (unshiftStudy_concat gs i g Hg), Hperm.
    + rewrite addToStudyGroups_new by done. simpl. by rewrite Hperm.
Qed.

End Directory.

Lemma grouped_nonempty (gs : list StudyGroup) (cr : list Study) (g : StudyGroup) :
  grouped gs cr → g ∈ gs → studies g ≠ [].
Proof.
  intros (Hnames & Hst & _) Hg.
  assert (group_name g ∈ subject <$> cr) as Hin.
  { rewrite <- elem_of_remove_dups, <- Hnames. by apply list_elem_of_fmap_2. }
  apply list_elem_of_fmap in Hin as (x & Hx & Hin).
  rewrite (Hst g Hg). intros Hnil.
  eapply filter_nil_not_elem_of; [exact Hnil | simpl; by symmetry | exact Hin].
Qed.

Lemma startNewStudy_resume_frame (snap : State) (newStudy : Study) (topic : string)
    (o : Outcome) (now : Z) (w : World) :
  let w' := startNewStudy_resume snap newStudy topic o now w in
  user (state w') = user (state w)
  ∧ studyGroups (state w') = studyGroups (state w)
  ∧ inflight w' = inflight w.
Proof.
  unfold startNewStudy_resume, backendReturns, generateMessageId, update.
  destruct o as [|[[text|] [sid|] ph]]; cbn;
    repeat match goal with
           | |- context [Js.truthy ?x] => destruct (Js.truthy x); cbn
           | |- context [activeStudy snap] => destruct (activeStudy snap); cbn
           end; done.
Qed.

Lemma step_starts (u : User) (w : World) (e : Event) (cr : list Study) :
  user (state w) = Some u →
  Forall awaits_start (inflight w) →
  starts_only [e] →
  grouped (studyGroups (state w)) cr →
  user (state (step w e)) = Some u
  ∧ Forall awaits_start (inflight (step w e))
  ∧ grouped (studyGroups (state (step w e))) (reverse (created [e]) ++ cr).
Proof.
  intros Hu Hfl He Hgr. unfold starts_only in He. rewrite Forall_singleton in He.
  destruct e as [| | |topic now| | | |n o now]; try done; simpl.
  - rewrite (startNewStudy_fires u topic now w Hu). simpl.

    split; [by unfold flushActive; destruct (activeStudy _)|].
    split; [apply Forall_app; split; [done | by apply Forall_singleton]|].
    replace (studyGroups (flushActive _ _))
      with (addToStudyGroups (newStudyOf topic now) (studyGroups (state w)))
      by (unfold flushActive; by destruct (activeStudy _)).
    by apply grouped_add.
  - unfold resolve. destruct (inflight w !! n) as [e|] eqn:Hn; [|done].
    pose proof (Forall_lookup_1 _ _ _ _ Hfl Hn) as He'.
    unfold awaits_start in He'. unfold resume.
    destruct (awaiting e) as [newStudy topic| |]; try done.
    destruct (startNewStudy_resume_frame (closure e) newStudy topic o now
                (mkWorld (state w) (messageIdRef w) (delete n (inflight w)) (sent w)))
      as (-> & -> & ->).
    simpl. split; [done|]. split; [by apply Forall_delete | done].
Qed.

Lemma run_starts (u : User) (es : list Event) (w : World) (cr : list Study) :
  user (state w) = Some u →
  Forall awaits_start (inflight w) →
  starts_only es →
  grouped (studyGroups (state w)) cr →
  user (state (run w es)) = Some u
  ∧ grouped (studyGroups (state (run w es))) (reverse (created es) ++ cr).
Proof.
  revert w cr. induction es as [|e es IH]; intros w cr Hu Hfl Hes Hgr; [done|].
  apply Forall_cons in Hes as [He Hes].
  destruct (step_starts u w e cr Hu Hfl ltac:(by apply Forall_singleton) Hgr)
    as (Hu' & Hfl' & Hgr').
  destruct (IH (step w e) _ Hu' Hfl' Hes Hgr') as (Hu'' & Hgr'').
  split; [done|].
  change (e :: es) with ([e] ++ es). unfold created in *.
  rewrite omap_app, reverse_app, <- app_assoc. exact Hgr''.
Qed.

Lemma startNewStudy_studyGroups (u : User) (topic : string) (now : Z) (w : World) :
  user (state w) = Some u →
  studyGroups (state (startNewStudy topic now w)) =
  addToStudyGroups (newStudyOf topic now) (studyGroups (state w)).
Proof.
  intros Hu. rewrite (startNewStudy_fires u topic now w Hu). simpl.
  unfold flushActive. by destruct (activeStudy _).
Qed.

(** With every updater applied once: after any run of [startNewStudy]
    calls by a logged-in user (starting with no groups), the groups
    partition the created studies by subject: group names are pairwise distinct, the groups together hold
    exactly the created studies (none twice, none missing), every group is
    non-empty and lists the studies of its subject newest first, the groups
    are ordered by first creation of their subject, newest first; and one
    more call puts the new study at the front of its subject's group, or, when
    the subject is new, puts a new group holding just that study at the front
    of the list. *)
Theorem startNewStudy_directory (u : User) (w : World) (es : list Event) :
  user (state w) = Some u →
  studyGroups (state w) = [] →
  inflight w = [] →
  starts_only es →
  let groups := studyGroups (state (run w es)) in
  let made := created es in
  NoDup (group_name <$> groups)
  ∧ concat (studies <$> groups) ≡ₚ made
  ∧ (∀ g, g ∈ groups →
       studies g ≠ []
       ∧ studies g = filter (λ s, subject s = group_name g) (reverse made))
  ∧ group_name <$> groups = remove_dups (subject <$> reverse made)
  ∧ ∀ topic now,
      let s := newStudyOf topic now in
      let groups' := studyGroups (state (startNewStudy topic now (run w es))) in
      (subject s ∉ group_name <$> groups →
         ∃ g, groups' = g :: groups ∧ group_name g = subject s ∧ studies g = [s])
      ∧ (∀ i g, groups !! i = Some g → group_name g = subject s →
           groups' = <[i := unshiftStudy s g]> groups).
Proof.
  intros Hu Hgs Hfl Hes groups made.
  destruct (run_starts u es w [] Hu) as (Hu' & Hgr); [by rewrite Hfl | done | |].
  { rewrite Hgs. split; [done|]. split; [|done].
    intros g Hg. by apply elem_of_nil in Hg. }

  rewrite app_nil_r in Hgr. fold groups made in Hgr.
  pose proof Hgr as (Hnames & Hst & Hperm).
  assert (NoDup (group_name <$> groups)) as Hnd
    by (rewrite Hnames; apply NoDup_remove_dups).
  split; [done|]. split; [by rewrite Hperm, reverse_Permutation|].
  split; [intros g Hg; split; [by eapply grouped_nonempty | by apply Hst]|].
  split; [done|].
  intros topic now s groups'. subst groups'.
  rewrite (startNewStudy_studyGroups u topic now _ Hu'). fold groups s. split.
  - intros Hn. rewrite addToStudyGroups_new by done. by eexists.
  - intros i g Hg Hname.
    destruct (addToStudyGroups_existing s groups) as (i0 & g0 & Hg0 & Hname0 & _ & ->).
    { rewrite <- Hname. apply list_elem_of_fmap_2. by eapply list_elem_of_lookup_2. }
    assert (i0 = i) as ->.
    { apply (NoDup_lookup _ i0 i (subject s) Hnd).
      - by rewrite list_lookup_fmap, Hg0, <- Hname0.
      - by rewrite list_lookup_fmap, Hg, <- Hname. }
    assert (g0 = g) as -> by congruence.
    apply list_eq. intros j. destruct (decide (i = j)) as [<-|Hij].
    + rewrite list_lookup_alter_eq, Hg. simpl.
      by rewrite list_lookup_insert_eq by by eapply lookup_lt_Some.
    + by rewrite list_lookup_alter_ne, list_lookup_insert_ne.
Qed.

Lemma startNewStudy_directory_witness :
  let es := [ StartNewStudy "Quantum Physics" 1700000001000;
              Resolve 0 Rejected 1700000001200;
              StartNewStudy "Calculus" 1700000005000;
              StartNewStudy "Thermodynamics" 1700000009000 ] in
  group_name <$> studyGroups (state (run Sample.offline es)) = ["Mathematics"; "Physics"]
  ∧ concat (studies <$> studyGroups (state (run Sample.offline es))) ≡ₚ created es.
Proof.
  intros es.
  destruct (startNewStudy_directory
              (mkUser "1700000000000" "Ada" "ada@example.org"
                 (Some "https://api.dicebear.com/7.x/avataaars/svg?seed=Ada"))
              Sample.offline es)
    as (_ & Hperm & _ & Hnames & _).
  - vm_compute; reflexivity.
  - vm_compute; reflexivity.
  - vm_compute; reflexivity.
  - repeat constructor.
  - split; [|exact Hperm]. rewrite Hnames. vm_compute. reflexivity.
Defined.

(** ** Study ids are fresh *)

Lemma known_mono (b b' : Z) (k : string) : b ≤ b' → known b k → known b' k.
Proof. intros Hb (t & -> & Ht). exists t. split; [done | lia]. Qed.

Lemma ids_below_mono (b b' : Z) (w : World) : b ≤ b' → ids_below b w → ids_below b' w.
Proof.
  intros Hb (H1 & H2 & H3 & H4).
  repeat split; intros; eapply known_mono; eauto.
Qed.

Lemma known_fresh (b now : Z) : b ≤ now → ¬ known b (pretty now).
Proof. intros Hb (t & Ht & Hlt). apply (inj pretty) in Ht. lia. Qed.

Lemma addToStudyGroups_studies (s s' : Study) (gs : list StudyGroup) (g' : StudyGroup) :
  g' ∈ addToStudyGroups s gs → s' ∈ studies g' →
  s' = s ∨ ∃ g, g ∈ gs ∧ s' ∈ studies g.
Proof.
  unfold addToStudyGroups. destruct (Js.findIndex _ gs) as [i|].
  - intros [j Hj]%list_elem_of_lookup Hs.
    destruct (decide (i = j)) as [<-|Hij].
    + rewrite list_lookup_alter_eq in Hj.
      destruct (gs !! i) as [g|] eqn:Hg; [|done]. injection Hj as <-.
      simpl in Hs. apply elem_of_cons in Hs as [->|Hs]; [by left|].
      right. exists g. split; [by eapply list_elem_of_lookup_2 | done].
    + rewrite list_lookup_alter_ne in Hj by done.
      right. exists g'. split; [by eapply list_elem_of_lookup_2 | done].
  - intros [->|Hg]%elem_of_cons Hs.
    + left. simpl in Hs. by apply list_elem_of_singleton in Hs.
    + right. by exists g'.
Qed.

Lemma replaceInStudyGroups_ids (a a' s' : Study) (gs : list StudyGroup) (g' : StudyGroup) :
  id a' = id a →
  g' ∈ replaceInStudyGroups a a' gs → s' ∈ studies g' →
  ∃ g s, g ∈ gs ∧ s ∈ studies g ∧ id s' = id s.
Proof.
  intros Hid (g & -> & Hg)%list_elem_of_fmap Hs. simpl in Hs.
  apply list_elem_of_fmap in Hs as (s & -> & Hs).
  exists g, s. repeat split; [done..|]. by case_bool_decide; [rewrite Hid|].
Qed.

(** What the end of an exchange can change of the ids held. *)
Lemma resume_shape (e : Exchange) (o : Outcome) (now : Z) (w : World) :
  let w' := resume e o now w in
  inflight w' = inflight w
  ∧ (sessionIdMap (state w') = sessionIdMap (state w)
     ∨ ∃ a sid, activeStudy (closure e) = Some a
                ∧ sessionIdMap (state w') = <[id a := sid]> (sessionIdMap (state w)))
  ∧ ((activeStudy (state w') = activeStudy (state w)
      ∧ studyGroups (state w') = studyGroups (state w))
     ∨ ∃ a a', activeStudy (closure e) = Some a ∧ id a' = id a
               ∧ activeStudy (state w') = Some a'
               ∧ studyGroups (state w') = replaceInStudyGroups a a' (studyGroups (state w))).
Proof.
  unfold resume, startNewStudy_resume, continueStudySession_resume, sendMessage_resume,
    backendReturns.
  destruct (awaiting e), o as [|[[text|] [sid|] [ph|]]],
    (activeStudy (closure e)) as [a|] eqn:Ha;
    cbn [response session_id phase];
    repeat match goal with
           | |- context [Js.truthy ?x] => destruct (Js.truthy x) eqn:?
           end;
    unfold generateMessageId, appendMessage, update; cbn; rewrite ?Ha; cbn;
    (split; [done|]);
    (split;
     [first [by left | right; by eexists _, _]
     |first [by left
            |match goal with
             | |- context [updatedStudyOf ?a0 ?ph0 ?t0] =>
                 right; exists a0, (updatedStudyOf a0 ph0 t0); by repeat split
             end]]).
Qed.



Lemma resume_ids (b : Z) (e : Exchange) (o : Outcome) (now : Z) (w : World) :
  ids_below b w →
  (∀ a, activeStudy (closure e) = Some a → known b (id a)) →
  ids_below b (resume e o now w).
Proof.
  intros (H1 & H2 & H3 & H4) He.
  destruct (resume_shape e o now w) as (Hfl & Hsid & Hact).
  repeat split.
  - intros k Hk. destruct Hsid as [Hs|(a & sid & Ha & Hs)]; rewrite Hs in Hk; [by apply H1|].
    destruct (decide (id a = k)) as [<-|Hne]; [by apply He|].
    rewrite lookup_insert_ne in Hk by done. by apply H1.
  - intros a' Ha'. destruct Hact as [[Hs _]|(a & a2 & Ha & Hid & Hs & _)].
    + apply H2. by rewrite <- Hs.
    + rewrite Hs in Ha'. injection Ha' as <-. rewrite Hid. by apply He.
  - intros e' a. rewrite Hfl. apply H3.
  - intros g' s' Hg' Hs'. destruct Hact as [[_ Hs]|(a & a2 & Ha & Hid & _ & Hs)];
      rewrite Hs in Hg'; [by eapply H4|].
    destruct (replaceInStudyGroups_ids a a2 s' _ g' Hid Hg' Hs') as (g & s & Hg & Hs2 & ->).
    by eapply H4.
Qed.

Lemma update_ids (b : Z) (f : State → State) (w : World) :
  sessionIdMap (f (state w)) = sessionIdMap (state w) →
  activeStudy (f (state w)) = activeStudy (state w) →
  studyGroups (f (state w)) = studyGroups (state w) →
  ids_below b w → ids_below b (update f w).
Proof.
  intros E1 E2 E3 (H1 & H2 & H3 & H4). unfold ids_below, update. simpl.
  rewrite E1, E2, E3. done.
Qed.

(** ** The updater of [startNewStudy], applied again *)

Lemma findIndex_named (subj : string) (pre l post : list StudyGroup) :
  Js.findIndex (Shared.named (pre ++ l ++ post) subj) (seq (length pre) (length l))
  = Js.findIndex (λ group, bool_decide (group_name group = subj)) l.
Proof.
  revert pre. induction l as [|x l IH]; intros pre; [done|].
  change (pre ++ (x :: l) ++ post) with (pre ++ x :: (l ++ post)).
  cbn [length seq Js.findIndex]. unfold Shared.named at 1.
  assert ((pre ++ x :: l ++ post) !! length pre = Some x) as ->
    by by apply list_lookup_middle.
  destruct (bool_decide _); [done|].
  specialize (IH (pre ++ [x])). rewrite length_app, Nat.add_1_r, <- app_assoc in IH.
  by rewrite <- IH.
Qed.

Lemma deref_seq (pre l post : list StudyGroup) :
  Shared.deref (pre ++ l ++ post) (seq (length pre) (length l)) = l.
Proof.
  revert pre. induction l as [|x l IH]; intros pre; [done|].
  change (pre ++ (x :: l) ++ post) with (pre ++ x :: (l ++ post)).
  assert ((pre ++ x :: l ++ post) !! length pre = Some x) as Hx
    by by apply list_lookup_middle.
  unfold Shared.deref in *. cbn [length seq omap list_omap]. rewrite Hx. f_equal.
  specialize (IH (pre ++ [x])). rewrite length_app, Nat.add_1_r, <- app_assoc in IH.
  exact IH.
Qed.

Lemma findIndex_alter {A} (p : A → bool) (f : A → A) (i : nat) (l : list A) :
  (∀ x, p (f x) = p x) → Js.findIndex p (alter f i l) = Js.findIndex p l.
Proof.
  intros Hf. revert i. induction l as [|x l IH]; intros [|i]; simpl; try done.
  - by rewrite Hf.
  - destruct (p x); [done|]. f_equal. apply IH.
Qed.

Lemma alter_twice {A} (f g : A → A) (i : nat) (l : list A) :
  alter g i (alter f i l) = alter (λ x, g (f x)) i l.
Proof.
  apply list_eq. intros j. destruct (decide (i = j)) as [<-|Hij].
  - rewrite !list_lookup_alter_eq. by destruct (l !! i).
  - by rewrite !list_lookup_alter_ne by done.
Qed.

Lemma updater_existing (s : Study) (h : list StudyGroup) (i : nat) :
  Js.findIndex (λ group, bool_decide (group_name group = subject s)) h = Some i →
  Shared.updater s (seq 0 (length h)) h = (seq 0 (length h), alter (unshiftStudy s) i h).
Proof.
  intros Hi. unfold Shared.updater.
  pose proof (findIndex_named (subject s) [] h []) as E. rewrite app_nil_r in E.
  cbn [app length] in E. rewrite E, Hi.
  destruct (findIndex_Some _ _ _ Hi) as (x & Hx & _).
  by rewrite lookup_seq_lt by by eapply lookup_lt_Some.
Qed.

Lemma applied_existing (extra : nat) (s : Study) (h : list StudyGroup) (i : nat) :
  Js.findIndex (λ group, bool_decide (group_name group = subject s)) h = Some i →
  Shared.applied extra s (seq 0 (length h)) h
  = (seq 0 (length h), alter (Nat.iter (S extra) (unshiftStudy s)) i h).
Proof.
  revert h. induction extra as [|extra IH]; intros h Hi.
  - by apply updater_existing.
  - cbn [Shared.applied]. rewrite (updater_existing s h i Hi). cbn [snd].
    rewrite <- (length_alter (unshiftStudy s) h i).
    rewrite IH by by rewrite findIndex_alter.
    rewrite length_alter. f_equal.
    rewrite alter_twice. apply list_alter_ext; [|done].
    intros g _. by rewrite (Nat.iter_succ_r (S extra)).
Qed.

Lemma applied_new (extra : nat) (s : Study) (prev junk : list StudyGroup) :
  Js.findIndex (λ group, bool_decide (group_name group = subject s)) prev = None →
  let newGroup :=
    mkGroup (Js.toLowerCase (subject s)) (subject s) (getSubjectIcon (subject s))
            (getSubjectColor (subject s)) [s] in
  let junk' := junk ++ replicate extra newGroup in
  Shared.applied extra s (seq 0 (length prev)) (prev ++ junk)
  = (length (prev ++ junk') :: seq 0 (length prev), (prev ++ junk') ++ [newGroup]).
Proof.
  intros Hn newGroup. cbv zeta.
  assert (∀ junk, Shared.updater s (seq 0 (length prev)) (prev ++ junk)
                  = (length (prev ++ junk) :: seq 0 (length prev),
                     (prev ++ junk) ++ [newGroup])) as Hup.
  { intros junk0. unfold Shared.updater.
    pose proof (findIndex_named (subject s) [] prev junk0) as E.
    cbn [app length] in E. by rewrite E, Hn. }
  revert junk. induction extra as [|extra IH]; intros junk.
  - cbn [replicate]. rewrite app_nil_r. apply Hup.
  - cbn [Shared.applied]. rewrite Hup. cbn [snd]. rewrite <- app_assoc, IH.
    by rewrite <- app_assoc.
Qed.

Lemma reapplied_existing (extra : nat) (s : Study) (prev : list StudyGroup) (i : nat) :
  Js.findIndex (λ group, bool_decide (group_name group = subject s)) prev = Some i →
  Shared.reapplied extra s prev = alter (Nat.iter (S extra) (unshiftStudy s)) i prev.
Proof.
  intros Hi. unfold Shared.reapplied. rewrite (applied_existing extra s prev i Hi).
  rewrite <- (length_alter (Nat.iter (S extra) (unshiftStudy s)) prev i).
  pose proof (deref_seq [] (alter (Nat.iter (S extra) (unshiftStudy s)) i prev) []) as E.
  rewrite app_nil_r in E. exact E.
Qed.

Lemma reapplied_new (extra : nat) (s : Study) (prev : list StudyGroup) :
  Js.findIndex (λ group, bool_decide (group_name group = subject s)) prev = None →
  Shared.reapplied extra s prev
  = mkGroup (Js.toLowerCase (subject s)) (subject s) (getSubjectIcon (subject s))
            (getSubjectColor (subject s)) [s] :: prev.
Proof.
  intros Hn. unfold Shared.reapplied.
  pose proof (applied_new extra s prev [] Hn) as E. cbv zeta in E.
  rewrite app_nil_r in E. rewrite E. cbn [app].
  set (newGroup := mkGroup _ _ _ _ _). set (junk' := replicate extra newGroup).
  assert (((prev ++ junk') ++ [newGroup]) !! length (prev ++ junk') = Some newGroup) as Hx
    by by apply list_lookup_middle.
  unfold Shared.deref. cbn [omap list_omap]. rewrite Hx. f_equal.
  rewrite <- app_assoc. apply (deref_seq [] prev).
Qed.

(** React keeps the array of one of the applications; whichever it is,
    once all have run it shows the same groups: in particular that of the
    first one, which is the value kept when the state was computed at the
    call of [setStudyGroups]. *)
Lemma applied_first (extra : nat) (s : Study) (prev : list StudyGroup) :
  Shared.deref (Shared.applied extra s (seq 0 (length prev)) prev).2
               (Shared.updater s (seq 0 (length prev)) prev).1
  = Shared.reapplied extra s prev.
Proof.
  destruct (Js.findIndex (λ group, bool_decide (group_name group = subject s)) prev)
    as [i|] eqn:Hi.
  - unfold Shared.reapplied.
    by rewrite (applied_existing extra s prev i Hi), (updater_existing s prev i Hi).
  - rewrite (reapplied_new extra s prev Hi).
    pose proof (applied_new extra s prev [] Hi) as E. cbv zeta in E.
    pose proof (applied_new 0 s prev [] Hi) as E0. cbv zeta in E0.
    rewrite app_nil_r in E, E0. cbn [Shared.applied] in E0. rewrite E, E0.
    cbn [fst snd app replicate]. rewrite app_nil_r.
    set (newGroup := mkGroup _ _ _ _ _).
    assert (((prev ++ replicate extra newGroup) ++ [newGroup]) !! length prev
            = Some newGroup) as Hx.
    { rewrite <- app_assoc. destruct extra; by apply list_lookup_middle. }
    unfold Shared.deref. cbn [omap list_omap]. rewrite Hx. f_equal.
    rewrite <- app_assoc. apply (deref_seq [] prev).
Qed.

(** Applied once, the updater returns the list with the study put at the
    front of its group. *)
Lemma reapplied_once (s : Study) (prev : list StudyGroup) :
  Shared.reapplied 0 s prev = addToStudyGroups s prev.
Proof.
  unfold addToStudyGroups.
  destruct (Js.findIndex _ prev) as [i|] eqn:Hi.
  - by rewrite (reapplied_existing 0 s prev i Hi).
  - by rewrite (reapplied_new 0 s prev Hi).
Qed.

Lemma iter_unshiftStudy (k : nat) (s : Study) (g : StudyGroup) :
  Nat.iter k (unshiftStudy s) g
  = mkGroup (group_id g) (group_name g) (icon g) (color g) (replicate k s ++ studies g).
Proof.
  induction k as [|k IH]; [by destruct g|]. by rewrite Nat.iter_succ, IH.
Qed.

Lemma reapplied_studies (extra : nat) (s s' : Study) (gs : list StudyGroup)
    (g' : StudyGroup) :
  g' ∈ Shared.reapplied extra s gs → s' ∈ studies g' →
  s' = s ∨ ∃ g, g ∈ gs ∧ s' ∈ studies g.
Proof.
  destruct (Js.findIndex (λ group, bool_decide (group_name group = subject s)) gs)
    as [i|] eqn:Hi.
  - rewrite (reapplied_existing extra s gs i Hi).
    intros [j Hj]%list_elem_of_lookup Hs.
    destruct (decide (i = j)) as [<-|Hij].
    + rewrite list_lookup_alter_eq in Hj.
      destruct (gs !! i) as [g|] eqn:Hg; [|done]. injection Hj as <-.
      rewrite iter_unshiftStudy in Hs. cbn [studies unshiftStudy] in Hs.
      apply elem_of_cons in Hs as [->|Hs]; [by left|].
      apply elem_of_app in Hs as [Hs|Hs]; [left; by apply elem_of_replicate in Hs as [-> _]|].
      right. exists g. split; [by eapply list_elem_of_lookup_2 | done].
    + rewrite list_lookup_alter_ne in Hj by done.
      right. exists g'. split; [by eapply list_elem_of_lookup_2 | done].
  - rewrite (reapplied_new extra s gs Hi).
    intros [->|Hg]%elem_of_cons Hs.
    + left. simpl in Hs. by apply list_elem_of_singleton in Hs.
    + right. by exists g'.
Qed.

Lemma startNewStudy_reapplied_fires (u : User) (extra : nat) (topic : string) (now : Z)
    (w : World) :
  user (state w) = Some u →
  let newStudy := newStudyOf topic now in
  let req := mkRequest ("I want to learn about " +:+ topic) None in
  startNewStudy_reapplied extra topic now w =
    mkWorld
      (setIsLoading true (setMessages (λ _, [])
         (setActiveStudy (Some newStudy)
            (flushActive (state w)
               (setStudyGroups (Shared.reapplied extra newStudy) (state w))))))
      (messageIdRef w)
      (inflight w ++ [mkExchange req (state w) (InStartNewStudy newStudy topic)])
      (sent w ++ [req]).
Proof.
  intros Hu. unfold startNewStudy_reapplied, sendMessageToBackend, sessionIdToUse, update.
  rewrite Hu. simpl. by destruct (activeStudy (state w)).
Qed.

(** With every updater applied once the handler is [startNewStudy]. *)
Lemma startNewStudy_reapplied_once (topic : string) (now : Z) (w : World) :
  startNewStudy_reapplied 0 topic now w = startNewStudy topic now w.
Proof.
  unfold startNewStudy_reapplied, startNewStudy, update, setStudyGroups.
  by rewrite reapplied_once.
Qed.

Lemma startNewStudy_reapplied_studyGroups (u : User) (extra : nat) (topic : string)
    (now : Z) (w : World) :
  user (state w) = Some u →
  studyGroups (state (startNewStudy_reapplied extra topic now w)) =
  Shared.reapplied extra (newStudyOf topic now) (studyGroups (state w)).
Proof.
  intros Hu. rewrite (startNewStudy_reapplied_fires u extra topic now w Hu). simpl.
  unfold flushActive. by destruct (activeStudy _).
Qed.

(** What the handler leaves in the group of the new study's subject when
    that group exists: the new study once per application of the updater. *)
Lemma startNewStudy_reapplied_existing (u : User) (extra : nat) (topic : string) (now : Z)
    (w : World) (i : nat) (g : StudyGroup) :
  user (state w) = Some u →
  studyGroups (state w) !! i = Some g →
  group_name g = determineSubject topic →
  (∀ j y, (j < i)%nat → studyGroups (state w) !! j = Some y →
          group_name y ≠ determineSubject topic) →
  studyGroups (state (startNewStudy_reapplied extra topic now w))
  = <[i := mkGroup (group_id g) (group_name g) (icon g) (color g)
                   (replicate (S extra) (newStudyOf topic now) ++ studies g)]>
      (studyGroups (state w)).
Proof.
  intros Hu Hg Hname Hfirst.
  rewrite (startNewStudy_reapplied_studyGroups u extra topic now w Hu).
  assert (Js.findIndex
            (λ group, bool_decide (group_name group = subject (newStudyOf topic now)))
            (studyGroups (state w)) = Some i) as Hi.
  { destruct (Js.findIndex _ (studyGroups (state w))) as [k|] eqn:Hk.
    - destruct (findIndex_Some _ _ _ Hk) as (x & Hx & Hpx & Hbefore).
      apply bool_decide_eq_true in Hpx. f_equal.
      destruct (Nat.lt_trichotomy k i) as [Hlt|[->|Hgt]]; [|done|].
      + by destruct (Hfirst k x Hlt Hx).
      + specialize (Hbefore i g Hgt Hg). by apply bool_decide_eq_false in Hbefore.
    - pose proof (findIndex_None _ _ Hk g) as Hno.
      rewrite bool_decide_eq_false in Hno. destruct Hno; [|done].
      by eapply list_elem_of_lookup_2. }
  rewrite (reapplied_existing extra _ _ i Hi).
  apply list_eq. intros j. destruct (decide (i = j)) as [<-|Hij].
  - rewrite list_lookup_alter_eq, Hg. cbn [fmap option_fmap option_map].
    rewrite list_lookup_insert_eq by by eapply lookup_lt_Some.
    by rewrite iter_unshiftStudy.
  - by rewrite list_lookup_alter_ne, list_lookup_insert_ne.
Qed.

(** C6 -- the directory after two [startNewStudy] calls of one subject by
    a logged-in user, when React applies each updater twice (as its
    StrictMode does): the first call makes the group "Physics" with its
    study once (a new group is a new object at each application), the second
    call unshifts into that group at each application, so the group holds
    the second study twice: the groups do not partition the created
    studies, a Study is duplicated. With the updater applied once the same
    calls give each study once. *)
Theorem startNewStudy_reapplied_duplicates :
  let quantum := newStudyOf "Quantum Physics" (Sample.t0 + 1000) in
  let thermo := newStudyOf "Thermodynamics" (Sample.t0 + 5000) in
  let calls (extra : nat) :=
    startNewStudy_reapplied extra "Thermodynamics" (Sample.t0 + 5000)
      (startNewStudy_reapplied extra "Quantum Physics" (Sample.t0 + 1000) Sample.offline) in
  group_name <$> studyGroups (state (calls 1%nat)) = ["Physics"]
  ∧ studies <$> studyGroups (state (calls 1%nat)) = [[thermo; thermo; quantum]]
  ∧ ¬ NoDup (concat (studies <$> studyGroups (state (calls 1%nat))))
  ∧ ¬ concat (studies <$> studyGroups (state (calls 1%nat))) ≡ₚ [thermo; quantum]
  ∧ studies <$> studyGroups (state (calls 0%nat)) = [[thermo; quantum]].
Proof.
  intros quantum thermo calls.
  assert (studies <$> studyGroups (state (calls 1%nat)) = [[thermo; thermo; quantum]]) as E
    by (vm_compute; reflexivity).
  split; [vm_compute; reflexivity|]. split; [exact E|]. rewrite E.
  split; [|split].
  - cbn [concat app]. intros [Hn _]%NoDup_cons. apply Hn. by left.
  - intros Hp%Permutation_length. discriminate Hp.
  - vm_compute; reflexivity.
Qed.

(** Every id held in a reachable state was created before the state's time. *)
Lemma reachable_ids (m : nat) (b : Z) (w : World) : reachable m b w → ids_below b w.
Proof.
  induction 1 as [|b w name email now _ IH|b w _ IH|b w ok _ IH|b w text _ IH
                  |b w extra topic now _ IH _ Hb|b w g study _ IH Hg Hs|b w _ IH
                  |b w now _ IH|b w n o now _ IH].
  - repeat split; simpl; intros; try done.
    + by apply is_Some_alt in H.
    + by apply elem_of_nil in H.
    + by apply elem_of_nil in H.
  - by apply update_ids.
  - by apply update_ids.
  - by apply update_ids.
  - by apply update_ids.
  - apply (ids_below_mono b (now + 1)) in IH; [|lia].
    destruct (user (state w)) as [u|] eqn:Hu;
      [|unfold startNewStudy_reapplied; by rewrite Hu].
    rewrite (startNewStudy_reapplied_fires u extra topic now w Hu).
    destruct IH as (H1 & H2 & H3 & H4).
    assert (known (now + 1) (pretty now)) as Hnew by (exists now; split; [done | lia]).
    unfold ids_below, flushActive. simpl.
    destruct (activeStudy (state w)) as [a0|] eqn:Ha0; simpl; repeat split.
    + done.
    + by intros a [= <-].
    + intros e a [He| ->%list_elem_of_singleton]%elem_of_app; [by eapply H3|].
      simpl. rewrite Ha0. intros [= <-]. by apply H2.
    + intros g s Hg Hs.
      destruct (reapplied_studies extra _ s _ g Hg Hs) as [->|(g0 & Hg0 & Hs0)];
        [done | by eapply H4].
    + done.
    + by intros a [= <-].
    + intros e a [He| ->%list_elem_of_singleton]%elem_of_app; [by eapply H3|].
      simpl. by rewrite Ha0.
    + intros g s Hg Hs.
      destruct (reapplied_studies extra _ s _ g Hg Hs) as [->|(g0 & Hg0 & Hs0)];
        [done | by eapply H4].
  - pose proof IH as (H1 & H2 & H3 & H4).
    destruct (switchToStudy_state study w) as (Ea & _ & _ & Es & Eg).
    repeat split.
    + by rewrite Es.
    + rewrite Ea. intros a [= <-]. by eapply H4.
    + intros e a He. unfold_handlers.
      destruct (needsSession (state w) study); simpl in He; [|by eapply H3].
      apply elem_of_app in He as [He| ->%list_elem_of_singleton]; [by eapply H3|].
      simpl. apply H2.
    + rewrite Eg. apply H4.
  - destruct IH as (H1 & H2 & H3 & H4).
    unfold newSession_onClick, flushActive, update, ids_below.
    destruct (activeStudy (state w)); simpl; by repeat split.
  - pose proof IH as (H1 & H2 & H3 & H4).
    destruct (Js.truthy (Js.trim (inputValue (state w)))) eqn:Hin;
      [|by rewrite sendMessage_blocked by by left].
    destruct (activeStudy (state w)) as [a|] eqn:Ha;
      [|by rewrite sendMessage_blocked by by right].
    rewrite (sendMessage_fires a now w Ha Hin).
    unfold ids_below. simpl. rewrite Ha. repeat split; try done.
    intros e a' [He| ->%list_elem_of_singleton]%elem_of_app; [by eapply H3|].
    simpl. rewrite Ha. apply H2.
  - unfold resolve. destruct (inflight w !! n) as [e|] eqn:He; [|done].
    pose proof IH as (H1 & H2 & H3 & H4).
    apply resume_ids.
    + repeat split; simpl; try done.
      intros e' a He'. apply H3. by eapply list_elem_of_delete_inv.
    + intros a. apply H3. by eapply list_elem_of_lookup_2.
Qed.

(** In a reachable state the id of a study created now has no token. *)
Lemma reachable_fresh (m : nat) (b now : Z) (w : World) :
  reachable m b w → b ≤ now → sessionIdMap (state w) !! pretty now = None.
Proof.
  intros Hr Hb. destruct (reachable_ids m b w Hr) as (H1 & _).
  destruct (sessionIdMap (state w) !! pretty now) eqn:Hk; [|done].
  destruct (known_fresh b now Hb). apply H1. by rewrite Hk.
Qed.

(** * Further properties of the chat component *)

#[local] Arguments Js.trim : simpl never.


(** ** Session tokens *)

(** X1 -- the session id a successful [sendMessage] exchange brings back is
    stored under the active study's id, and the next [sendMessage] for that
    study sends it as [session_id]. *)
Theorem sendMessage_token_reused (a : Study) (d : ChatData) (sid text : string)
    (now now' t : Z) (w : World) :
  activeStudy (state w) = Some a →
  Js.truthy (Js.trim (inputValue (state w))) = true →
  session_id d = Some sid →
  Js.truthy sid = true →
  Js.truthy (Js.trim text) = true →
  let w2 := resolve (length (inflight w)) (Returned d) now' (sendMessage now w) in
  sessionIdMap (state w2) !! id a = Some sid
  ∧ sent (sendMessage t (input_onChange text w2)) = sent w2 ++ [mkRequest text (Some sid)].
Proof.
  intros Ha Hin Hs Ht Htext w2.
  destruct (sendMessage_returned a d now now' w Ha Hin)
    as (_ & _ & Hsid & Hact & _).
  fold w2 in Hsid, Hact. rewrite Hs in Hsid. simpl in Hsid. rewrite Ht in Hsid.
  assert (sessionIdMap (state w2) !! id a = Some sid) as Hlook
    by (rewrite Hsid; apply lookup_insert_eq).
  split; [done|].
  assert (∃ a', activeStudy (state w2) = Some a' ∧ id a' = id a) as (a' & Ha' & Hid).
  { rewrite Hact. destruct (_ && _); by eexists. }
  erewrite sendMessage_fires; [| simpl; exact Ha' | exact Htext].
  simpl. unfold sessionIdToUse. simpl. by rewrite Ha', Hid, Hlook, Ht.
Qed.

Lemma sendMessage_token_reused_witness :
  let w2 := exchange "Energy is quantized"
              (Returned (mkData (Some "Good!") (Some "s2") None))
              1700000002000 1700000002500 Sample.studying in
  sent (sendMessage 1700000003000 (input_onChange "And so is light" w2)) =
  sent w2 ++ [mkRequest "And so is light" (Some "s2")].
Proof.
  apply (sendMessage_token_reused Sample.quantum
           (mkData (Some "Good!") (Some "s2") None) "s2" "And so is light"
           1700000002000 1700000002500 1700000003000
           (input_onChange "Energy is quantized" Sample.studying));
    vm_compute; reflexivity.
Defined.

(** What a returned first exchange of [startNewStudy] leaves behind. *)
Lemma startNewStudy_returned (u : User) (topic : string) (d : ChatData)
    (now now' : Z) (w : World) :
  user (state w) = Some u →
  let w2 := resolve (length (inflight w)) (Returned d) now' (startNewStudy topic now w) in
  let flushed :=
    match activeStudy (state w) with
    | Some prev => <[id prev := messages (state w)]> (messagesMap (state w))
    | None => messagesMap (state w)
    end in
  activeStudy (state w2) = Some (newStudyOf topic now)
  ∧ sessionIdMap (state w2) =
      match activeStudy (state w) with
      | Some prev =>
          if Js.truthy_opt (session_id d)
          then <[id prev := default "" (session_id d)]> (sessionIdMap (state w))
          else sessionIdMap (state w)
      | None => sessionIdMap (state w)
      end
  ∧ messages (state w2) = aiMessagesOf d now' (messageIdRef w)
  ∧ messagesMap (state w2) =
      (if Js.truthy_opt (response d)
       then <[pretty now := aiMessagesOf d now' (messageIdRef w)]> flushed
       else flushed)
  ∧ studyGroups (state w2) =
      addToStudyGroups (newStudyOf topic now) (studyGroups (state w))
  ∧ sent w2 = sent w ++ [mkRequest ("I want to learn about " +:+ topic) None]
  ∧ inflight w2 = inflight w
  ∧ isLoading (state w2) = false.
Proof.
  intros Hu. cbv zeta.
  rewrite (startNewStudy_fires u topic now w Hu). rewrite resolve_last.
  unfold resume, startNewStudy_resume, backendReturns, aiMessagesOf, flushActive.
  cbn [awaiting closure].
  destruct d as [[text|] [sid|] ph], (activeStudy (state w)) as [prev|];
    cbn [response session_id phase Js.truthy_opt default];
    repeat match goal with
           | |- context [Js.truthy ?x] => destruct (Js.truthy x) eqn:?
           end;
    unfold generateMessageId, update; cbn; done.
Qed.

(** X2 -- the session id returned for the first exchange of a new study is
    stored under the id of the study that was active when [startNewStudy] was
    called, and dropped when none was: the handler that resumes closed over
    the old [activeStudy]. The entry of the new study's own id is left as it
    was, so started from no active study its first message goes out with a
    null session id. *)
Theorem startNewStudy_token_misfiled (u : User) (topic sid : string) (d : ChatData)
    (now now' : Z) (w : World) :
  user (state w) = Some u →
  session_id d = Some sid →
  Js.truthy sid = true →
  let w2 := resolve (length (inflight w)) (Returned d) now' (startNewStudy topic now w) in
  activeStudy (state w2) = Some (newStudyOf topic now)
  ∧ sessionIdMap (state w2) =
      match activeStudy (state w) with
      | Some prev => <[id prev := sid]> (sessionIdMap (state w))
      | None => sessionIdMap (state w)
      end
  ∧ (∀ prev, activeStudy (state w) = Some prev → id prev ≠ pretty now →
       sessionIdMap (state w2) !! pretty now = sessionIdMap (state w) !! pretty now)
  ∧ (activeStudy (state w) = None →
     sessionIdMap (state w) !! pretty now = None →
     ∀ text t, Js.truthy (Js.trim text) = true →
       sent (sendMessage t (input_onChange text w2)) = sent w2 ++ [mkRequest text None]).
Proof.
  intros Hu Hs Ht w2.
  destruct (startNewStudy_returned u topic d now now' w Hu) as (Hact & Hsid & _).
  fold w2 in Hact, Hsid. rewrite Hs in Hsid. simpl in Hsid. rewrite Ht in Hsid.
  split; [done|]. split; [done|]. split.
  - intros prev Hp Hne. rewrite Hsid, Hp. by rewrite lookup_insert_ne.
  - intros Hnone Hfresh text t Htext.
    erewrite sendMessage_fires; [| simpl; exact Hact | exact Htext].
    simpl. unfold sessionIdToUse. simpl. rewrite Hact, Hsid, Hnone. simpl.
    by rewrite Hfresh.
Qed.

Lemma startNewStudy_token_misfiled_witness :
  sessionIdMap (state Sample.studying) = ∅
  ∧ sent (sendMessage 1700000002000 (input_onChange "Energy is quantized" Sample.studying))
    = sent Sample.studying ++ [mkRequest "Energy is quantized" None].
Proof.
  destruct (startNewStudy_token_misfiled
              (mkUser "1700000000000" "Ada" "ada@example.org"
                 (Some "https://api.dicebear.com/7.x/avataaars/svg?seed=Ada"))
              "Quantum Physics" "s1"
              (mkData (Some "Let's begin...") (Some "s1") (Some "intro"))
              1700000001000 1700000001200
              (run Sample.offline [Health true]))
    as (_ & Hsid & _ & Hnext); [vm_compute; reflexivity..|].
  split; [exact Hsid|].
  apply (Hnext eq_refl eq_refl "Energy is quantized" 1700000002000). reflexivity.
Defined.

(** X3 -- when the first exchange of [startNewStudy] returns, the buffer is
    exactly the AI reply (empty for an empty reply) and it is cached under the
    new study's id, the list of the study left behind is kept under its own
    id, and the new study is active with progress 0 and no question answered,
    whatever phase the response reports. *)
Theorem startNewStudy_success (u : User) (topic : string) (d : ChatData)
    (now now' : Z) (w : World) :
  user (state w) = Some u →
  let w2 := resolve (length (inflight w)) (Returned d) now' (startNewStudy topic now w) in
  (∃ a, activeStudy (state w2) = Some a
        ∧ id a = pretty now ∧ title a = topic ∧ subject a = determineSubject topic
        ∧ progress a = 0 ∧ questionsAnswered a = 0 ∧ difficulty a = 1)
  ∧ (∀ text, response d = Some text → Js.truthy text = true →
       ∃ m, messages (state w2) = [m] ∧ type m = ai_msg ∧ content m = text
            ∧ messagesMap (state w2) !! pretty now = Some [m])
  ∧ (Js.truthy_opt (response d) = false → messages (state w2) = [])
  ∧ (∀ prev, activeStudy (state w) = Some prev → id prev ≠ pretty now →
       messagesMap (state w2) !! id prev = Some (messages (state w)))
  ∧ isLoading (state w2) = false
  ∧ sent w2 = sent w ++ [mkRequest ("I want to learn about " +:+ topic) None].
Proof.
  intros Hu w2.
  destruct (startNewStudy_returned u topic d now now' w Hu)
    as (Hact & _ & Hm & Hmap & _ & Hsent & _ & Hl).
  fold w2 in Hact, Hm, Hmap, Hsent, Hl.
  split; [by eexists|]. split; [|split; [|split; [|done]]].
  - intros text Hr Ht. unfold aiMessagesOf in *. rewrite Hr in Hm, Hmap.
    simpl in Hmap. rewrite Ht in Hm, Hmap.
    eexists. split; [exact Hm|]. split; [done|]. split; [done|].
    rewrite Hmap. apply lookup_insert_eq.
  - intros Hr. rewrite Hm. unfold aiMessagesOf.
    destruct (response d) as [text|]; [|done]. simpl in Hr. by rewrite Hr.
  - intros prev Hp Hne. rewrite Hmap, Hp.
    destruct (Js.truthy_opt (response d)).
    + rewrite lookup_insert_ne by done. apply lookup_insert_eq.
    + apply lookup_insert_eq.
Qed.

Lemma startNewStudy_success_witness :
  ∃ m, messages (state Sample.studying) = [m] ∧ content m = "Let's begin...".
Proof.
  destruct (startNewStudy_success
              (mkUser "1700000000000" "Ada" "ada@example.org"
                 (Some "https://api.dicebear.com/7.x/avataaars/svg?seed=Ada"))
              "Quantum Physics"
              (mkData (Some "Let's begin...") (Some "s1") (Some "intro"))
              1700000001000 1700000001200
              (run Sample.offline [Health true]))
    as (_ & Hreply & _); [vm_compute; reflexivity|].
  destruct (Hreply "Let's begin..." eq_refl eq_refl) as (m & Hm & _ & Hc & _).
  exists m. split; [exact Hm | exact Hc].
Defined.

(** ** The "New Study Session" button *)

(** X4 -- the "New Study Session" button stores the buffer under the active
    study's id and leaves no study active with an empty buffer, without any
    request; selecting the study again restores its messages; while no study
    is active [sendMessage] does nothing, and the send button starts a new
    study titled by the input. *)
Theorem newSession_roundtrip (A : Study) (w : World) :
  activeStudy (state w) = Some A →
  let w1 := newSession_onClick w in
  activeStudy (state w1) = None
  ∧ messages (state w1) = []
  ∧ messagesMap (state w1) !! id A = Some (messages (state w))
  ∧ sessionIdMap (state w1) = sessionIdMap (state w)
  ∧ studyGroups (state w1) = studyGroups (state w)
  ∧ sent w1 = sent w ∧ inflight w1 = inflight w
  ∧ messages (state (switchToStudy A w1)) = messages (state w)
  ∧ (∀ text t, sendMessage t (input_onChange text w1) = input_onChange text w1)
  ∧ (∀ text t,
       Js.truthy (Js.trim text) = true →
       isLoading (state w) = false → isInitializingStudy (state w) = false →
       send_onClick t (input_onChange text w1) =
       startNewStudy text t (input_onChange text w1)).
Proof.
  intros HA w1. subst w1. unfold newSession_onClick, flushActive, update.
  rewrite HA. cbn.
  repeat split.
  - apply lookup_insert_eq.
  - destruct (switchToStudy_state A
                (mkWorld
                   (setMessages (λ _, [])
                      (setActiveStudy None
                         (setMessagesMap (λ prev, <[id A := messages (state w)]> prev)
                            (state w))))
                   (messageIdRef w) (inflight w) (sent w))) as (_ & -> & _).
    cbn. by rewrite lookup_insert_eq.
  - intros text t. apply sendMessage_blocked. by right.
  - intros text t Htext Hl Hi. unfold send_onClick, send_disabled, input_onChange, update.
    cbn. by rewrite Htext, Hl, Hi.
Qed.

Lemma newSession_roundtrip_witness :
  messages (state (switchToStudy Sample.quantum (newSession_onClick Sample.studying))) =
  messages (state Sample.studying).
Proof.
  apply (newSession_roundtrip Sample.quantum Sample.studying). vm_compute; reflexivity.
Defined.

(** ** [formatTime] *)

(** X5 -- [formatTime] shows whole minutes below one hour (0 to 59 for a
    date not in the future), whole hours from one hour to below one day (1
    to 23), and whole days from one day on (at least 1); a date in the future
    is shown as a negative number of minutes. *)
Theorem formatTime_units (now date : Z) :
  let diff := now - date in
  (diff < 3600000 →
     formatTime now date = pretty (diff / 60000) +:+ "m ago"
     ∧ (0 ≤ diff → 0 ≤ diff / 60000 < 60)
     ∧ (diff < 0 → diff / 60000 < 0))
  ∧ (3600000 ≤ diff < 86400000 →
     formatTime now date = pretty (diff / 3600000) +:+ "h ago"
     ∧ 1 ≤ diff / 3600000 < 24)
  ∧ (86400000 ≤ diff →
     formatTime now date = pretty (diff / 86400000) +:+ "d ago"
     ∧ 1 ≤ diff / 86400000).
Proof.
  intros diff. unfold formatTime. fold diff.
  change (1000 * 60) with 60000. change (60000 * 60) with 3600000.
  change (3600000 * 24) with 86400000.
  assert (diff / 60000 < 60 ↔ diff < 3600000) as Hm.
  { split; intros H.
    - apply Z.nle_gt. intros Hge.
      apply (Z.div_le_mono _ _ 60000) in Hge; [|lia]. change (3600000 / 60000) with 60 in Hge. lia.
    - apply Z.div_lt_upper_bound; lia. }
  assert (diff / 3600000 < 24 ↔ diff < 86400000) as Hh.
  { split; intros H.
    - apply Z.nle_gt. intros Hge.
      apply (Z.div_le_mono _ _ 3600000) in Hge; [|lia].
      change (86400000 / 3600000) with 24 in Hge. lia.
    - apply Z.div_lt_upper_bound; lia. }
  split; [|split].
  - intros H. split; [|split].
    + destruct (Z.ltb_spec (diff / 60000) 60); [done | lia].
    + intros H0. split; [apply Z.div_pos; lia | apply Hm; lia].
    + intros H0. apply Z.div_lt_upper_bound; lia.
  - intros [H1 H2]. split.
    + destruct (Z.ltb_spec (diff / 60000) 60); [lia|].
      destruct (Z.ltb_spec (diff / 3600000) 24); [done | lia].
    + split; [apply Z.div_le_lower_bound; lia | apply Hh; lia].
  - intros H. split.
    + destruct (Z.ltb_spec (diff / 60000) 60); [lia|].
      destruct (Z.ltb_spec (diff / 3600000) 24); [lia | done].
    + apply Z.div_le_lower_bound; lia.
Qed.

Lemma formatTime_units_witness :
  formatTime 1700000600000 1700000000000 = "10m ago"
  ∧ formatTime 1700090000000 1700000000000 = "1d ago".
Proof.
  destruct (formatTime_units 1700000600000 1700000000000) as ((Hm & _) & _); [lia|].
  destruct (formatTime_units 1700090000000 1700000000000) as (_ & _ & Hd); cbv zeta in Hd.
  destruct Hd as (Hd & _); [lia|].
  split; [rewrite Hm | rewrite Hd]; vm_compute; reflexivity.
Defined.

(** ** What an action does to the exchanges in flight *)

Lemma elem_of_delete_other {A} (l : list A) (n : nat) (x y : A) :
  x ∈ l → l !! n = Some y → x ≠ y → x ∈ delete n l.
Proof.
  intros [i Hi]%list_elem_of_lookup Hn Hne.
  destruct (decide (i < n)%nat) as [Hlt|Hge].
  - apply (list_elem_of_lookup_2 _ i). by rewrite list_lookup_delete_lt.
  - assert (i ≠ n) by congruence.
    apply (list_elem_of_lookup_2 _ (pred i)).
    rewrite list_lookup_delete_ge by lia. by replace (S (pred i)) with i by lia.
Qed.

(** The end of an exchange: no request, nothing put in flight, [isLoading]
    lowered, and [isInitializingStudy] lowered by [continueStudySession]. *)
Lemma resume_flags (e : Exchange) (o : Outcome) (now : Z) (w : World) :
  let w' := resume e o now w in
  sent w' = sent w
  ∧ inflight w' = inflight w
  ∧ isLoading (state w') = false
  ∧ isInitializingStudy (state w') =
      match awaiting e with
      | InContinueStudySession _ => false
      | _ => isInitializingStudy (state w)
      end.
Proof.
  unfold resume, startNewStudy_resume, continueStudySession_resume, sendMessage_resume,
    backendReturns.
  destruct (awaiting e), o as [|[[text|] [sid|] [ph|]]],
    (activeStudy (closure e)) as [a|] eqn:Ha;
    cbn [response session_id phase];
    repeat match goal with
           | |- context [Js.truthy ?x] => destruct (Js.truthy x) eqn:?
           end;
    unfold generateMessageId, appendMessage, update; cbn; rewrite ?Ha; cbn; done.
Qed.

(** The requests an action issues, and what it puts in flight. *)
Lemma act_requests (w : World) (a : Action) :
  ∃ reqs : list ChatRequest,
    sent (act w a) = sent w ++ reqs
    ∧ (length reqs ≤ 1)%nat
    ∧ match a with
      | Do (Resolve n o now) =>
          reqs = []
          ∧ inflight (act w a) =
              match inflight w !! n with Some _ => delete n (inflight w) | None => inflight w end
      | _ => ∃ es, inflight (act w a) = inflight w ++ es ∧ request <$> es = reqs
      end.
Proof.
  destruct a as [[name email now| |ok|topic now|study|now|text|n o now]|]; simpl.
  - exists []. rewrite app_nil_r. repeat split; [simpl; lia|]. exists []. by rewrite app_nil_r.
  - exists []. rewrite app_nil_r. repeat split; [simpl; lia|]. exists []. by rewrite app_nil_r.
  - exists []. rewrite app_nil_r. repeat split; [simpl; lia|]. exists []. by rewrite app_nil_r.
  - destruct (user (state w)) as [u|] eqn:Hu.
    + rewrite (startNewStudy_fires u topic now w Hu). simpl.
      eexists [_]. repeat split; [simpl; lia|]. by eexists [_].
    + unfold startNewStudy. rewrite Hu.
      exists []. rewrite app_nil_r. repeat split; [simpl; lia|]. exists []. by rewrite app_nil_r.
  - unfold_handlers. destruct (needsSession (state w) study); simpl.
    + eexists [_]. repeat split; [simpl; lia|]. by eexists [_].
    + exists []. rewrite app_nil_r. repeat split; [simpl; lia|]. exists []. by rewrite app_nil_r.
  - destruct (Js.truthy (Js.trim (inputValue (state w)))) eqn:Hin,
      (activeStudy (state w)) as [a|] eqn:Ha.
    + rewrite (sendMessage_fires a now w Ha Hin). simpl.
      eexists [_]. repeat split; [simpl; lia|]. by eexists [_].
    + rewrite sendMessage_blocked by by right.
      exists []. rewrite app_nil_r. repeat split; [simpl; lia|]. exists []. by rewrite app_nil_r.
    + rewrite sendMessage_blocked by by left.
      exists []. rewrite app_nil_r. repeat split; [simpl; lia|]. exists []. by rewrite app_nil_r.
    + rewrite sendMessage_blocked by by left.
      exists []. rewrite app_nil_r. repeat split; [simpl; lia|]. exists []. by rewrite app_nil_r.
  - exists []. rewrite app_nil_r. repeat split; [simpl; lia|]. exists []. by rewrite app_nil_r.
  - exists []. rewrite app_nil_r. unfold resolve.
    destruct (inflight w !! n) as [e|]; [|by repeat split; simpl; try lia].
    destruct (resume_flags e o now
                (mkWorld (state w) (messageIdRef w) (delete n (inflight w)) (sent w)))
      as (-> & -> & _).
    by repeat split; simpl; try lia.
  - exists []. rewrite app_nil_r. repeat split; [simpl; lia|]. exists []. by rewrite app_nil_r.
Qed.

(** X6 -- an action issues at most one request, and puts in flight exactly
    what it sends; the end of an exchange issues none (a failed exchange is
    never retried) and only takes that exchange out of flight. So after any
    actions from the initial state at most one request per action was sent,
    and every exchange in flight was sent. *)
Theorem one_request_per_action (l : list Action) :
  let w := acts initial l in
  (length (sent w) ≤ length l)%nat
  ∧ (∀ e, e ∈ inflight w → request e ∈ sent w)
  ∧ ∀ a, ∃ reqs,
      sent (act w a) = sent w ++ reqs
      ∧ (length reqs ≤ 1)%nat
      ∧ (∀ n o now, a = Do (Resolve n o now) →
           reqs = []
           ∧ inflight (act w a) =
               match inflight w !! n with
               | Some _ => delete n (inflight w)
               | None => inflight w
               end).
Proof.
  cbv zeta. split; [|split].
  - induction l as [|a l IH] using rev_ind; [simpl; lia|].
    unfold acts in *. rewrite foldl_app. simpl.
    destruct (act_requests (foldl act initial l) a) as (reqs & -> & Hlen & _).
    rewrite !length_app. simpl. lia.
  - induction l as [|a l IH] using rev_ind; [by intros e ?%elem_of_nil|].
    unfold acts in *. rewrite foldl_app. simpl. intros e He.
    destruct (act_requests (foldl act initial l) a) as (reqs & -> & _ & Hfl).
    destruct a as [[| | | | | | |n o now]|];
      try (destruct Hfl as (es & Hes & <-); rewrite Hes in He;
           apply elem_of_app in He as [He|He];
           [apply elem_of_app; left; by apply IH
           |apply elem_of_app; right; by apply list_elem_of_fmap_2]).
    destruct Hfl as (-> & Hfl). rewrite app_nil_r. apply IH.
    rewrite Hfl in He. destruct (_ !! n); [by eapply list_elem_of_delete_inv | done].
  - intros a. destruct (act_requests (acts initial l) a) as (reqs & Hs & Hlen & Hfl).
    exists reqs. split; [done|]. split; [done|].
    intros n o now ->. exact Hfl.
Qed.

Lemma flags_ok_act (w : World) (a : Action) : flags_ok w → flags_ok (act w a).
Proof.
  intros [Hl Hi].
  assert (∀ w', inflight w' = inflight w →
            isLoading (state w') = isLoading (state w) →
            isInitializingStudy (state w') = isInitializingStudy (state w) →
            flags_ok w') as Hframe.
  { intros w' E1 E2 E3. unfold flags_ok. by rewrite E1, E2, E3. }
  assert (∀ w' e, inflight w' = inflight w ++ [e] →
            isInitializingStudy (state w') = isInitializingStudy (state w) →
            flags_ok w') as Hpush.
  { intros w' e E1 E3. unfold flags_ok. rewrite E1, E3. split.
    - intros _. by destruct (inflight w).
    - intros (e' & study & He' & Hk)%Hi. exists e', study.
      split; [apply elem_of_app; by left | done]. }
  destruct a as [[name email now| |ok|topic now|study|now|text|n o now]|]; simpl.
  - by apply Hframe.
  - by apply Hframe.
  - by apply Hframe.
  - destruct (user (state w)) as [u|] eqn:Hu; [|unfold startNewStudy; by rewrite Hu].
    rewrite (startNewStudy_fires u topic now w Hu).
    eapply Hpush; [done|]. simpl. unfold flushActive. by destruct (activeStudy _).
  - unfold_handlers. destruct (needsSession (state w) study); simpl.
    + split; simpl.
      * intros _. by destruct (inflight w).
      * intros _. eexists _, study. split; [apply elem_of_app; right; by left | done].
    + apply Hframe; simpl; by destruct (activeStudy (state w)).
  - destruct (Js.truthy (Js.trim (inputValue (state w)))) eqn:Hin,
      (activeStudy (state w)) as [a|] eqn:Ha;
      try (rewrite sendMessage_blocked by first [by left | by right]; by split).
    rewrite (sendMessage_fires a now w Ha Hin). by eapply Hpush.
  - by apply Hframe.
  - unfold resolve. destruct (inflight w !! n) as [e|] eqn:Hn; [|by split].

    destruct (resume_flags e o now
                (mkWorld (state w) (messageIdRef w) (delete n (inflight w)) (sent w)))
      as (_ & Hfl & Hload & Hinit).
    split; [by rewrite Hload|]. rewrite Hinit, Hfl. simpl.
    destruct (awaiting e) eqn:He; [|done|].
    + intros (e' & study & He' & Hk)%Hi. exists e', study. split; [|done].
      eapply elem_of_delete_other; [done..|]. intros ->. congruence.
    + intros (e' & study & He' & Hk)%Hi. exists e', study. split; [|done].
      eapply elem_of_delete_other; [done..|]. intros ->. congruence.
  - apply Hframe; unfold newSession_onClick, flushActive, update; simpl;
      by destruct (activeStudy (state w)).
Qed.


(** X7 -- the loading flags never stick: after any actions from the initial
    state, [isLoading] is set only while some exchange is in flight and
    [isInitializingStudy] only while an exchange of [continueStudySession]
    is; with nothing in flight both are false, so the input and the send
    button are enabled again. *)
Theorem flags_follow_inflight (l : list Action) :
  let w := acts initial l in
  (isLoading (state w) = true → inflight w ≠ [])
  ∧ (isInitializingStudy (state w) = true →
       ∃ e study, e ∈ inflight w ∧ awaiting e = InContinueStudySession study)
  ∧ (inflight w = [] →
       isLoading (state w) = false ∧ isInitializingStudy (state w) = false).
Proof.
  cbv zeta.
  assert (flags_ok (acts initial l)) as [Hl Hi].
  { induction l as [|a l IH] using rev_ind; [by split|].
    unfold acts in *. rewrite foldl_app. by apply flags_ok_act. }
  split; [done|]. split; [done|].
  intros Hnil. split.
  - destruct (isLoading _); [by destruct Hl | done].
  - destruct (isInitializingStudy _); [|done].
    destruct Hi as (e & _ & He & _); [done|]. rewrite Hnil in He.
    by apply elem_of_nil in He.
Qed.

(** ** The text input and the send button *)

Lemma control_typing (w : World) (c : Control) :
  typing_only c → one_in_flight w → one_in_flight (control w c).
Proof.
  intros Hc Hsame. pose proof Hsame as [Hlen Hload].
  assert (isLoading (state w) = false → inflight w = []) as Hidle.
  { intros Hf. destruct (inflight w); [done|]. by rewrite Hload in Hf. }
  assert (∀ now, isLoading (state w) = false → one_in_flight (sendMessage now w)) as Hsend.
  { intros now Hf.
    destruct (Js.truthy (Js.trim (inputValue (state w)))) eqn:Hin,
      (activeStudy (state w)) as [a|] eqn:Ha;
      try (rewrite sendMessage_blocked by first [by left | by right]; exact Hsame).
    rewrite (sendMessage_fires a now w Ha Hin). unfold one_in_flight. simpl.
    by rewrite (Hidle Hf). }
  destruct c as [now|now| | | |text|n o now]; try done; simpl.
  - unfold input_onKeyPress_Enter.
    destruct (isLoading (state w)) eqn:Hl; simpl; [exact Hsame|].
    destruct (isInitializingStudy (state w)); simpl; [exact Hsame|]. by apply Hsend.
  - unfold send_onClick, send_disabled.
    destruct (isLoading (state w)) eqn:Hl; simpl; [rewrite orb_true_r; exact Hsame|].
    destruct (negb _ || false || _); [exact Hsame|].
    destruct (activeStudy (state w)) as [a|] eqn:Ha; [by apply Hsend|].
    destruct (user (state w)) as [u|] eqn:Hu;
      [|unfold startNewStudy; rewrite Hu; exact Hsame].
    rewrite (startNewStudy_fires u _ now w Hu). unfold one_in_flight. simpl.
    by rewrite (Hidle eq_refl).
  - destruct (_ || _); [exact Hsame|]. unfold one_in_flight. simpl. exact Hsame.
  - unfold resolve. destruct (inflight w !! n) as [e|] eqn:Hn; [|exact Hsame].
    destruct (resume_flags e o now
                (mkWorld (state w) (messageIdRef w) (delete n (inflight w)) (sent w)))
      as (_ & Hfl & _).
    unfold one_in_flight. rewrite Hfl. simpl.
    assert (delete n (inflight w) = []) as ->; [|by split; [simpl; lia|]].
    destruct (inflight w) as [|e0 [|e1 fl]]; [done| |simpl in Hlen; lia].
    by destruct n.
Qed.

(** X8 -- through the text input and the send button alone (typing, Enter,
    the send button, and the replies), at most one exchange is in flight at
    any time, and while one is, the controls are disabled: a double submit
    cannot send twice. *)
Theorem typing_one_in_flight (w : World) (cs : list Control) :
  inflight w = [] →
  Forall typing_only cs →
  let w' := foldl control w cs in
  (length (inflight w') ≤ 1)%nat
  ∧ (inflight w' ≠ [] → isLoading (state w') = true ∧ send_disabled (state w') = true)
  ∧ (inflight w' ≠ [] → ∀ now, control w' (PressEnter now) = w' ∧ control w' (ClickSend now) = w').
Proof.
  intros Hnil Hcs. cbv zeta.
  assert (one_in_flight (foldl control w cs)) as [Hlen Hload].
  { revert Hcs. induction cs as [|c cs IH] using rev_ind; intros Hcs; simpl.
    - unfold one_in_flight. rewrite Hnil. split; [simpl; lia | by intros []].
    - apply Forall_app in Hcs as [Hcs Hc]. rewrite Forall_singleton in Hc.
      rewrite foldl_app. simpl. apply control_typing; [done | by apply IH]. }
  split; [done|]. split.
  - intros Hne. rewrite (Hload Hne). split; [done|].
    unfold send_disabled. rewrite (Hload Hne). by rewrite orb_true_r.
  - intros Hne now. simpl. unfold input_onKeyPress_Enter, send_onClick, send_disabled.
    rewrite (Hload Hne). simpl. by rewrite orb_true_r.
Qed.

Lemma typing_one_in_flight_witness :
  (length (inflight (foldl control Sample.studying
                       [ TypeText "Energy is quantized"; PressEnter 1700000002000;
                         PressEnter 1700000002001; ClickSend 1700000002002 ])) ≤ 1)%nat.
Proof.
  apply (typing_one_in_flight Sample.studying
           [ TypeText "Energy is quantized"; PressEnter 1700000002000;
             PressEnter 1700000002001; ClickSend 1700000002002 ]).
  - vm_compute; reflexivity.
  - repeat constructor.
Defined.

(** ** Message ids *)

Lemma pretty_N_go_no_underscore (x : N) (s : string) :
  has_char "_" s = false → has_char "_" (pretty_N_go x s) = false.
Proof.
  revert s. induction (N.lt_wf_0 x) as [x _ IH]; intros s Hs.
  assert (x = 0 ∨ 0 < x)%N as [->|Hx] by lia; [by rewrite pretty_N_go_0|].
  rewrite pretty_N_go_step by done. apply IH; [by apply N.div_lt|].
  simpl. rewrite Hs. unfold pretty_N_char. by repeat case_match.
Qed.

Lemma pretty_Z_no_underscore (n : Z) : has_char "_" (pretty n) = false.
Proof.
  assert (∀ p : positive, has_char "_" (pretty p) = false) as Hp.
  { intros p. unfold pretty, pretty_positive, pretty, pretty_N.
    case_decide; [done|]. by apply pretty_N_go_no_underscore. }
  destruct n as [|p|p]; [done | apply Hp |].
  unfold pretty, pretty_Z. change ("-" +:+ pretty p) with (String "-" (pretty p)).
  simpl. apply Hp.
Qed.

Lemma split_at_underscore (a a' b b' : string) :
  has_char "_" a = false → has_char "_" a' = false →
  a +:+ String "_" b = a' +:+ String "_" b' → a = a' ∧ b = b'.
Proof.
  revert a'. induction a as [|c a IH]; intros [|c' a'] Ha Ha' Heq.
  - by injection Heq.
  - injection Heq as <- _. simpl in Ha'. discriminate Ha'.
  - injection Heq as -> _. simpl in Ha. discriminate Ha.
  - injection Heq as -> Heq. simpl in Ha, Ha'.
    apply orb_false_iff in Ha as [_ Ha]. apply orb_false_iff in Ha' as [_ Ha'].
    destruct (IH a' Ha Ha' Heq) as [-> ->]. done.
Qed.

(** The id determines the clock reading and the counter it was made from. *)
Lemma messageIdOf_inj (t t' n n' : Z) :
  messageIdOf t n = messageIdOf t' n' → t = t' ∧ n = n'.
Proof.
  unfold messageIdOf. intros Heq. apply (inj (String.app "msg_")) in Heq.
  change ("_" +:+ pretty n) with (String "_" (pretty n)) in Heq.
  change ("_" +:+ pretty n') with (String "_" (pretty n')) in Heq.
  apply split_at_underscore in Heq as [Ht Hn]; [|apply pretty_Z_no_underscore..].
  split; by apply (inj pretty).
Qed.

Lemma well_stamped_mono (r r' : Z) (ms : list Message) :
  r ≤ r' → well_stamped r ms → well_stamped r' ms.
Proof.
  intros Hr [Hs Hn]. split; [|done].
  eapply Forall_impl; [exact Hs|]. intros m (t & n & Hid & Hb). exists t, n. split; [done|lia].
Qed.

Lemma well_stamped_snoc (r t : Z) (ms : list Message) (m : Message) :
  message_id m = messageIdOf t (r + 1) → 0 ≤ r →
  well_stamped r ms → well_stamped (r + 1) (ms ++ [m]).
Proof.
  intros Hid Hr [Hs Hn]. split.
  - apply Forall_app. split.
    + eapply Forall_impl; [exact Hs|]. intros m' (t' & n & Hid' & Hb).
      exists t', n. split; [done|lia].
    + apply Forall_singleton. exists t, (r + 1). split; [done|lia].
  - rewrite fmap_app. apply NoDup_app. split; [done|]. split; [|apply NoDup_singleton].
    intros k Hk ->%list_elem_of_singleton.
    apply list_elem_of_fmap in Hk as (m' & Hk & Hm').
    rewrite Forall_forall in Hs. destruct (Hs m' Hm') as (t' & n & Hid' & Hb).
    rewrite Hid, Hid' in Hk. apply messageIdOf_inj in Hk as [_ Hk]. lia.
Qed.

Lemma well_stamped_single (r t : Z) (m : Message) :
  message_id m = messageIdOf t (r + 1) → 0 ≤ r → well_stamped (r + 1) [m].
Proof.
  intros Hid Hr. apply (well_stamped_snoc r t [] m Hid Hr). split; [done | constructor].
Qed.

(** What the end of an exchange does to the message lists. *)
Lemma resume_messages (e : Exchange) (o : Outcome) (now : Z) (w : World) :
  let w' := resume e o now w in
  (messageIdRef w' = messageIdRef w
   ∧ messages (state w') = messages (state w)
   ∧ messagesMap (state w') = messagesMap (state w))
  ∨ ∃ m, message_id m = messageIdOf now (messageIdRef w + 1)
         ∧ messageIdRef w' = messageIdRef w + 1
         ∧ ((messages (state w') = [m]
             ∧ ∃ k, messagesMap (state w') = <[k := [m]]> (messagesMap (state w)))
            ∨ (messages (state w') = messages (state w) ++ [m]
               ∧ (messagesMap (state w') = messagesMap (state w)
                  ∨ ∃ k, messagesMap (state w') =
                         <[k := messages (state w) ++ [m]]> (messagesMap (state w))))).
Proof.
  unfold resume, startNewStudy_resume, continueStudySession_resume, sendMessage_resume,
    backendReturns.
  destruct (awaiting e), o as [|[[text|] [sid|] [ph|]]],
    (activeStudy (closure e)) as [a|] eqn:Ha;
    cbn [response session_id phase];
    repeat match goal with
           | |- context [Js.truthy ?x] => destruct (Js.truthy x) eqn:?
           end;
    unfold generateMessageId, appendMessage, update; cbn; rewrite ?Ha; cbn;
    first [ by left
          | right; eexists (mkMessage _ _ _ _); split; [reflexivity|]; split; [done|];
            first [ left; split; [done|]; by eexists
                  | right; split; [done|]; first [by left | right; by eexists] ] ].
Qed.

Lemma ids_unique_act (w : World) (a : Action) : ids_unique w → ids_unique (act w a).
Proof.
  intros (Hr & Hs & Hn & Hmap).
  assert (well_stamped (messageIdRef w) (messages (state w))) as Hbuf by done.
  assert (∀ r' (k : string) v (m' : gmap string (list Message)),
            messageIdRef w ≤ r' → well_stamped r' v →
            ∀ k' ms, <[k := v]> m' !! k' = Some ms →
              (∀ k'' ms', m' !! k'' = Some ms' → well_stamped (messageIdRef w) ms') →
              well_stamped r' ms) as Hins.
  { intros r' k v m' Hle Hv k' ms Hlook Hm'.
    destruct (decide (k = k')) as [<-|Hne].
    - rewrite lookup_insert_eq in Hlook. by injection Hlook as <-.
    - rewrite lookup_insert_ne in Hlook by done.
      eapply well_stamped_mono; [exact Hle | by eapply Hm']. }
  assert (∀ w', messageIdRef w' = messageIdRef w →
            messages (state w') = messages (state w) →
            messagesMap (state w') = messagesMap (state w) → ids_unique w') as Hframe.
  { intros w' E1 E2 E3. unfold ids_unique. by rewrite E1, E2, E3. }
  assert (∀ w' l, messageIdRef w' = messageIdRef w →
            well_stamped (messageIdRef w) l → messages (state w') = l →
            messagesMap (state w') =
              match activeStudy (state w) with
              | Some a0 => <[id a0 := messages (state w)]> (messagesMap (state w))
              | None => messagesMap (state w)
              end → ids_unique w') as Hflush.
  { intros w' l E1 [Hl1 Hl2] E2 E3. unfold ids_unique. rewrite E1, E2, E3.
    split; [done|]. split; [done|]. split; [done|].
    destruct (activeStudy (state w)); [|done].
    intros k ms Hk. eapply (Hins (messageIdRef w)); [lia | exact Hbuf | exact Hk | done]. }
  destruct a as [[name email now| |ok|topic now|study|now|text|n o now]|]; simpl.
  - by apply Hframe.
  - by apply Hframe.
  - by apply Hframe.
  - destruct (user (state w)) as [u|] eqn:Hu;
      [|unfold startNewStudy; rewrite Hu; by apply Hframe].
    rewrite (startNewStudy_fires u topic now w Hu).
    apply (Hflush _ []); simpl; [done | by split; [|constructor] | done |].
    unfold flushActive. by destruct (activeStudy (state w)).
  - destruct (switchToStudy_state study w) as (_ & Hm & Hmp & _).
    apply (Hflush _ (default [] (messagesMap (state w) !! id study))); [|  |done..].
    + unfold_handlers. by destruct (needsSession (state w) study).
    + destruct (messagesMap (state w) !! id study) as [ms|] eqn:Hk; simpl;
        [by eapply Hmap | by split; [|constructor]].
  - destruct (Js.truthy (Js.trim (inputValue (state w)))) eqn:Hin,
      (activeStudy (state w)) as [a|] eqn:Ha;
      try (rewrite sendMessage_blocked by first [by left | by right];
           by apply Hframe).
    rewrite (sendMessage_fires a now w Ha Hin).
    assert (well_stamped (messageIdRef w + 1) (messages (state w) ++ [userMessageOf now w]))
      as Hnew by (by eapply well_stamped_snoc).
    unfold ids_unique. simpl. split; [lia|]. destruct Hnew as [Hn1 Hn2].
    split; [done|]. split; [done|].
    intros k ms Hk. eapply Hins; [| |exact Hk|done]; [lia | done].
  - by apply Hframe.
  - unfold resolve. destruct (inflight w !! n) as [e|] eqn:Hn'; [|done].
    set (w0 := mkWorld (state w) (messageIdRef w) (delete n (inflight w)) (sent w)).
    destruct (resume_messages e o now w0)
      as [(E1 & E2 & E3)|(m & Hid & E1 & [[E2 (k & E3)]|[E2 [E3|(k & E3)]]])];
      unfold ids_unique; rewrite E1, E2, E3; simpl.
    + done.
    + destruct (well_stamped_single (messageIdRef w) now m Hid Hr) as [H1 H2].
      split; [lia|]. split; [done|]. split; [done|].
      intros k' ms Hk. eapply Hins; [| |exact Hk|done]; [lia | done].
    + destruct (well_stamped_snoc (messageIdRef w) now _ m Hid Hr Hbuf) as [H1 H2].
      split; [lia|]. split; [done|]. split; [done|].
      intros k' ms Hk. eapply well_stamped_mono; [|by eapply Hmap]. lia.
    + destruct (well_stamped_snoc (messageIdRef w) now _ m Hid Hr Hbuf) as [H1 H2].
      split; [lia|]. split; [done|]. split; [done|].
      intros k' ms Hk. eapply Hins; [| |exact Hk|done]; [lia | done].
  - apply (Hflush _ []); [done | by split; [|constructor] | done |].
    unfold newSession_onClick, flushActive, update. simpl.
    by destruct (activeStudy (state w)).
Qed.

(** X9 -- message ids are unique: after any actions from the initial state,
    the buffer and every cached list hold messages whose ids were made by
    [generateMessageId] at counters up to [messageIdRef], no id twice in a
    list; and two ids made at different counters differ whatever the clock. *)
Theorem message_ids_unique (l : list Action) :
  let w := acts initial l in
  NoDup (message_id <$> messages (state w))
  ∧ (∀ k ms, messagesMap (state w) !! k = Some ms → NoDup (message_id <$> ms))
  ∧ (∀ m, m ∈ messages (state w) →
       ∃ t n, message_id m = messageIdOf t n ∧ 0 < n ≤ messageIdRef w)
  ∧ (∀ t t' n n', messageIdOf t n = messageIdOf t' n' → t = t' ∧ n = n').
Proof.
  cbv zeta.
  assert (ids_unique (acts initial l)) as (Hr & Hs & Hn & Hmap).
  { induction l as [|a l IH] using rev_ind.
    - unfold ids_unique. simpl. split; [lia|]. split; [constructor|].
      split; [constructor | done].
    - unfold acts in *. rewrite foldl_app. by apply ids_unique_act. }
  split; [done|]. split; [intros k ms Hk; by apply (Hmap k ms)|].
  split; [|apply messageIdOf_inj].
  intros m Hm. rewrite Forall_forall in Hs. by apply Hs.
Qed.

(** ** The groups of the sidebar *)

Lemma determineSubject_range (topic : string) : determineSubject topic ∈ subjects.
Proof.
  unfold determineSubject, subjectKeywords, subjects. cbn [first_subject].
  repeat match goal with
         | |- context [some_keyword ?t ?k] => destruct (some_keyword t k)
         end;
    rewrite !elem_of_cons; tauto.
Qed.

Lemma subjects_keys_colours :
  ∀ x y, x ∈ subjects → y ∈ subjects →
    (Js.toLowerCase x = Js.toLowerCase y → x = y)
    ∧ (getSubjectColor x = getSubjectColor y → x = y)
    ∧ (getSubjectIcon x = getSubjectIcon y → x = y)
    ∧ getSubjectColor x ≠ "" ∧ getSubjectIcon x ≠ ""
    ∧ (getSubjectColor x = "gray" ↔ x = "General").
Proof.
  intros x y Hx Hy. unfold subjects in *. rewrite !elem_of_cons, elem_of_nil in Hx, Hy.
  destruct Hx as [->|[->|[->|[->|[->|[->|[->|[]]]]]]]];
    destruct Hy as [->|[->|[->|[->|[->|[->|[->|[]]]]]]]];
    vm_compute; repeat split; intros; congruence.
Qed.

(** How an action changes the groups. *)
Lemma act_groups (w : World) (a : Action) :
  studyGroups (state (act w a)) = studyGroups (state w)
  ∨ (∃ topic now, a = Do (StartNewStudy topic now)
       ∧ studyGroups (state (act w a)) =
         addToStudyGroups (newStudyOf topic now) (studyGroups (state w)))
  ∨ (∃ s s', id s' = id s
       ∧ studyGroups (state (act w a)) = replaceInStudyGroups s s' (studyGroups (state w))).
Proof.
  destruct a as [[name email now| |ok|topic now|study|now|text|n o now]|]; simpl;
    try by left.
  - destruct (user (state w)) as [u|] eqn:Hu.
    + right. left. exists topic, now. split; [done|].
      by apply (startNewStudy_studyGroups u).
    + left. unfold startNewStudy. by rewrite Hu.
  - left. by destruct (switchToStudy_state study w) as (_ & _ & _ & _ & ->).
  - left. destruct (Js.truthy (Js.trim (inputValue (state w)))) eqn:Hin,
      (activeStudy (state w)) as [a|] eqn:Ha;
      try (by rewrite sendMessage_blocked by first [by left | by right]).
    by rewrite (sendMessage_fires a now w Ha Hin).
  - unfold resolve. destruct (inflight w !! n) as [e|]; [|by left].
    destruct (resume_shape e o now
                (mkWorld (state w) (messageIdRef w) (delete n (inflight w)) (sent w)))
      as (_ & _ & [[_ ->]|(s & s' & _ & Hid & _ & ->)]); [by left|].
    right. right. by exists s, s'.
  - left. unfold newSession_onClick, flushActive, update. simpl.
    by destruct (activeStudy (state w)).
Qed.

Lemma replaceInStudyGroups_fields (s s' : Study) (gs : list StudyGroup) :
  group_name <$> replaceInStudyGroups s s' gs = group_name <$> gs
  ∧ (Forall group_of_subject gs → Forall group_of_subject (replaceInStudyGroups s s' gs)).
Proof.
  unfold replaceInStudyGroups. split.
  - rewrite <- list_fmap_compose. by apply list_fmap_ext.
  - intros H. apply Forall_fmap. eapply Forall_impl; [exact H|]. by intros g.
Qed.

Lemma NoDup_fmap_eq {A B} (f : A → B) (l : list A) (x y : A) :
  NoDup (f <$> l) → x ∈ l → y ∈ l → f x = f y → x = y.
Proof.
  intros Hnd [i Hi]%list_elem_of_lookup [j Hj]%list_elem_of_lookup Hf.
  assert (i = j) as ->; [|congruence].
  apply (NoDup_lookup _ i j (f x) Hnd); rewrite list_lookup_fmap.
  - by rewrite Hi.
  - by rewrite Hj, Hf.
Qed.

Lemma groups_act (w : World) (a : Action) :
  NoDup (group_name <$> studyGroups (state w)) →
  Forall group_of_subject (studyGroups (state w)) →
  NoDup (group_name <$> studyGroups (state (act w a)))
  ∧ Forall group_of_subject (studyGroups (state (act w a))).
Proof.
  intros Hnd Hall.
  destruct (act_groups w a) as [->|[(topic & now & _ & ->)|(s & s' & _ & ->)]]; [done| |].
  - set (s := newStudyOf topic now). split.
    + rewrite addToStudyGroups_names. destruct (decide _); [done|].
      by apply NoDup_cons.
    + destruct (decide (subject s ∈ group_name <$> studyGroups (state w))) as [Hin|Hn].
      * destruct (addToStudyGroups_existing s _ Hin) as (i & g & _ & _ & _ & ->).
        apply Forall_alter; [done|]. by intros g' _ Hg'.
      * rewrite addToStudyGroups_new by done. apply Forall_cons. split; [|done].
        repeat split. simpl. apply determineSubject_range.
  - destruct (replaceInStudyGroups_fields s s' (studyGroups (state w))) as [-> H].
    split; [done | by apply H].
Qed.

(** X10 -- after any actions from the initial state the groups of the
    sidebar carry one of the seven subjects as name, the lowercased name as
    id and the icon and colour of the subject; names, ids (the React keys),
    icons and colours are pairwise distinct, and only "General" is gray. *)
Theorem sidebar_groups (l : list Action) :
  let gs := studyGroups (state (acts initial l)) in
  (∀ g, g ∈ gs →
     group_name g ∈ subjects
     ∧ group_id g = Js.toLowerCase (group_name g)
     ∧ icon g = getSubjectIcon (group_name g)
     ∧ color g = getSubjectColor (group_name g)
     ∧ (color g = "gray" ↔ group_name g = "General"))
  ∧ NoDup (group_name <$> gs)
  ∧ NoDup (group_id <$> gs)
  ∧ NoDup (color <$> gs)
  ∧ NoDup (icon <$> gs).
Proof.
  cbv zeta.
  assert (NoDup (group_name <$> studyGroups (state (acts initial l)))
          ∧ Forall group_of_subject (studyGroups (state (acts initial l)))) as [Hnd Hall].
  { induction l as [|a l [IH1 IH2]] using rev_ind; [by split; constructor|].
    unfold acts in *. rewrite foldl_app. by apply groups_act. }
  rewrite Forall_forall in Hall.
  assert (∀ (f : StudyGroup → string) (h : string → string),
            (∀ g, g ∈ studyGroups (state (acts initial l)) → f g = h (group_name g)) →
            (∀ x y, x ∈ subjects → y ∈ subjects → h x = h y → x = y) →
            NoDup (f <$> studyGroups (state (acts initial l)))) as Hkey.
  { intros f h Hf Hh. apply NoDup_fmap_2_strong; [|by eapply NoDup_fmap_1].
    intros g1 g2 H1 H2 Heq. rewrite (Hf g1 H1), (Hf g2 H2) in Heq.
    apply (NoDup_fmap_eq group_name _ g1 g2 Hnd H1 H2).
    apply Hh; [by apply Hall..|done]. }
  split; [|split; [done|split; [|split]]].
  - intros g Hg. destruct (Hall g Hg) as (H1 & H2 & H3 & H4).
    repeat split; try done; rewrite H4; by apply (subjects_keys_colours _ _ H1 H1).
  - apply (Hkey group_id Js.toLowerCase); [intros g Hg; by apply Hall|].
    intros x y Hx Hy. by apply (subjects_keys_colours x y Hx Hy).
  - apply (Hkey color getSubjectColor); [intros g Hg; by apply Hall|].
    intros x y Hx Hy. by apply (subjects_keys_colours x y Hx Hy).
  - apply (Hkey icon getSubjectIcon); [intros g Hg; by apply Hall|].
    intros x y Hx Hy. by apply (subjects_keys_colours x y Hx Hy).
Qed.

(** ** Study ids *)

Lemma elem_of_concat {A} (x : A) (ls : list (list A)) :
  x ∈ concat ls ↔ ∃ l, l ∈ ls ∧ x ∈ l.
Proof.
  induction ls as [|l ls IH]; simpl.
  - split; [by intros ?%elem_of_nil | by intros (l & ?%elem_of_nil & _)].
  - rewrite elem_of_app, IH. split.
    + intros [H|(l' & H1 & H2)]; [exists l; split; [by left | done]|].
      exists l'. split; [by right | done].
    + intros (l' & [->|H1]%elem_of_cons & H2); [by left | right; by exists l'].
Qed.

Lemma addToStudyGroups_concat (s : Study) (gs : list StudyGroup) :
  concat (studies <$> addToStudyGroups s gs) ≡ₚ s :: concat (studies <$> gs).
Proof.
  destruct (decide (subject s ∈ group_name <$> gs)) as [Hin|Hn].
  - destruct (addToStudyGroups_existing s gs Hin) as (i & g & Hg & _ & _ & ->).
    by eapply unshiftStudy_concat.
  - by rewrite addToStudyGroups_new.
Qed.

Lemma replaceInStudyGroups_same_ids (s s' : Study) (gs : list StudyGroup) :
  id s' = id s →
  id <$> concat (studies <$> replaceInStudyGroups s s' gs) = id <$> concat (studies <$> gs).
Proof.
  intros Hid. unfold replaceInStudyGroups.
  induction gs as [|g gs IH]; [done|].
  rewrite !fmap_cons. simpl. rewrite !fmap_app, IH. f_equal.
  rewrite <- list_fmap_compose. apply list_fmap_ext. intros _ x _. simpl.
  by case_bool_decide; [rewrite Hid|].
Qed.

Lemma replaceInStudyGroups_elem (a a' x : Study) (gs : list StudyGroup) :
  x ∈ concat (studies <$> replaceInStudyGroups a a' gs) →
  ∃ y, y ∈ concat (studies <$> gs)
       ∧ x = if bool_decide (id y = id a) then a' else y.
Proof.
  intros (l & (g' & -> & Hg')%list_elem_of_fmap & Hx)%elem_of_concat.
  unfold replaceInStudyGroups in Hg'.
  apply list_elem_of_fmap in Hg' as (g & -> & Hg). cbn [studies] in Hx.
  apply list_elem_of_fmap in Hx as (y & -> & Hy).
  exists y. split; [|done]. apply elem_of_concat. exists (studies g).
  split; [by apply list_elem_of_fmap_2 | done].
Qed.

Lemma reapplied_elem (extra : nat) (s x : Study) (gs : list StudyGroup) :
  x ∈ concat (studies <$> Shared.reapplied extra s gs) →
  x = s ∨ x ∈ concat (studies <$> gs).
Proof.
  intros (l & (g' & -> & Hg')%list_elem_of_fmap & Hx)%elem_of_concat.
  destruct (reapplied_studies extra s x gs g' Hg' Hx) as [->|(g & Hg & Hxg)]; [by left|].
  right. apply elem_of_concat. exists (studies g).
  split; [by apply list_elem_of_fmap_2 | done].
Qed.

(** X11 -- a study id names one study: in every state reached from the
    initial one (the "New Study Session" button included) with a clock that
    moves on between two [startNewStudy] calls, however often React applies
    the updater of [startNewStudy], two entries of the sidebar with the same
    id are the same Study, and every id is the decimal timestamp of a
    creation before the current time; when every updater is applied once, no
    two entries share an id (the React key of a study row, and the key of
    the two maps). *)
Theorem study_ids_unique (m : nat) (b : Z) (w : World) :
  reachable m b w →
  let entries := concat (studies <$> studyGroups (state w)) in
  (∀ s1 s2, s1 ∈ entries → s2 ∈ entries → id s1 = id s2 → s1 = s2)
  ∧ (∀ g s, g ∈ studyGroups (state w) → s ∈ studies g → ∃ t, id s = pretty t ∧ t < b)
  ∧ (m = 0%nat → NoDup (id <$> entries)).
Proof.
  intros Hr. cbv zeta.
  enough ((∀ s1 s2, s1 ∈ concat (studies <$> studyGroups (state w)) →
                    s2 ∈ concat (studies <$> studyGroups (state w)) →
                    id s1 = id s2 → s1 = s2)
          ∧ (m = 0%nat → NoDup (id <$> concat (studies <$> studyGroups (state w)))))
    as [? ?].
  { split; [done|]. split; [|done]. by destruct (reachable_ids m b w Hr) as (_ & _ & _ & ?). }
  assert (∀ a a' gs,
            id a' = id a →
            (∀ s1 s2, s1 ∈ concat (studies <$> gs) → s2 ∈ concat (studies <$> gs) →
                      id s1 = id s2 → s1 = s2) →
            ∀ s1 s2, s1 ∈ concat (studies <$> replaceInStudyGroups a a' gs) →
                     s2 ∈ concat (studies <$> replaceInStudyGroups a a' gs) →
                     id s1 = id s2 → s1 = s2) as Hreplace.
  { intros a a' gs Hid Hkey s1 s2
      (y1 & Hy1 & ->)%replaceInStudyGroups_elem (y2 & Hy2 & ->)%replaceInStudyGroups_elem Heq.
    assert (id y1 = id y2) as Hy; [|by rewrite (Hkey y1 y2 Hy1 Hy2 Hy)].
    repeat case_bool_decide; congruence. }
  induction Hr as [|b w name email now Hr IH|b w Hr IH|b w ok Hr IH|b w text Hr IH
                   |b w extra topic now Hr IH Hm Hb|b w g study Hr IH Hg Hs|b w Hr IH
                   |b w now Hr IH|b w n o now Hr IH].
  - split; [by intros s1 s2 ?%elem_of_nil | constructor].
  - done.
  - done.
  - done.
  - done.
  - destruct (user (state w)) as [u|] eqn:Hu;
      [|unfold startNewStudy_reapplied; by rewrite Hu].
    rewrite (startNewStudy_reapplied_studyGroups u extra topic now w Hu).
    destruct IH as [Hkey Hnd].
    assert (∀ s, s ∈ concat (studies <$> studyGroups (state w)) →
                 id s ≠ id (newStudyOf topic now)) as Hfresh.
    { intros s (l & (g & -> & Hg)%list_elem_of_fmap & Hin)%elem_of_concat Hs.
      destruct (reachable_ids m b w Hr) as (_ & _ & _ & H4).
      apply (known_fresh b now Hb). simpl in Hs. rewrite <- Hs. by eapply H4. }
    split.
    + intros s1 s2 [->|H1]%reapplied_elem [->|H2]%reapplied_elem Heq.
      * done.
      * symmetry in Heq. by destruct (Hfresh s2 H2).
      * by destruct (Hfresh s1 H1).
      * by apply Hkey.
    + intros ->. assert (extra = 0%nat) as -> by lia.
      rewrite reapplied_once, addToStudyGroups_concat, fmap_cons.
      apply NoDup_cons. split; [|by apply Hnd].
      intros (s & Hs & Hin)%list_elem_of_fmap. by destruct (Hfresh s Hin).
  - by destruct (switchToStudy_state study w) as (_ & _ & _ & _ & ->).
  - assert (studyGroups (state (newSession_onClick w)) = studyGroups (state w)) as ->; [|done].
    unfold newSession_onClick, flushActive, update. simpl.
    by destruct (activeStudy (state w)).
  - destruct (act_groups w (Do (SendMessage now)))
      as [E|[(topic' & now' & [=] & E)|(s & s' & Hid & E)]]; simpl in E; rewrite E;
      [done|]. destruct IH as [Hkey Hnd].
    split; [by apply Hreplace | by rewrite replaceInStudyGroups_same_ids].
  - destruct (act_groups w (Do (Resolve n o now)))
      as [E|[(topic' & now' & [=] & E)|(s & s' & Hid & E)]]; simpl in E; rewrite E;
      [done|]. destruct IH as [Hkey Hnd].
    split; [by apply Hreplace | by rewrite replaceInStudyGroups_same_ids].
Qed.

Lemma study_ids_unique_witness :
  let w := startNewStudy_reapplied 1 "Thermodynamics" 1700000005000
             (newSession_onClick
                (startNewStudy_reapplied 1 "Quantum Physics" 1700000001000
                   (handleLogin "Ada" "ada@example.org" 1700000000000 initial))) in
  let entries := concat (studies <$> studyGroups (state w)) in
  (∀ s1 s2, s1 ∈ entries → s2 ∈ entries → id s1 = id s2 → s1 = s2)
  ∧ (∀ g s, g ∈ studyGroups (state w) → s ∈ studies g →
            ∃ t, id s = pretty t ∧ t < 1700000005000 + 1)
  ∧ (1%nat = 0%nat → NoDup (id <$> entries)).
Proof.
  apply (study_ids_unique 1 (1700000005000 + 1)).
  eapply reach_start;
    [apply reach_new_session; eapply (reach_start 1 0);
       [apply reach_login, reach_initial | lia | lia]
    | lia | lia].
Defined.

(** * The quiz trainer *)

Lemma sampleQuestions_lookup (d : Z) :
  1 ≤ d ≤ 5 →
  ∃ q, Quiz.sampleQuestions !! d = Some q ∧ Js.truthy q = true
       ∧ Quiz.or_else (Quiz.sampleQuestions !! d) "Loading next question..." = q.
Proof.
  intros Hd. assert (d = 1 ∨ d = 2 ∨ d = 3 ∨ d = 4 ∨ d = 5) as [->|[->|[->|[->| ->]]]] by lia;
    by eexists.
Qed.

Lemma quiz_ok_step (s : Quiz.State) (e : Quiz.Event) : quiz_ok s → quiz_ok (Quiz.step s e).
Proof.
  intros Hok. pose proof Hok as (Hd & Hs & Hsc & Hq). unfold Quiz.step.
  destruct (Quiz.currentView s) eqn:Hv, e as [topicId|text| | |]; try exact Hok.
  - (* startLearning *)
    unfold quiz_ok, Quiz.startLearning. simpl. repeat split; try lia.
    intros _. exists 1. split; [done | by left].
  - (* typing *)
    destruct (Quiz.showFeedback s) eqn:Hf; [exact Hok|].
    unfold quiz_ok. simpl. repeat split; try lia. intros _. by apply Hq.
  - (* submit *)
    destruct (Quiz.showFeedback s) eqn:Hf; simpl; [exact Hok|].
    destruct (_ <? 10); [exact Hok|].
    destruct (Hq eq_refl) as (k & Hk & [->|[[=] _]]).
    unfold quiz_ok, Quiz.submitAnswer. simpl.
    destruct (20 <? _); simpl; [destruct (Z.ltb_spec (Quiz.difficulty s) 5)|];
      repeat split; try lia; intros _; exists (Quiz.difficulty s);
      (split; [done|]); first [by left | right; split; [done | lia]].
  - (* next *)
    destruct (Quiz.showFeedback s) eqn:Hf; [|exact Hok].
    destruct (sampleQuestions_lookup _ Hd) as (q & Hq1 & _ & Hq2).
    unfold quiz_ok, Quiz.nextQuestion. simpl. rewrite Hq2.
    repeat split; try lia. intros _. exists (Quiz.difficulty s). split; [done | by left].
  - (* back *)
    unfold quiz_ok. simpl. repeat split; try lia. by intros [=].
Qed.

Lemma quiz_ok_run (es : list Quiz.Event) : quiz_ok (Quiz.run Quiz.initial es).
Proof.
  induction es as [|e es IH] using rev_ind.
  - unfold quiz_ok. simpl. repeat split; try lia. by intros [=].
  - unfold Quiz.run in *. rewrite foldl_app. by apply quiz_ok_step.
Qed.

(** X12 -- in every state of the quiz the difficulty is between 1 and 5,
    the streak is at most the number of answers submitted, and the score is
    at least 10 per answer of the current streak and at most 50 per answer
    submitted. *)
Theorem quiz_bounds (es : list Quiz.Event) :
  let s := Quiz.run Quiz.initial es in
  1 ≤ Quiz.difficulty s ≤ 5
  ∧ 0 ≤ Quiz.streak s ≤ Quiz.questionsAnswered (Quiz.progress s)
  ∧ 10 * Quiz.streak s ≤ Quiz.score s ≤ 50 * Quiz.questionsAnswered (Quiz.progress s).
Proof. cbv zeta. by destruct (quiz_ok_run es) as (? & ? & ? & _). Qed.

(** X13 -- in the learning view the question shown is always one of the
    five sample questions, the one of the current difficulty while an answer
    is awaited (after a good answer, the one just answered until "Next"): the
    "Loading next question..." fallback is never shown, and the difficulty
    label and colour are never the "Unknown" / gray defaults. *)
Theorem quiz_question_shown (es : list Quiz.Event) :
  let s := Quiz.run Quiz.initial es in
  (Quiz.currentView s = Quiz.learning →
     Quiz.currentQuestion s ≠ "Loading next question..."
     ∧ (Quiz.showFeedback s = false →
          Quiz.sampleQuestions !! Quiz.difficulty s = Some (Quiz.currentQuestion s))
     ∧ ∃ k, 1 ≤ k ≤ Quiz.difficulty s
            ∧ Quiz.sampleQuestions !! k = Some (Quiz.currentQuestion s))
  ∧ Quiz.getDifficultyLabel (Quiz.difficulty s) ≠ "Unknown"
  ∧ Quiz.getDifficultyColor (Quiz.difficulty s) ≠ "bg-gray-500".
Proof.
  cbv zeta. destruct (quiz_ok_run es) as (Hd & _ & _ & Hq). split.
  - intros Hv. destruct (Hq Hv) as (k & Hk & Hcase).
    assert (1 ≤ k ≤ Quiz.difficulty (Quiz.run Quiz.initial es)) as Hrange.
    { assert (is_Some (Quiz.sampleQuestions !! k)) as Hsome by by eexists.
      assert (1 ≤ k ≤ 5); [|destruct Hcase as [->|[_ ?]]; lia].
      destruct (decide (1 ≤ k ≤ 5)) as [|Hout]; [done|]. exfalso.
      assert (Quiz.sampleQuestions !! k = None) as Hnone; [|by rewrite Hnone in Hk].
      unfold Quiz.sampleQuestions. apply not_elem_of_list_to_map. simpl.
      rewrite !elem_of_cons, elem_of_nil. lia. }
    split; [|split; [|by exists k]].
    + intros Heq. rewrite Heq in Hk.
      assert (k = 1 ∨ k = 2 ∨ k = 3 ∨ k = 4 ∨ k = 5) as [->|[->|[->|[->| ->]]]] by lia;
        discriminate Hk.
    + intros Hf. destruct Hcase as [->|[Hf' _]]; [done | congruence].
  - set (d := Quiz.difficulty _) in *.
    assert (d = 1 ∨ d = 2 ∨ d = 3 ∨ d = 4 ∨ d = 5) as [->|[->|[->|[->| ->]]]] by lia;
      by split.
Qed.

Lemma quiz_round (s : Quiz.State) (a : string) :
  quiz_asking s →
  10 ≤ Z.of_nat (String.length a) →
  let s' := Quiz.run s (Quiz.round a) in
  quiz_asking s'
  ∧ Quiz.difficulty s'
    = (if good_answer a && (Quiz.difficulty s <? 5)
       then Quiz.difficulty s + 1 else Quiz.difficulty s)
  ∧ Quiz.score s' = (if good_answer a then Quiz.score s + Quiz.difficulty s * 10
                     else Quiz.score s)
  ∧ Quiz.streak s' = (if good_answer a then Quiz.streak s + 1 else 0)
  ∧ Quiz.questionsAnswered (Quiz.progress s')
    = Quiz.questionsAnswered (Quiz.progress s) + 1.
Proof.
  intros [Hv Hf] Hlen. cbv zeta. unfold Quiz.run, Quiz.round, good_answer.
  cbn [foldl].
  assert (Quiz.step s (Quiz.TypeAnswer a)
          = Quiz.mkState (Quiz.currentView s) (Quiz.selectedTopic s) (Quiz.difficulty s)
              (Quiz.score s) (Quiz.streak s) (Quiz.currentQuestion s) a (Quiz.feedback s)
              (Quiz.showFeedback s) (Quiz.progress s)) as ->.
  { unfold Quiz.step. by rewrite Hv, Hf. }
  set (s1 := Quiz.mkState _ _ _ _ _ _ a _ _ _).
  assert (Quiz.step s1 Quiz.ClickSubmit = Quiz.submitAnswer s1) as ->.
  { unfold Quiz.step, s1. cbn. rewrite Hv, Hf. cbn.
    by destruct (Z.ltb_spec (Z.of_nat (String.length a)) 10) as [|_]; [lia|]. }
  assert (Quiz.step (Quiz.submitAnswer s1) Quiz.ClickNext
          = Quiz.nextQuestion (Quiz.submitAnswer s1)) as ->.
  { unfold Quiz.step, s1. cbn. by rewrite Hv. }
  unfold quiz_asking, s1. cbn. by rewrite Hv.
Qed.

Lemma quiz_rounds_snoc (s : Quiz.State) (l : list string) (a : string) :
  Quiz.run s (mjoin (Quiz.round <$> (l ++ [a])))
  = Quiz.run (Quiz.run s (mjoin (Quiz.round <$> l))) (Quiz.round a).
Proof.
  unfold Quiz.run. by rewrite fmap_app, join_app, foldl_app.
Qed.

Lemma ladder_succ (k : Z) :
  0 ≤ k → Quiz.ladder (k + 1) = Quiz.ladder k + Z.min (1 + k) 5.
Proof.
  intros Hk. unfold Quiz.ladder.
  destruct (Z.leb_spec (k + 1) 5), (Z.leb_spec k 5); try lia.
  - assert (k = 0 ∨ k = 1 ∨ k = 2 ∨ k = 3 ∨ k = 4) as [->|[->|[->|[->| ->]]]] by lia;
      reflexivity.
  - assert (k = 5) as -> by lia. reflexivity.
Qed.

(** X14 -- choosing a topic and then giving [k] good answers (more than 20
    characters) in a row, each followed by "Next", leaves the difficulty at
    min(1 + k, 5), adds k to the streak and to the number of answers, and
    adds 10 * (1 + 2 + ... ) points: 10 * k(k+1)/2 up to k = 5 and
    10 * (5k - 10) beyond, the difficulty being capped at 5. *)
Theorem quiz_ladder (s : Quiz.State) (topicId : string) (answers : list string) :
  Quiz.currentView s = Quiz.home →
  Forall (λ a, good_answer a = true) answers →
  let k := Z.of_nat (length answers) in
  let s' := Quiz.run s (Quiz.ClickTopic topicId :: mjoin (Quiz.round <$> answers)) in
  Quiz.difficulty s' = Z.min (1 + k) 5
  ∧ Quiz.score s' = Quiz.score s + 10 * Quiz.ladder k
  ∧ Quiz.streak s' = Quiz.streak s + k
  ∧ Quiz.questionsAnswered (Quiz.progress s')
    = Quiz.questionsAnswered (Quiz.progress s) + k.
Proof.
  intros Hv Hgood. cbv zeta.
  change (Quiz.run s (Quiz.ClickTopic topicId :: ?l))
    with (Quiz.run (Quiz.step s (Quiz.ClickTopic topicId)) l).
  unfold Quiz.step. rewrite Hv.
  set (s1 := Quiz.startLearning topicId s).
  enough (quiz_asking (Quiz.run s1 (mjoin (Quiz.round <$> answers)))
          ∧ Quiz.difficulty (Quiz.run s1 (mjoin (Quiz.round <$> answers)))
            = Z.min (1 + Z.of_nat (length answers)) 5
          ∧ Quiz.score (Quiz.run s1 (mjoin (Quiz.round <$> answers)))
            = Quiz.score s + 10 * Quiz.ladder (Z.of_nat (length answers))
          ∧ Quiz.streak (Quiz.run s1 (mjoin (Quiz.round <$> answers)))
            = Quiz.streak s + Z.of_nat (length answers)
          ∧ Quiz.questionsAnswered (Quiz.progress (Quiz.run s1 (mjoin (Quiz.round <$> answers))))
            = Quiz.questionsAnswered (Quiz.progress s) + Z.of_nat (length answers))
    as (_ & ?); [done|].
  induction answers as [|a l IH] using rev_ind.
  - change (Z.of_nat (length (@nil string))) with 0. unfold s1, Quiz.ladder. cbn.
    change (0 * (0 + 1) / 2) with 0. split; [done|]. repeat split; lia.
  - apply Forall_app in Hgood as [Hl Ha]. rewrite Forall_singleton in Ha.
    destruct (IH Hl) as (Hask & Hd & Hsc & Hst & Hqa). clear IH.
    rewrite quiz_rounds_snoc.
    assert (10 ≤ Z.of_nat (String.length a)) as Hlen.
    { unfold good_answer in Ha. apply Z.ltb_lt in Ha. lia. }
    pose proof (quiz_round _ a Hask Hlen) as Hround. cbv zeta in Hround.
    destruct Hround as (Hask' & Hd' & Hsc' & Hst' & Hqa').
    rewrite Ha in Hd', Hsc', Hst'. cbn [andb] in Hd'.
    rewrite length_app, Nat2Z.inj_add. simpl length.
    change (Z.of_nat 1) with 1.
    rewrite ladder_succ by lia.
    split; [done|]. rewrite Hd', Hsc', Hst', Hqa', Hd, Hsc, Hst, Hqa.
    destruct (Z.ltb_spec (Z.min (1 + Z.of_nat (length l)) 5) 5); repeat split; lia.
Qed.

Lemma quiz_ladder_witness :
  let s' := Quiz.run Quiz.initial
              (Quiz.ClickTopic "biology"
               :: mjoin (Quiz.round <$> replicate 7 "Plants turn light into sugar.")) in
  Quiz.difficulty s' = 5 ∧ Quiz.score s' = 250 ∧ Quiz.streak s' = 7
  ∧ Quiz.questionsAnswered (Quiz.progress s') = 7.
Proof.
  apply (quiz_ladder Quiz.initial "biology" (replicate 7 "Plants turn light into sugar.")).
  - reflexivity.
  - repeat constructor.
Defined.

(** X15 -- over any series of rounds whose answers are long enough to be
    submitted (10 characters or more), the streak is the number of good
    answers given since the last weak one, counted on top of the earlier
    streak when every answer was good, and the count of answers grows by
    one per round. *)
Theorem quiz_streak (s : Quiz.State) (answers : list string) :
  quiz_asking s →
  Forall (λ a, 10 ≤ Z.of_nat (String.length a)) answers →
  let s' := Quiz.run s (mjoin (Quiz.round <$> answers)) in
  Quiz.streak s'
  = leading_good (reverse answers)
    + (if forallb good_answer answers then Quiz.streak s else 0)
  ∧ Quiz.questionsAnswered (Quiz.progress s')
    = Quiz.questionsAnswered (Quiz.progress s) + Z.of_nat (length answers).
Proof.
  intros Hask Hlen. cbv zeta.
  enough (quiz_asking (Quiz.run s (mjoin (Quiz.round <$> answers)))
          ∧ Quiz.streak (Quiz.run s (mjoin (Quiz.round <$> answers)))
            = leading_good (reverse answers)
              + (if forallb good_answer answers then Quiz.streak s else 0)
          ∧ Quiz.questionsAnswered (Quiz.progress (Quiz.run s (mjoin (Quiz.round <$> answers))))
            = Quiz.questionsAnswered (Quiz.progress s) + Z.of_nat (length answers))
    as (_ & ?); [done|].
  induction answers as [|a l IH] using rev_ind.
  - cbn. split; [exact Hask | split; lia].
  - apply Forall_app in Hlen as [Hl Ha]. rewrite Forall_singleton in Ha.
    destruct (IH Hl) as (Hask' & Hst & Hqa). clear IH.
    rewrite quiz_rounds_snoc.
    pose proof (quiz_round _ a Hask' Ha) as Hround. cbv zeta in Hround.
    destruct Hround as (Hask'' & _ & _ & Hst' & Hqa').
    split; [done|]. rewrite Hst', Hqa', Hst, Hqa.
    rewrite reverse_app, forallb_app, length_app, Nat2Z.inj_add. simpl.
    destruct (good_answer a); simpl.
    + rewrite andb_true_r. split; lia.
    + rewrite andb_false_r. split; lia.
Qed.

Lemma quiz_streak_witness :
  let s' := Quiz.run (Quiz.step Quiz.initial (Quiz.ClickTopic "physics"))
              (mjoin (Quiz.round <$> [ "Force equals mass times acceleration.";
                                       "Not sure yet";
                                       "Energy is conserved in a closed system." ])) in
  Quiz.streak s' = 1 ∧ Quiz.questionsAnswered (Quiz.progress s') = 3.
Proof.
  apply (quiz_streak (Quiz.step Quiz.initial (Quiz.ClickTopic "physics"))
           [ "Force equals mass times acceleration."; "Not sure yet";
             "Energy is conserved in a closed system." ]).
  - split; reflexivity.
  - repeat constructor; vm_compute; discriminate.
Defined.

(** * Authentication, theme and what a reload keeps *)

Lemma resume_user (e : Exchange) (o : Outcome) (now : Z) (w : World) :
  user (state (resume e o now w)) = user (state w)
  ∧ isConnected (state (resume e o now w)) = isConnected (state w).
Proof.
  unfold resume, startNewStudy_resume, continueStudySession_resume, sendMessage_resume,
    backendReturns.
  destruct (awaiting e), o as [|[[text|] [sid|] [ph|]]],
    (activeStudy (closure e)) as [a|] eqn:Ha;
    cbn [response session_id phase];
    repeat match goal with
           | |- context [Js.truthy ?x] => destruct (Js.truthy x) eqn:?
           end;
    unfold generateMessageId, appendMessage, update; cbn; rewrite ?Ha; cbn; done.
Qed.

Lemma sendMessage_user (now : Z) (w : World) :
  user (state (sendMessage now w)) = user (state w)
  ∧ isConnected (state (sendMessage now w)) = isConnected (state w).
Proof.
  destruct (Js.truthy (Js.trim (inputValue (state w)))) eqn:Hin,
    (activeStudy (state w)) as [a|] eqn:Ha;
    try (by rewrite sendMessage_blocked by first [by left | by right]).
  by rewrite (sendMessage_fires a now w Ha Hin).
Qed.

Lemma startNewStudy_user (topic : string) (now : Z) (w : World) :
  user (state (startNewStudy topic now w)) = user (state w)
  ∧ isConnected (state (startNewStudy topic now w)) = isConnected (state w).
Proof.
  destruct (user (state w)) as [u|] eqn:Hu.
  - rewrite (startNewStudy_fires u topic now w Hu). simpl.
    unfold flushActive. by destruct (activeStudy (state w)); cbn; rewrite ?Hu.
  - unfold startNewStudy. by rewrite Hu.
Qed.

Lemma control_user (w : World) (c : Control) :
  user (state (control w c)) = user (state w)
  ∧ isConnected (state (control w c)) = isConnected (state w).
Proof.
  destruct c as [now|now|study| |topic now|text|n o now]; simpl.
  - unfold input_onKeyPress_Enter. destruct (_ && _); [apply sendMessage_user | done].
  - unfold send_onClick. destruct (send_disabled _); [done|].
    destruct (activeStudy (state w)); [apply sendMessage_user | apply startNewStudy_user].
  - unfold study_onClick, switchToStudy, continueStudySession, sendMessageToBackend,
      flushActive, update.
    by destruct (needsSession (state w) study), (activeStudy (state w)).
  - unfold newSession_onClick, flushActive, update. by destruct (activeStudy (state w)).
  - destruct (activeStudy (state w)); [done|].
    destruct (bool_decide _); [apply startNewStudy_user | done].
  - by destruct (_ || _).
  - unfold resolve. destruct (inflight w !! n) as [e|]; [|done].
    apply (resume_user e o now
             (mkWorld (state w) (messageIdRef w) (delete n (inflight w)) (sent w))).
Qed.

Section Saved.

Variable JSON_stringify : User → string.
Variable JSON_parse : string → option User.
Hypothesis parse_stringify : ∀ u, JSON_parse (JSON_stringify u) = Some u.
Hypothesis stringify_truthy : ∀ u, Js.truthy (JSON_stringify u) = true.

Lemma mount_restores (ls : gmap string string) (ou : option User) :
  ls !! "feynman_user" = JSON_stringify <$> ou →
  mount JSON_parse (fresh_app (Some ls))
  = mkApp (update (setUser ou) initial)
          (mkShell true (bool_decide (is_Some ou)) false
                   (bool_decide (ls !! "feynman_theme" = Some "dark")))
          (Some ls) 1.
Proof using parse_stringify stringify_truthy.
  intros Hls. unfold mount, fresh_app. cbn. rewrite Hls.
  destruct ou as [u|]; cbn.
  - rewrite stringify_truthy, parse_stringify. by destruct (bool_decide (_ = Some "dark")).
  - by destruct (bool_decide (_ = Some "dark")).
Qed.

Lemma saved_ok_mount (ls : gmap string string) (ou : option User) :
  ls !! "feynman_user" = JSON_stringify <$> ou →
  saved_ok JSON_stringify (mount JSON_parse (fresh_app (Some ls))).
Proof using parse_stringify stringify_truthy.
  intros Hls. rewrite (mount_restores ls ou Hls). unfold saved_ok. cbn.
  repeat split. by exists ls.
Qed.

Lemma saved_ok_step (a : App) (e : AppEvent) :
  saved_ok JSON_stringify a →
  saved_ok JSON_stringify (app_step JSON_stringify JSON_parse a e).
Proof using parse_stringify stringify_truthy.
  intros Hok. pose proof Hok as (Hm & Hauth & ls & Hls & Huser & Htheme).
  destruct e as [[| |name email now| | |]|c|ok]; cbn -[control].
  - (* Get Started *)
    destruct (_ && _); [|exact Hok]. unfold saved_ok. cbn. repeat split; [done..|].
    by exists ls.
  - (* Cancel *)
    destruct (_ && _); [|exact Hok]. unfold saved_ok. cbn. repeat split; [done..|].
    by exists ls.
  - (* Login *)
    destruct (_ && _); [|exact Hok]. unfold saved_ok, login. rewrite Hls. cbn.
    repeat split; [done|]. eexists. split; [done|].
    rewrite lookup_insert_eq, lookup_insert_ne by done. by split.
  - (* Logout *)
    destruct (_ && _); [|exact Hok]. unfold saved_ok, logout. rewrite Hls. cbn.
    repeat split; [done|]. eexists. split; [done|].
    rewrite lookup_delete_eq, lookup_delete_ne by done. by split.
  - (* theme *)
    destruct (_ && _); [|exact Hok]. unfold saved_ok, toggleDarkMode. rewrite Hls. cbn.
    repeat split; [done..|]. eexists. split; [done|].
    rewrite lookup_insert_eq, lookup_insert_ne by done. split; [done|].
    by destruct (isDarkMode (shell a)).
  - (* reload *)
    unfold reload. rewrite Hls. by eapply saved_ok_mount.
  - (* chat *)
    destruct (match c with Arrives _ _ _ => _ | _ => _ end); [|exact Hok].
    destruct (control_user (world a) c) as [Hu _].
    unfold saved_ok. cbn -[control]. rewrite Hu. repeat split; [done..|]. by exists ls.
  - (* probe *)
    destruct (probes a); [exact Hok|]. unfold saved_ok. cbn. repeat split; [done..|].
    by exists ls.
Qed.

Lemma saved_ok_run (ls : gmap string string) (ou : option User) (es : list AppEvent) :
  ls !! "feynman_user" = JSON_stringify <$> ou →
  saved_ok JSON_stringify
    (app_run JSON_stringify JSON_parse (mount JSON_parse (fresh_app (Some ls))) es).
Proof using parse_stringify stringify_truthy.
  intros Hls. induction es as [|e es IH] using rev_ind.
  - by eapply saved_ok_mount.
  - unfold app_run in *. rewrite foldl_app. by apply saved_ok_step.
Qed.

End Saved.

(** X16 -- with a [JSON.parse] that reads back what [JSON.stringify]
    writes, after any run of the shell's and the chat view's controls,
    responses and probe results (from a mount over a storage whose saved
    user, if any, was written by the app) the user is authenticated exactly
    when a user is set, and a page reload restores the user, the
    authentication and the theme and nothing else: studies, messages,
    session tokens, the input and the login modal are back to their initial
    values, and the storage is left as it was. *)
Theorem reload_restores (JSON_stringify : User → string) (JSON_parse : string → option User)
    (ls0 : gmap string string) (ou : option User) (es : list AppEvent) :
  (∀ u, JSON_parse (JSON_stringify u) = Some u) →
  (∀ u, Js.truthy (JSON_stringify u) = true) →
  ls0 !! "feynman_user" = JSON_stringify <$> ou →
  let a := app_run JSON_stringify JSON_parse (mount JSON_parse (fresh_app (Some ls0))) es in
  let a' := reload JSON_parse a in
  (isAuthenticated (shell a) = true ↔ is_Some (user (state (world a))))
  ∧ world a' = update (setUser (user (state (world a)))) initial
  ∧ shell a' = mkShell true (isAuthenticated (shell a)) false (isDarkMode (shell a))
  ∧ localStorage a' = localStorage a.
Proof.
  intros Hparse Htruthy Hls0. cbv zeta.
  destruct (saved_ok_run JSON_stringify JSON_parse Hparse Htruthy ls0 ou es Hls0)
    as (_ & Hauth & ls & Hls & Huser & Htheme).
  split.
  - rewrite Hauth. apply bool_decide_eq_true.
  - unfold reload. rewrite Hls.
    rewrite (mount_restores JSON_stringify JSON_parse Hparse Htruthy ls _ Huser).
    cbn [world shell localStorage]. by rewrite Hauth, Htheme.
Qed.

Lemma of_bits_of (p : positive) : of_bits (bits_of p) = p.
Proof. induction p as [p IH|p IH|]; simpl; by rewrite ?IH. Qed.

Lemma parse_stringify_bits (u : User) : parse_bits (stringify_bits u) = Some u.
Proof.
  unfold parse_bits, stringify_bits. rewrite of_bits_of, decode_encode. by destruct u.
Qed.

Lemma reload_restores_witness :
  let a := app_run stringify_bits parse_bits (mount parse_bits (fresh_app (Some ∅)))
             [ InShell OpenLogin;
               InShell (SubmitLogin "Ada" "ada@example.org" 1700000000000);
               InChat (ClickTopic "Calculus" 1700000001000);
               InShell ClickTheme ] in
  let a' := reload parse_bits a in
  (isAuthenticated (shell a) = true ↔ is_Some (user (state (world a))))
  ∧ world a' = update (setUser (user (state (world a)))) initial
  ∧ shell a' = mkShell true (isAuthenticated (shell a)) false (isDarkMode (shell a))
  ∧ localStorage a' = localStorage a.
Proof.
  apply (reload_restores stringify_bits parse_bits ∅ None).
  - exact parse_stringify_bits.
  - reflexivity.
  - reflexivity.
Defined.

Lemma no_storage_step (JSON_stringify : User → string) (JSON_parse : string → option User)
    (a : App) (e : AppEvent) :
  no_storage a → no_storage (app_step JSON_stringify JSON_parse a e).
Proof.
  intros Hno. pose proof Hno as (Hls & Hp & Hc & Hm).
  destruct e as [[| |name email now| | |]|c|ok]; cbn -[control].
  - by destruct (_ && _).
  - by destruct (_ && _).
  - destruct (_ && _); [|exact Hno]. unfold no_storage, login. rewrite Hls. by cbn.
  - destruct (_ && _); [|exact Hno]. unfold no_storage, logout. rewrite Hls. by cbn.
  - destruct (_ && _); [|exact Hno]. unfold no_storage, toggleDarkMode. rewrite Hls. by cbn.
  - unfold reload. by rewrite Hls.
  - destruct (match c with Arrives _ _ _ => _ | _ => _ end); [|exact Hno].
    destruct (control_user (world a) c) as [_ Hcon].
    unfold no_storage. cbn -[control]. by rewrite Hcon.
  - by rewrite Hp.
Qed.

(** X17 -- when [localStorage] cannot be used (every access throws), no
    health probe is ever issued, neither at the mount nor at a login, so
    whatever the user does the backend is shown as offline ([isConnected]
    stays false); the login and the theme live in the component only, and a
    reload gives the landing page of a first visit. *)
Theorem storage_unavailable (JSON_stringify : User → string)
    (JSON_parse : string → option User) (es : list AppEvent) :
  let a := app_run JSON_stringify JSON_parse (mount JSON_parse (fresh_app None)) es in
  isConnected (state (world a)) = false
  ∧ probes a = O
  ∧ localStorage a = None
  ∧ reload JSON_parse a = mkApp initial (mkShell true false false false) None 0.
Proof.
  cbv zeta.
  assert (no_storage (app_run JSON_stringify JSON_parse
                        (mount JSON_parse (fresh_app None)) es)) as (Hls & Hp & Hc & _).
  { induction es as [|e es IH] using rev_ind; [done|].
    unfold app_run in *. rewrite foldl_app. by apply no_storage_step. }
  repeat split; [done..|]. unfold reload. by rewrite Hls.
Qed.

(** X18 -- a saved user that [JSON.parse] rejects is swallowed by the
    [try]: the mount shows the landing page, does not restore a saved dark
    theme, issues no health probe and leaves the storage as it is, so every
    reload does the same; the next login overwrites the entry, and a reload
    after it restores that user, authenticated, with the saved theme, and
    probes the backend. *)
Theorem corrupt_saved_user (JSON_stringify : User → string)
    (JSON_parse : string → option User)
    (ls : gmap string string) (saved name email : string) (now : Z) :
  (∀ u, JSON_parse (JSON_stringify u) = Some u) →
  (∀ u, Js.truthy (JSON_stringify u) = true) →
  ls !! "feynman_user" = Some saved →
  Js.truthy saved = true →
  JSON_parse saved = None →
  Js.truthy name = true →
  Js.truthy email = true →
  let a0 := mount JSON_parse (fresh_app (Some ls)) in
  let a1 := app_run JSON_stringify JSON_parse a0
              [InShell OpenLogin; InShell (SubmitLogin name email now)] in
  let a2 := reload JSON_parse a1 in
  a0 = mkApp initial (mkShell true false false false) (Some ls) 0
  ∧ reload JSON_parse a0 = a0
  ∧ user (state (world a2)) = user (state (world a1))
  ∧ is_Some (user (state (world a2)))
  ∧ shell a2 = mkShell true true false (bool_decide (ls !! "feynman_theme" = Some "dark"))
  ∧ probes a2 = 1%nat.
Proof.
  intros Hparse Htruthy Hls Hsaved Hbad Hname Hemail. cbv zeta.
  assert (mount JSON_parse (fresh_app (Some ls))
          = mkApp initial (mkShell true false false false) (Some ls) 0) as Hmount.
  { unfold mount, fresh_app. cbn. rewrite Hls. cbn. by rewrite Hsaved, Hbad. }
  rewrite Hmount. split; [done|]. split; [done|].
  unfold app_run. cbn -[mount login reload]. rewrite Hname, Hemail. cbn -[mount login reload].
  unfold reload, login. cbn -[mount].
  set (u := mkUser _ _ _ _).
  rewrite (mount_restores JSON_stringify JSON_parse Hparse Htruthy _ (Some u))
    by by rewrite lookup_insert_eq.
  cbn. rewrite lookup_insert_ne by done. by repeat split.
Qed.

Lemma corrupt_saved_user_witness :
  let ls : gmap string string :=
    <["feynman_user" := "not json"]> (<["feynman_theme" := "dark"]> ∅) in
  let a0 := mount parse_bits (fresh_app (Some ls)) in
  let a1 := app_run stringify_bits parse_bits a0
              [InShell OpenLogin; InShell (SubmitLogin "Ada" "ada@example.org" 1700000000000)] in
  let a2 := reload parse_bits a1 in
  a0 = mkApp initial (mkShell true false false false) (Some ls) 0
  ∧ reload parse_bits a0 = a0
  ∧ user (state (world a2)) = user (state (world a1))
  ∧ is_Some (user (state (world a2)))
  ∧ shell a2 = mkShell true true false (bool_decide (ls !! "feynman_theme" = Some "dark"))
  ∧ probes a2 = 1%nat.
Proof.
  apply (corrupt_saved_user stringify_bits parse_bits
           (<["feynman_user" := "not json"]> (<["feynman_theme" := "dark"]> ∅))
           "not json" "Ada" "ada@example.org" 1700000000000).
  - exact parse_stringify_bits.
  - reflexivity.
  - reflexivity.
  - reflexivity.
  - reflexivity.
  - reflexivity.
  - reflexivity.
Defined.

(** * The progress badge *)



